(** * Energy reports and reservation listings: a shallow embedding

    The development follows the Python sources of the coursework
    repository: [TaskF/task_f.py] (loading hourly measurements, the daily
    index and the three report builders), and the [long_reservations]
    printers of [TaskC/task_c.py], [TaskG/task_g_dict.py] and
    [TaskG/task_g_class.py].

    Conventions of the embedding.
    - A Python [float] is an IEEE-754 binary64 value, [spec_float] of the
      standard library with precision 53 and maximal exponent 1024.
    - A Python [str] is a [string] holding the UTF-8 encoding of the
      text; operations that depend on characters (slicing, [strip],
      [lower], the reading of numbers) work on the encoded characters.
    - A Python [dict] is an insertion-ordered association list with unique
      keys.
    - A raised exception is the [Raise] case of [result].
    - The report builders take the values the input helpers return
      ([parse_date_input] a date, [ask_int_in_range] an integer of the
      range); the console itself is a world of input lines still to be
      read, output written and the content of the report file.
    - Library behaviour is that of CPython 3.11 on Linux. *)

From Stdlib Require Import ZArith List String Ascii Bool Lia Permutation.
From Stdlib Require Import Floats.SpecFloat Numbers.DecimalString.
From Equations Require Import Equations.
Import ListNotations.

#[local] Open Scope string_scope.
#[local] Open Scope Z_scope.

(* ===================================================================== *)
(** * Exceptions *)

Inductive exn : Type :=
| FileNotFoundError
| ValueError
| IndexError.

Inductive result (A : Type) : Type :=
| Ok (a : A)
| Raise (e : exn).
Arguments Ok {A} a.
Arguments Raise {A} e.

Definition bind {A B} (r : result A) (k : A -> result B) : result B :=
  match r with
  | Ok a => k a
  | Raise e => Raise e
  end.

Notation "x <- r ;; k" := (bind r (fun x => k))
  (at level 61, r at next level, right associativity).

(** A value together with the equation that it is the value of [x]; the
    loops below match on a test and keep the outcome as a fact. *)
Definition inspect {A : Type} (x : A) : { y : A | x = y } :=
  exist _ x eq_refl.

(* ===================================================================== *)
(** * Unicode: the character properties Python strings use

    The tables are those of Unicode 14.0.0, the version of CPython 3.11:
    the characters [str.isspace] accepts, the decimal digits, the
    lower-case mapping and the two classes the rule for a final sigma
    needs.  A character is given by its code point. *)

Module Unicode.

Definition in_ranges (ranges : list (Z * Z)) (cp : Z) : bool :=
  existsb (fun r => (fst r <=? cp) && (cp <=? snd r)) ranges.

(** The characters of [str.isspace]. *)
Definition SPACE : list Z :=
  [9; 10; 11; 12; 13; 28; 29; 30; 31; 32; 133; 160; 5760; 8192; 8193; 8194;
   8195; 8196; 8197; 8198; 8199; 8200; 8201; 8202; 8232; 8233; 8239; 8287;
   12288 ].

Definition is_space (cp : Z) : bool := existsb (Z.eqb cp) SPACE.

(** The digit zero of each run of decimal digits [0..9]. *)
Definition DECIMAL_ZERO : list Z :=
  [48; 1632; 1776; 1984; 2406; 2534; 2662; 2790; 2918; 3046; 3174; 3302;
   3430; 3558; 3664; 3792; 3872; 4160; 4240; 6112; 6160; 6470; 6608; 6784;
   6800; 6992; 7088; 7232; 7248; 42528; 43216; 43264; 43472; 43504; 43600;
   44016; 65296; 66720; 68912; 69734; 69872; 69942; 70096; 70384; 70736;
   70864; 71248; 71360; 71472; 71904; 72016; 72784; 73040; 73120; 92768;
   92864; 93008; 120782; 120792; 120802; 120812; 120822; 123200; 123632;
   125264; 130032 ].

(** The value of a decimal digit. *)
Definition to_decimal (cp : Z) : option Z :=
  match find (fun z => (z <=? cp) && (cp <=? z + 9)) DECIMAL_ZERO with
  | Some z => Some (cp - z)
  | None => None
  end.

(** The lower-case mapping: [(first, last, step, delta)] maps every
    [step]-th code point from [first] to [last] to itself plus
    [delta]. *)
Definition LOWER : list (Z * Z * Z * Z) :=
  [ (65, 90, 1, 32); (192, 214, 1, 32); (216, 222, 1, 32); (256, 302, 2, 1);
   (306, 310, 2, 1); (313, 327, 2, 1); (330, 374, 2, 1); (376, 376, 1,
   -121); (377, 381, 2, 1); (385, 385, 1, 210); (386, 388, 2, 1); (390, 390,
   1, 206); (391, 391, 1, 1); (393, 394, 1, 205); (395, 395, 1, 1); (398,
   398, 1, 79); (399, 399, 1, 202); (400, 400, 1, 203); (401, 401, 1, 1);
   (403, 403, 1, 205); (404, 404, 1, 207); (406, 406, 1, 211); (407, 407, 1,
   209); (408, 408, 1, 1); (412, 412, 1, 211); (413, 413, 1, 213); (415,
   415, 1, 214); (416, 420, 2, 1); (422, 422, 1, 218); (423, 423, 1, 1);
   (425, 425, 1, 218); (428, 428, 1, 1); (430, 430, 1, 218); (431, 431, 1,
   1); (433, 434, 1, 217); (435, 437, 2, 1); (439, 439, 1, 219); (440, 440,
   1, 1); (444, 444, 1, 1); (452, 452, 1, 2); (453, 453, 1, 1); (455, 455,
   1, 2); (456, 456, 1, 1); (458, 458, 1, 2); (459, 475, 2, 1); (478, 494,
   2, 1); (497, 497, 1, 2); (498, 500, 2, 1); (502, 502, 1, -97); (503, 503,
   1, -56); (504, 542, 2, 1); (544, 544, 1, -130); (546, 562, 2, 1); (570,
   570, 1, 10795); (571, 571, 1, 1); (573, 573, 1, -163); (574, 574, 1,
   10792); (577, 577, 1, 1); (579, 579, 1, -195); (580, 580, 1, 69); (581,
   581, 1, 71); (582, 590, 2, 1); (880, 882, 2, 1); (886, 886, 1, 1); (895,
   895, 1, 116); (902, 902, 1, 38); (904, 906, 1, 37); (908, 908, 1, 64);
   (910, 911, 1, 63); (913, 929, 1, 32); (931, 939, 1, 32); (975, 975, 1,
   8); (984, 1006, 2, 1); (1012, 1012, 1, -60); (1015, 1015, 1, 1); (1017,
   1017, 1, -7); (1018, 1018, 1, 1); (1021, 1023, 1, -130); (1024, 1039, 1,
   80); (1040, 1071, 1, 32); (1120, 1152, 2, 1); (1162, 1214, 2, 1); (1216,
   1216, 1, 15); (1217, 1229, 2, 1); (1232, 1326, 2, 1); (1329, 1366, 1,
   48); (4256, 4293, 1, 7264); (4295, 4295, 1, 7264); (4301, 4301, 1, 7264);
   (5024, 5103, 1, 38864); (5104, 5109, 1, 8); (7312, 7354, 1, -3008);
   (7357, 7359, 1, -3008); (7680, 7828, 2, 1); (7838, 7838, 1, -7615);
   (7840, 7934, 2, 1); (7944, 7951, 1, -8); (7960, 7965, 1, -8); (7976,
   7983, 1, -8); (7992, 7999, 1, -8); (8008, 8013, 1, -8); (8025, 8031, 2,
   -8); (8040, 8047, 1, -8); (8072, 8079, 1, -8); (8088, 8095, 1, -8);
   (8104, 8111, 1, -8); (8120, 8121, 1, -8); (8122, 8123, 1, -74); (8124,
   8124, 1, -9); (8136, 8139, 1, -86); (8140, 8140, 1, -9); (8152, 8153, 1,
   -8); (8154, 8155, 1, -100); (8168, 8169, 1, -8); (8170, 8171, 1, -112);
   (8172, 8172, 1, -7); (8184, 8185, 1, -128); (8186, 8187, 1, -126); (8188,
   8188, 1, -9); (8486, 8486, 1, -7517); (8490, 8490, 1, -8383); (8491,
   8491, 1, -8262); (8498, 8498, 1, 28); (8544, 8559, 1, 16); (8579, 8579,
   1, 1); (9398, 9423, 1, 26); (11264, 11311, 1, 48); (11360, 11360, 1, 1);
   (11362, 11362, 1, -10743); (11363, 11363, 1, -3814); (11364, 11364, 1,
   -10727); (11367, 11371, 2, 1); (11373, 11373, 1, -10780); (11374, 11374,
   1, -10749); (11375, 11375, 1, -10783); (11376, 11376, 1, -10782); (11378,
   11378, 1, 1); (11381, 11381, 1, 1); (11390, 11391, 1, -10815); (11392,
   11490, 2, 1); (11499, 11501, 2, 1); (11506, 11506, 1, 1); (42560, 42604,
   2, 1); (42624, 42650, 2, 1); (42786, 42798, 2, 1); (42802, 42862, 2, 1);
   (42873, 42875, 2, 1); (42877, 42877, 1, -35332); (42878, 42886, 2, 1);
   (42891, 42891, 1, 1); (42893, 42893, 1, -42280); (42896, 42898, 2, 1);
   (42902, 42920, 2, 1); (42922, 42922, 1, -42308); (42923, 42923, 1,
   -42319); (42924, 42924, 1, -42315); (42925, 42925, 1, -42305); (42926,
   42926, 1, -42308); (42928, 42928, 1, -42258); (42929, 42929, 1, -42282);
   (42930, 42930, 1, -42261); (42931, 42931, 1, 928); (42932, 42946, 2, 1);
   (42948, 42948, 1, -48); (42949, 42949, 1, -42307); (42950, 42950, 1,
   -35384); (42951, 42953, 2, 1); (42960, 42960, 1, 1); (42966, 42968, 2,
   1); (42997, 42997, 1, 1); (65313, 65338, 1, 32); (66560, 66599, 1, 40);
   (66736, 66771, 1, 40); (66928, 66964, 2, 39); (66929, 66937, 2, 39);
   (66941, 66953, 2, 39); (66957, 66961, 2, 39); (66965, 66965, 1, 39);
   (68736, 68786, 1, 64); (71840, 71871, 1, 32); (93760, 93791, 1, 32);
   (125184, 125217, 1, 34) ].

(** The lower case of a character where it differs from the character;
    U+0130 alone becomes two characters. *)
Definition to_lower (cp : Z) : option (list Z) :=
  if cp =? 304 then Some [105; 775]
  else
    match find (fun '(first, last, step, _) =>
                  (first <=? cp) && (cp <=? last)
                  && ((cp - first) mod step =? 0)) LOWER with
    | Some (_, _, _, delta) => Some [cp + delta]
    | None => None
    end.

(** The case-ignorable characters. *)
Definition CASE_IGNORABLE : list (Z * Z) :=
  [ (39, 39); (46, 46); (58, 58); (94, 94); (96, 96); (168, 168); (173, 173);
   (175, 175); (180, 180); (183, 184); (688, 879); (884, 885); (890, 890);
   (900, 901); (903, 903); (1155, 1161); (1369, 1369); (1375, 1375); (1425,
   1469); (1471, 1471); (1473, 1474); (1476, 1477); (1479, 1479); (1524,
   1524); (1536, 1541); (1552, 1562); (1564, 1564); (1600, 1600); (1611,
   1631); (1648, 1648); (1750, 1757); (1759, 1768); (1770, 1773); (1807,
   1807); (1809, 1809); (1840, 1866); (1958, 1968); (2027, 2037); (2042,
   2042); (2045, 2045); (2070, 2093); (2137, 2139); (2184, 2184); (2192,
   2193); (2200, 2207); (2249, 2306); (2362, 2362); (2364, 2364); (2369,
   2376); (2381, 2381); (2385, 2391); (2402, 2403); (2417, 2417); (2433,
   2433); (2492, 2492); (2497, 2500); (2509, 2509); (2530, 2531); (2558,
   2558); (2561, 2562); (2620, 2620); (2625, 2626); (2631, 2632); (2635,
   2637); (2641, 2641); (2672, 2673); (2677, 2677); (2689, 2690); (2748,
   2748); (2753, 2757); (2759, 2760); (2765, 2765); (2786, 2787); (2810,
   2815); (2817, 2817); (2876, 2876); (2879, 2879); (2881, 2884); (2893,
   2893); (2901, 2902); (2914, 2915); (2946, 2946); (3008, 3008); (3021,
   3021); (3072, 3072); (3076, 3076); (3132, 3132); (3134, 3136); (3142,
   3144); (3146, 3149); (3157, 3158); (3170, 3171); (3201, 3201); (3260,
   3260); (3263, 3263); (3270, 3270); (3276, 3277); (3298, 3299); (3328,
   3329); (3387, 3388); (3393, 3396); (3405, 3405); (3426, 3427); (3457,
   3457); (3530, 3530); (3538, 3540); (3542, 3542); (3633, 3633); (3636,
   3642); (3654, 3662); (3761, 3761); (3764, 3772); (3782, 3782); (3784,
   3789); (3864, 3865); (3893, 3893); (3895, 3895); (3897, 3897); (3953,
   3966); (3968, 3972); (3974, 3975); (3981, 3991); (3993, 4028); (4038,
   4038); (4141, 4144); (4146, 4151); (4153, 4154); (4157, 4158); (4184,
   4185); (4190, 4192); (4209, 4212); (4226, 4226); (4229, 4230); (4237,
   4237); (4253, 4253); (4348, 4348); (4957, 4959); (5906, 5908); (5938,
   5939); (5970, 5971); (6002, 6003); (6068, 6069); (6071, 6077); (6086,
   6086); (6089, 6099); (6103, 6103); (6109, 6109); (6155, 6159); (6211,
   6211); (6277, 6278); (6313, 6313); (6432, 6434); (6439, 6440); (6450,
   6450); (6457, 6459); (6679, 6680); (6683, 6683); (6742, 6742); (6744,
   6750); (6752, 6752); (6754, 6754); (6757, 6764); (6771, 6780); (6783,
   6783); (6823, 6823); (6832, 6862); (6912, 6915); (6964, 6964); (6966,
   6970); (6972, 6972); (6978, 6978); (7019, 7027); (7040, 7041); (7074,
   7077); (7080, 7081); (7083, 7085); (7142, 7142); (7144, 7145); (7149,
   7149); (7151, 7153); (7212, 7219); (7222, 7223); (7288, 7293); (7376,
   7378); (7380, 7392); (7394, 7400); (7405, 7405); (7412, 7412); (7416,
   7417); (7468, 7530); (7544, 7544); (7579, 7679); (8125, 8125); (8127,
   8129); (8141, 8143); (8157, 8159); (8173, 8175); (8189, 8190); (8203,
   8207); (8216, 8217); (8228, 8228); (8231, 8231); (8234, 8238); (8288,
   8292); (8294, 8303); (8305, 8305); (8319, 8319); (8336, 8348); (8400,
   8432); (11388, 11389); (11503, 11505); (11631, 11631); (11647, 11647);
   (11744, 11775); (11823, 11823); (12293, 12293); (12330, 12333); (12337,
   12341); (12347, 12347); (12441, 12446); (12540, 12542); (40981, 40981);
   (42232, 42237); (42508, 42508); (42607, 42610); (42612, 42621); (42623,
   42623); (42652, 42655); (42736, 42737); (42752, 42785); (42864, 42864);
   (42888, 42890); (42994, 42996); (43000, 43001); (43010, 43010); (43014,
   43014); (43019, 43019); (43045, 43046); (43052, 43052); (43204, 43205);
   (43232, 43249); (43263, 43263); (43302, 43309); (43335, 43345); (43392,
   43394); (43443, 43443); (43446, 43449); (43452, 43453); (43471, 43471);
   (43493, 43494); (43561, 43566); (43569, 43570); (43573, 43574); (43587,
   43587); (43596, 43596); (43632, 43632); (43644, 43644); (43696, 43696);
   (43698, 43700); (43703, 43704); (43710, 43711); (43713, 43713); (43741,
   43741); (43756, 43757); (43763, 43764); (43766, 43766); (43867, 43871);
   (43881, 43883); (44005, 44005); (44008, 44008); (44013, 44013); (64286,
   64286); (64434, 64450); (65024, 65039); (65043, 65043); (65056, 65071);
   (65106, 65106); (65109, 65109); (65279, 65279); (65287, 65287); (65294,
   65294); (65306, 65306); (65342, 65342); (65344, 65344); (65392, 65392);
   (65438, 65439); (65507, 65507); (65529, 65531); (66045, 66045); (66272,
   66272); (66422, 66426); (67456, 67461); (67463, 67504); (67506, 67514);
   (68097, 68099); (68101, 68102); (68108, 68111); (68152, 68154); (68159,
   68159); (68325, 68326); (68900, 68903); (69291, 69292); (69446, 69456);
   (69506, 69509); (69633, 69633); (69688, 69702); (69744, 69744); (69747,
   69748); (69759, 69761); (69811, 69814); (69817, 69818); (69821, 69821);
   (69826, 69826); (69837, 69837); (69888, 69890); (69927, 69931); (69933,
   69940); (70003, 70003); (70016, 70017); (70070, 70078); (70089, 70092);
   (70095, 70095); (70191, 70193); (70196, 70196); (70198, 70199); (70206,
   70206); (70367, 70367); (70371, 70378); (70400, 70401); (70459, 70460);
   (70464, 70464); (70502, 70508); (70512, 70516); (70712, 70719); (70722,
   70724); (70726, 70726); (70750, 70750); (70835, 70840); (70842, 70842);
   (70847, 70848); (70850, 70851); (71090, 71093); (71100, 71101); (71103,
   71104); (71132, 71133); (71219, 71226); (71229, 71229); (71231, 71232);
   (71339, 71339); (71341, 71341); (71344, 71349); (71351, 71351); (71453,
   71455); (71458, 71461); (71463, 71467); (71727, 71735); (71737, 71738);
   (71995, 71996); (71998, 71998); (72003, 72003); (72148, 72151); (72154,
   72155); (72160, 72160); (72193, 72202); (72243, 72248); (72251, 72254);
   (72263, 72263); (72273, 72278); (72281, 72283); (72330, 72342); (72344,
   72345); (72752, 72758); (72760, 72765); (72767, 72767); (72850, 72871);
   (72874, 72880); (72882, 72883); (72885, 72886); (73009, 73014); (73018,
   73018); (73020, 73021); (73023, 73029); (73031, 73031); (73104, 73105);
   (73109, 73109); (73111, 73111); (73459, 73460); (78896, 78904); (92912,
   92916); (92976, 92982); (92992, 92995); (94031, 94031); (94095, 94111);
   (94176, 94177); (94179, 94180); (110576, 110579); (110581, 110587);
   (110589, 110590); (113821, 113822); (113824, 113827); (118528, 118573);
   (118576, 118598); (119143, 119145); (119155, 119170); (119173, 119179);
   (119210, 119213); (119362, 119364); (121344, 121398); (121403, 121452);
   (121461, 121461); (121476, 121476); (121499, 121503); (121505, 121519);
   (122880, 122886); (122888, 122904); (122907, 122913); (122915, 122916);
   (122918, 122922); (123184, 123197); (123566, 123566); (123628, 123631);
   (125136, 125142); (125252, 125259); (127995, 127999); (917505, 917505);
   (917536, 917631); (917760, 917999) ].

(** The cased characters that are not case-ignorable. *)
Definition CASED : list (Z * Z) :=
  [ (65, 90); (97, 122); (170, 170); (181, 181); (186, 186); (192, 214);
   (216, 246); (248, 442); (444, 447); (452, 659); (661, 687); (880, 883);
   (886, 887); (891, 893); (895, 895); (902, 902); (904, 906); (908, 908);
   (910, 929); (931, 1013); (1015, 1153); (1162, 1327); (1329, 1366); (1376,
   1416); (4256, 4293); (4295, 4295); (4301, 4301); (4304, 4346); (4349,
   4351); (5024, 5109); (5112, 5117); (7296, 7304); (7312, 7354); (7357,
   7359); (7424, 7467); (7531, 7543); (7545, 7578); (7680, 7957); (7960,
   7965); (7968, 8005); (8008, 8013); (8016, 8023); (8025, 8025); (8027,
   8027); (8029, 8029); (8031, 8061); (8064, 8116); (8118, 8124); (8126,
   8126); (8130, 8132); (8134, 8140); (8144, 8147); (8150, 8155); (8160,
   8172); (8178, 8180); (8182, 8188); (8450, 8450); (8455, 8455); (8458,
   8467); (8469, 8469); (8473, 8477); (8484, 8484); (8486, 8486); (8488,
   8488); (8490, 8493); (8495, 8500); (8505, 8505); (8508, 8511); (8517,
   8521); (8526, 8526); (8544, 8575); (8579, 8580); (9398, 9449); (11264,
   11387); (11390, 11492); (11499, 11502); (11506, 11507); (11520, 11557);
   (11559, 11559); (11565, 11565); (42560, 42605); (42624, 42651); (42786,
   42863); (42865, 42887); (42891, 42894); (42896, 42954); (42960, 42961);
   (42963, 42963); (42965, 42969); (42997, 42998); (43002, 43002); (43824,
   43866); (43872, 43880); (43888, 43967); (64256, 64262); (64275, 64279);
   (65313, 65338); (65345, 65370); (66560, 66639); (66736, 66771); (66776,
   66811); (66928, 66938); (66940, 66954); (66956, 66962); (66964, 66965);
   (66967, 66977); (66979, 66993); (66995, 67001); (67003, 67004); (68736,
   68786); (68800, 68850); (71840, 71903); (93760, 93823); (119808, 119892);
   (119894, 119964); (119966, 119967); (119970, 119970); (119973, 119974);
   (119977, 119980); (119982, 119993); (119995, 119995); (119997, 120003);
   (120005, 120069); (120071, 120074); (120077, 120084); (120086, 120092);
   (120094, 120121); (120123, 120126); (120128, 120132); (120134, 120134);
   (120138, 120144); (120146, 120485); (120488, 120512); (120514, 120538);
   (120540, 120570); (120572, 120596); (120598, 120628); (120630, 120654);
   (120656, 120686); (120688, 120712); (120714, 120744); (120746, 120770);
   (120772, 120779); (122624, 122633); (122635, 122654); (125184, 125251);
   (127280, 127305); (127312, 127337); (127344, 127369) ].

Definition case_ignorable (cp : Z) : bool := in_ranges CASE_IGNORABLE cp.
Definition cased (cp : Z) : bool := in_ranges CASED cp.

Fixpoint skip_ignorable (cps : list Z) : list Z :=
  match cps with
  | c :: rest => if case_ignorable c then skip_ignorable rest else cps
  | [] => []
  end.

(** A capital sigma is final when a cased character comes before it and
    none after it, case-ignorable characters apart; [before] lists the
    characters before it, the nearest first. *)
Definition final_sigma (before after : list Z) : bool :=
  match skip_ignorable before with
  | c :: _ =>
      cased c
      && match skip_ignorable after with
         | c' :: _ => negb (cased c')
         | [] => true
         end
  | [] => false
  end.

End Unicode.

(* ===================================================================== *)
(** * Python strings

    A [str] is held as its UTF-8 encoding: a character is a lead byte
    with the continuation bytes that follow it.  Searching, counting,
    splitting and replacing ASCII characters are the same on bytes and
    on characters; slicing, [strip], [lower] and the reading of numbers
    go through the characters. *)

Module PyStr.

Definition byte (c : ascii) : Z := Z.of_nat (nat_of_ascii c).

Definition of_byte (n : Z) : ascii := ascii_of_nat (Z.to_nat n).

(** A continuation byte. *)
Definition is_cont (c : ascii) : bool := (128 <=? byte c) && (byte c <? 192).

(** The characters of a text. *)
Fixpoint chars (s : string) : list string :=
  match s with
  | EmptyString => []
  | String b rest =>
      let cs := chars rest in
      match rest with
      | String b2 _ =>
          if is_cont b2 then
            match cs with
            | c :: cs' => String b c :: cs'
            | [] => [String b EmptyString]
            end
          else String b EmptyString :: cs
      | EmptyString => String b EmptyString :: cs
      end
  end.

(** ["".join(cs)] *)
Fixpoint join (cs : list string) : string :=
  match cs with
  | [] => EmptyString
  | c :: rest => c ++ join rest
  end.

(** The code point of a character. *)
Fixpoint continuation (acc : Z) (s : string) : Z :=
  match s with
  | EmptyString => acc
  | String b rest => continuation (acc * 64 + byte b mod 64) rest
  end.

Definition code_point (c : string) : Z :=
  match c with
  | EmptyString => 0
  | String b EmptyString => byte b
  | String b rest =>
      continuation (byte b mod 2 ^ (6 - Z.of_nat (String.length rest))) rest
  end.

(** The character of a code point. *)
Definition encode (cp : Z) : string :=
  if cp <? 128 then String (of_byte cp) EmptyString
  else if cp <? 2048 then
    String (of_byte (192 + cp / 64))
      (String (of_byte (128 + cp mod 64)) EmptyString)
  else if cp <? 65536 then
    String (of_byte (224 + cp / 4096))
      (String (of_byte (128 + cp / 64 mod 64))
         (String (of_byte (128 + cp mod 64)) EmptyString))
  else
    String (of_byte (240 + cp / 262144))
      (String (of_byte (128 + cp / 4096 mod 64))
         (String (of_byte (128 + cp / 64 mod 64))
            (String (of_byte (128 + cp mod 64)) EmptyString))).

(** [c.isspace()] for a character. *)
Definition SPACE_CHARS : list string := map encode Unicode.SPACE.

Definition is_space (c : string) : bool := existsb (String.eqb c) SPACE_CHARS.

Fixpoint drop_space (cs : list string) : list string :=
  match cs with
  | c :: rest => if is_space c then drop_space rest else cs
  | [] => []
  end.

(** [s.strip()] *)
Definition strip (s : string) : string :=
  join (rev (drop_space (rev (drop_space (chars s))))).

(** [s[:n]] for [n >= 0]. *)
Definition take (n : nat) (s : string) : string := join (firstn n (chars s)).

(** [s.lower()]: each character by the lower-case mapping, a capital
    sigma (U+03A3) by its place in the word. *)
Fixpoint lower_from (before : list Z) (cs : list string) : list string :=
  match cs with
  | [] => []
  | c :: rest =>
      let cp := code_point c in
      (if cp =? 931 then
         encode (if Unicode.final_sigma before (map code_point rest)
                 then 962 else 963)
       else match Unicode.to_lower cp with
            | Some l => join (map encode l)
            | None => c
            end)
      :: lower_from (cp :: before) rest
  end.

Definition lower (s : string) : string := join (lower_from [] (chars s)).

(** The ASCII text that [int] and [float] read: decimal digits of any
    script become [0..9], whitespace characters outside ASCII a space,
    and any other character outside ASCII a question mark. *)
Definition to_ascii_char (c : string) : string :=
  match c with
  | String b EmptyString =>
      if byte b <? 128 then c else "?"
  | _ =>
      if is_space c then " "
      else match Unicode.to_decimal (code_point c) with
           | Some v => String (of_byte (48 + v)) EmptyString
           | None => "?"
           end
  end.

Definition to_ascii (s : string) : string := join (map to_ascii_char (chars s)).

Definition is_digit (c : ascii) : bool :=
  let n := Z.of_nat (nat_of_ascii c) in (48 <=? n) && (n <=? 57).

Definition digit_val (c : ascii) : Z := Z.of_nat (nat_of_ascii c) - 48.

(** Lower case of the letters [A..Z] only, as C compares the words
    [inf] and [nan]. *)
Definition lower_ascii_char (c : ascii) : ascii :=
  let n := nat_of_ascii c in
  if ((65 <=? Z.of_nat n) && (Z.of_nat n <=? 90))%bool
  then ascii_of_nat (n + 32) else c.

Fixpoint lower_ascii (s : string) : string :=
  match s with
  | String c s' => String (lower_ascii_char c) (lower_ascii s')
  | EmptyString => EmptyString
  end.

(** [s.replace(old, new)] for one-character [old] and [new]. *)
Fixpoint replace (old new : ascii) (s : string) : string :=
  match s with
  | String c s' =>
      String (if Ascii.eqb c old then new else c) (replace old new s')
  | EmptyString => EmptyString
  end.

(** [s.count(c)] for a one-character [c]. *)
Fixpoint count (c : ascii) (s : string) : Z :=
  match s with
  | String a s' => (if Ascii.eqb a c then 1 else 0) + count c s'
  | EmptyString => 0
  end.

(** [sub in s] *)
Fixpoint contains (sub s : string) : bool :=
  String.prefix sub s ||
  match s with
  | String _ s' => contains sub s'
  | EmptyString => false
  end.

(** [c * n] for a one-character string [c]. *)
Fixpoint repeat (c : ascii) (n : nat) : string :=
  match n with
  | O => EmptyString
  | S n' => String c (repeat c n')
  end.

(** [str(n)] for an [int]. *)
Definition of_Z (n : Z) : string := NilZero.string_of_int (Z.to_int n).

(** [all(c.isdigit() for c in s)] *)
Fixpoint all_digits (s : string) : bool :=
  match s with
  | String c s' => is_digit c && all_digits s'
  | EmptyString => true
  end.

(** Zero padding to a minimal width, as the [%02d]-like fields of
    [strftime]. *)
Definition zfill (w : nat) (s : string) : string :=
  repeat "0" (w - String.length s) ++ s.

End PyStr.

(* ===================================================================== *)
(** * Python floats: IEEE-754 binary64 *)

Module PyFloat.

Definition float := spec_float.

Definition prec : Z := 53.
Definition emax : Z := 1024.

Definition add : float -> float -> float := SFadd prec emax.
Definition div : float -> float -> float := SFdiv prec emax.

(** [float(n)] for an [int]: the nearest binary64, ties to even. *)
Definition of_Z (n : Z) : float := binary_normalize prec emax n 0 false.

Definition zero : float := S754_zero false.


(** The decimal literal [m * 10^e10] (sign [neg]) as Python reads it:
    the nearest binary64 of the exact rational, ties to even. *)
Definition of_decimal (neg : bool) (m : Z) (e10 : Z) : float :=
  match m with
  | Z0 => S754_zero neg
  | Zpos p =>
      if 0 <=? e10
      then binary_normalize prec emax
             ((if neg then -1 else 1) * (m * 10 ^ e10)) 0 false
      else SFdiv prec emax (S754_finite neg p 0)
             (S754_finite false (Z.to_pos (10 ^ (- e10))) 0)
  | Zneg _ => S754_nan
  end.

(** [x * 100] rounded to the nearest integer, ties to even, computed on
    the exact value [m * 2^e] of a finite float. *)
Definition round_hundredths (m : positive) (e : Z) : Z :=
  if 0 <=? e then Zpos m * 100 * 2 ^ e
  else
    let d := 2 ^ (- e) in
    let q := (Zpos m * 100) / d in
    let r := (Zpos m * 100) mod d in
    match (2 * r) ?= d with
    | Lt => q
    | Gt => q + 1
    | Eq => if Z.even q then q else q + 1
    end.

(** The digits of [n / 100 . n mod 100] for [n >= 0]. *)
Definition fixed2 (n : Z) : string :=
  PyStr.of_Z (n / 100) ++ "." ++ PyStr.zfill 2 (PyStr.of_Z (n mod 100)).

(** [format(x, ".2f")]: the exact value correctly rounded to two
    decimals; the sign is kept on zero results, and the non-finite
    values print as words. *)
Definition format_2f (x : float) : string :=
  match x with
  | S754_nan => "nan"
  | S754_infinity s => if s then "-inf" else "inf"
  | S754_zero s => (if s then "-" else "") ++ "0.00"
  | S754_finite s m e =>
      (if s then "-" else "") ++ fixed2 (round_hundredths m e)
  end.

(** [sum(xs)] over floats: left to right from the integer [0], as the
    language reference defines it.  (CPython from 3.12 on carries a
    compensation term through float sums, which can change the last bit
    of an inexact sum; exact sums are the same.) *)
Definition sum (xs : list float) : float := fold_left add xs zero.

(** [len(xs)] as a float divisor. *)
Definition of_len {A} (xs : list A) : float := of_Z (Z.of_nat (List.length xs)).

(** ** [float(s)] on a string

    The grammar of the language reference: an optional sign, then
    [inf], [infinity], [nan] (any case) or a decimal number with an
    optional exponent; digits may be grouped with single underscores;
    surrounding whitespace is ignored. *)

(** After a digit: [(["_"] digit)*]. *)
Fixpoint digitpart_tail (s : string) : string * string :=
  match s with
  | String c s' =>
      if PyStr.is_digit c then
        let '(ds, r) := digitpart_tail s' in (String c ds, r)
      else if Ascii.eqb c "_" then
        match s' with
        | String c2 s'' =>
            if PyStr.is_digit c2 then
              let '(ds, r) := digitpart_tail s'' in (String c2 ds, r)
            else (EmptyString, s)
        | EmptyString => (EmptyString, s)
        end
      else (EmptyString, s)
  | EmptyString => (EmptyString, EmptyString)
  end.

(** [digit (["_"] digit)*]: the digits read and the rest. *)
Definition digitpart (s : string) : option (string * string) :=
  match s with
  | String c s' =>
      if PyStr.is_digit c then
        let '(ds, r) := digitpart_tail s' in Some (String c ds, r)
      else None
  | EmptyString => None
  end.

Fixpoint digits_value (acc : Z) (ds : string) : Z :=
  match ds with
  | String c ds' => digits_value (10 * acc + PyStr.digit_val c) ds'
  | EmptyString => acc
  end.

(** [[digitpart] "." digitpart | digitpart ["."]]: integer digits,
    fraction digits and the rest. *)
Definition number (s : string) : option (string * string * string) :=
  match digitpart s with
  | Some (ip, String "." r) =>
      match digitpart r with
      | Some (fp, r') => Some (ip, fp, r')
      | None => Some (ip, EmptyString, r)
      end
  | Some (ip, r) => Some (ip, EmptyString, r)
  | None =>
      match s with
      | String "." r =>
          match digitpart r with
          | Some (fp, r') => Some (EmptyString, fp, r')
          | None => None
          end
      | _ => None
      end
  end.

(** [("e" | "E") [sign] digitpart], when the rest starts one. *)
Definition exponent (s : string) : option (Z * string) :=
  match s with
  | String c r =>
      if Ascii.eqb c "e" || Ascii.eqb c "E" then
        let '(neg, r1) :=
          match r with
          | String "-" r1 => (true, r1)
          | String "+" r1 => (false, r1)
          | _ => (false, r)
          end in
        match digitpart r1 with
        | Some (ds, r2) =>
            Some ((if neg then -1 else 1) * digits_value 0 ds, r2)
        | None => None
        end
      else None
  | EmptyString => None
  end.

Definition floatnumber (neg : bool) (s : string) : result float :=
  match number s with
  | Some (ip, fp, r) =>
      let m := digits_value 0 (ip ++ fp) in
      let scale := - Z.of_nat (String.length fp) in
      match r with
      | EmptyString => Ok (of_decimal neg m scale)
      | _ =>
          match exponent r with
          | Some (e, EmptyString) => Ok (of_decimal neg m (e + scale))
          | _ => Raise ValueError
          end
      end
  | None => Raise ValueError
  end.

(** [float] reads the ASCII form of the text and trims the whitespace
    of the C locale only: TAB..CR and SPACE. *)
Definition is_c_space (c : ascii) : bool :=
  let n := Z.of_nat (nat_of_ascii c) in
  ((9 <=? n) && (n <=? 13)) || (n =? 32).

Fixpoint lstrip_c (s : string) : string :=
  match s with
  | String c s' => if is_c_space c then lstrip_c s' else s
  | EmptyString => EmptyString
  end.

Fixpoint rstrip_c (s : string) : string :=
  match s with
  | String c s' =>
      match rstrip_c s' with
      | EmptyString => if is_c_space c then EmptyString else String c EmptyString
      | t => String c t
      end
  | EmptyString => EmptyString
  end.

Definition of_string (s : string) : result float :=
  let s := rstrip_c (lstrip_c (PyStr.to_ascii s)) in
  let '(neg, r) :=
    match s with
    | String "-" r => (true, r)
    | String "+" r => (false, r)
    | _ => (false, s)
    end in
  let w := PyStr.lower_ascii r in
  if String.eqb w "inf" || String.eqb w "infinity" then Ok (S754_infinity neg)
  else if String.eqb w "nan" then Ok S754_nan
  else floatnumber neg r.

End PyFloat.

Definition float : Type := PyFloat.float.

(* ===================================================================== *)
(** * Python dates

    A [datetime.date] is kept as its proleptic Gregorian ordinal
    ([date.toordinal], day 1 is 0001-01-01): dates and ordinals
    [1 .. 3652059] are in bijection and the order of dates is the order of
    ordinals.  Year, month and day are read off the ordinal with the
    algorithm of the [datetime] module. *)

Module PyDate.

Record date : Type := mk_date { toordinal : Z }.

Definition MAXORDINAL : Z := 3652059.

Definition valid (d : date) : Prop := 1 <= toordinal d <= MAXORDINAL.

Definition eqb (a b : date) : bool := toordinal a =? toordinal b.
Definition ltb (a b : date) : bool := toordinal a <? toordinal b.
Definition leb (a b : date) : bool := toordinal a <=? toordinal b.

(** [date.fromordinal(n)] *)
Definition fromordinal (n : Z) : result date :=
  if (1 <=? n) && (n <=? MAXORDINAL) then Ok (mk_date n) else Raise ValueError.

Definition is_leap (y : Z) : bool :=
  (y mod 4 =? 0) && (negb (y mod 100 =? 0) || (y mod 400 =? 0)).

Definition DAYS_IN_MONTH : list Z :=
  [-1; 31; 28; 31; 30; 31; 30; 31; 31; 30; 31; 30; 31].

Definition DAYS_BEFORE_MONTH : list Z :=
  [-1; 0; 31; 59; 90; 120; 151; 181; 212; 243; 273; 304; 334].

Definition days_before_year (year : Z) : Z :=
  let y := year - 1 in y * 365 + y / 4 - y / 100 + y / 400.

Definition days_in_month (year month : Z) : Z :=
  if (month =? 2) && is_leap year then 29
  else nth (Z.to_nat month) DAYS_IN_MONTH 0.

Definition days_before_month (year month : Z) : Z :=
  nth (Z.to_nat month) DAYS_BEFORE_MONTH 0
  + (if (2 <? month) && is_leap year then 1 else 0).

Definition ymd2ord (year month day : Z) : Z :=
  days_before_year year + days_before_month year month + day.

(** [date(year, month, day)] *)
Definition make (year month day : Z) : result date :=
  if (1 <=? year) && (year <=? 9999) && (1 <=? month) && (month <=? 12)
     && (1 <=? day) && (day <=? days_in_month year month)
  then Ok (mk_date (ymd2ord year month day))
  else Raise ValueError.

Definition ord2ymd (n0 : Z) : Z * Z * Z :=
  let n := n0 - 1 in
  let n400 := n / 146097 in
  let n := n mod 146097 in
  let year := n400 * 400 + 1 in
  let n100 := n / 36524 in
  let n := n mod 36524 in
  let n4 := n / 1461 in
  let n := n mod 1461 in
  let n1 := n / 365 in
  let n := n mod 365 in
  let year := year + n100 * 100 + n4 * 4 + n1 in
  if (n1 =? 4) || (n100 =? 4) then (year - 1, 12, 31)
  else
    let leapyear := (n1 =? 3) && (negb (n4 =? 24) || (n100 =? 3)) in
    let month := Z.shiftr (n + 50) 5 in
    let preceding :=
      nth (Z.to_nat month) DAYS_BEFORE_MONTH 0
      + (if (2 <? month) && leapyear then 1 else 0) in
    if n <? preceding then
      let month := month - 1 in
      let preceding :=
        preceding
        - (nth (Z.to_nat month) DAYS_IN_MONTH 0
           + (if (month =? 2) && leapyear then 1 else 0)) in
      (year, month, n - preceding + 1)
    else (year, month, n - preceding + 1).

Definition year (d : date) : Z := fst (fst (ord2ymd (toordinal d))).
Definition month (d : date) : Z := snd (fst (ord2ymd (toordinal d))).
Definition day (d : date) : Z := snd (ord2ymd (toordinal d)).

Definition max : date := mk_date MAXORDINAL.

Record datetime : Type := mk_datetime {
  dt_date : date;
  hour : Z;
  minute : Z;
  second : Z;
  microsecond : Z
}.

End PyDate.

Definition date : Type := PyDate.date.
Definition datetime : Type := PyDate.datetime.

(* ===================================================================== *)
(** * Python dictionaries: insertion-ordered association lists *)

Module PyDict.
Section Dict.

Context {K V : Type}.
Variable eqb : K -> K -> bool.

Definition dict : Type := list (K * V).

(** [d.get(k)] *)
Fixpoint get (d : dict) (k : K) : option V :=
  match d with
  | [] => None
  | (k', v) :: d' => if eqb k k' then Some v else get d' k
  end.

(** [d[k] = v]: an existing key keeps its position. *)
Fixpoint set (d : dict) (k : K) (v : V) : dict :=
  match d with
  | [] => [(k, v)]
  | (k', v') :: d' =>
      if eqb k k' then (k', v) :: d' else (k', v') :: set d' k v
  end.

Definition keys (d : dict) : list K := map fst d.
Definition values (d : dict) : list V := map snd d.
Definition items (d : dict) : list (K * V) := d.

End Dict.
End PyDict.

(** [xs[i]] on a list, with Python's negative indices. *)
Definition py_index {A} (xs : list A) (i : Z) : result A :=
  let n := Z.of_nat (List.length xs) in
  let j := if i <? 0 then i + n else i in
  if (0 <=? j) && (j <? n)
  then match nth_error xs (Z.to_nat j) with
       | Some x => Ok x
       | None => Raise IndexError
       end
  else Raise IndexError.

(* ===================================================================== *)
(** * TaskF: measurements, the daily index and the reports *)

Module TaskF.

Record Measurement : Type := mk_Measurement {
  timestamp : datetime;
  consumption_kwh : float;
  production_kwh : float;
  temperature_c : float
}.

Definition date_of (m : Measurement) : date := PyDate.dt_date (timestamp m).

Definition format_float_fi (value : float) : string :=
  PyStr.replace "." "," (PyFloat.format_2f value).

Definition format_date_fi (d : date) : string :=
  PyStr.of_Z (PyDate.day d) ++ "." ++ PyStr.of_Z (PyDate.month d)
  ++ "." ++ PyStr.of_Z (PyDate.year d).

Definition parse_float_fi (value : string) : result float :=
  PyFloat.of_string (PyStr.replace "," "." (PyStr.strip value)).

(** ** [read_data]

    The file is [None] when the path does not exist and [Some text]
    otherwise, [text] being what text mode gives for the file: the
    characters decoded from UTF-8, the line ends translated to LF.
    [csv.reader] and [datetime.fromisoformat] are library code: the
    section takes the records the reader yields for a delimiter and the
    ISO parser as parameters. *)

(** A value of a [csv.DictReader] row: a cell, or [None] where the row
    is shorter than the header. *)
Inductive cell : Type :=
| Str (s : string)
| NoneCell.

Definition row_dict : Type := @PyDict.dict string cell.

Definition TIME_CANDIDATES : list string := ["timestamp"; "aika"; "time"].
Definition CONS_CANDIDATES : list string :=
  ["consumption"; "kulutus"; "consumption (net) in kwh"; "consumption_kwh"].
Definition PROD_CANDIDATES : list string :=
  ["production"; "tuotanto"; "production (net) in kwh"; "production_kwh"].
Definition TEMP_CANDIDATES : list string :=
  ["temperature"; "avg temperature"; "daily average temperature";
   "lampotila"; "lämpötila"; "temp"].

(** [sample.count(";") >= sample.count(",")] on the first 2000
    characters. *)
Definition detect_delimiter (text : string) : ascii :=
  let sample := PyStr.take 2000 text in
  if PyStr.count ";" sample >=? PyStr.count "," sample
  then ";"%char else ","%char.

(** [reader.fieldnames or []]: the first record, if any. *)
Definition fieldnames_of (records : list (list string)) : list string :=
  match records with
  | [] => []
  | header :: _ => header
  end.

(** The row of a [DictReader]: [dict(zip(fieldnames, row))], then [None]
    for the fields the row lacks.  Surplus cells go under the key [None],
    which no lookup by column name reaches; it is left out. *)
Definition dict_row (fieldnames row : list string) : row_dict :=
  let d :=
    fold_left (fun d kv => PyDict.set String.eqb d (fst kv) (Str (snd kv)))
              (combine fieldnames row) [] in
  fold_left (fun d k => PyDict.set String.eqb d k NoneCell)
            (skipn (List.length row) fieldnames) d.

(** The rows a [DictReader] yields: the records after the header, the
    empty ones skipped. *)
Definition dict_rows (records : list (list string)) : list row_dict :=
  map (dict_row (fieldnames_of records))
      (filter (fun r => match r with [] => false | _ => true end)
              (tl records)).

(** [{name: name.strip() for name in fieldnames}] *)
Definition normalize (fieldnames : list string) : @PyDict.dict string string :=
  fold_left (fun d name => PyDict.set String.eqb d name (PyStr.strip name))
            fieldnames [].

(** [for cand in candidates: for fn in values: if test: return fn] *)
Fixpoint first_match (test : string -> string -> bool)
  (candidates headers : list string) : option string :=
  match candidates with
  | [] => None
  | cand :: rest =>
      match find (test cand) headers with
      | Some fn => Some fn
      | None => first_match test rest headers
      end
  end.

Definition same_name (cand fn : string) : bool :=
  String.eqb (PyStr.lower fn) (PyStr.lower cand).

Definition name_within (cand fn : string) : bool :=
  PyStr.contains (PyStr.lower cand) (PyStr.lower fn).

Definition find_col (normalized : @PyDict.dict string string)
  (candidates : list string) : result string :=
  let headers := PyDict.values normalized in
  match first_match same_name candidates headers with
  | Some fn => Ok fn
  | None =>
      match first_match name_within candidates headers with
      | Some fn => Ok fn
      | None => Raise ValueError
      end
  end.

Record columns : Type := mk_columns {
  col_time : string;
  col_cons : string;
  col_prod : string;
  col_temp : string
}.

Definition find_columns (fieldnames : list string) : result columns :=
  let normalized := normalize fieldnames in
  t <- find_col normalized TIME_CANDIDATES ;;
  c <- find_col normalized CONS_CANDIDATES ;;
  p <- find_col normalized PROD_CANDIDATES ;;
  k <- find_col normalized TEMP_CANDIDATES ;;
  Ok (mk_columns t c p k).

(** [(row.get(col) or "").strip()] *)
Definition time_str (row : row_dict) (col : string) : string :=
  PyStr.strip
    match PyDict.get String.eqb row col with
    | Some (Str s) => s
    | Some NoneCell | None => ""
    end.

(** [str(row.get(col, "0"))] *)
Definition cell_str (row : row_dict) (col : string) : string :=
  match PyDict.get String.eqb row col with
  | Some (Str s) => s
  | Some NoneCell => "None"
  | None => "0"
  end.

Section ReadData.

Variable csv_reader : ascii -> string -> list (list string).
Variable fromisoformat : string -> result datetime.

(** The body of [for row in reader]: [None] is the [continue]. *)
Definition read_row (cols : columns) (row : row_dict)
  : result (option Measurement) :=
  let t := time_str row (col_time cols) in
  if String.eqb t "" then Ok None
  else
    ts <- fromisoformat t ;;
    cons <- parse_float_fi (cell_str row (col_cons cols)) ;;
    prod <- parse_float_fi (cell_str row (col_prod cols)) ;;
    temp <- parse_float_fi (cell_str row (col_temp cols)) ;;
    Ok (Some (mk_Measurement ts cons prod temp)).

Fixpoint read_rows (cols : columns) (data : list row_dict)
  (rows : list Measurement) : result (list Measurement) :=
  match data with
  | [] => Ok rows
  | row :: rest =>
      match read_row cols row with
      | Raise e => Raise e
      | Ok None => read_rows cols rest rows
      | Ok (Some m) => read_rows cols rest (rows ++ [m])%list
      end
  end.

Definition read_data (file : option string) : result (list Measurement) :=
  match file with
  | None => Raise FileNotFoundError
  | Some text =>
      let delimiter := detect_delimiter text in
      let records := csv_reader delimiter text in
      cols <- find_columns (fieldnames_of records) ;;
      rows <- read_rows cols (dict_rows records) [] ;;
      match rows with
      | [] => Raise ValueError
      | _ :: _ => Ok rows
      end
  end.

End ReadData.

(** ** [build_daily_index] *)

Definition index : Type := @PyDict.dict date (list Measurement).

Definition get (daily : index) (d : date) : option (list Measurement) :=
  PyDict.get PyDate.eqb daily d.

(** [daily.setdefault(d, []).append(m)]: the bucket of [d] is created
    empty when missing, then extended in place. *)
Definition setdefault_append (daily : index) (m : Measurement) : index :=
  let d := date_of m in
  match get daily d with
  | Some bucket => PyDict.set PyDate.eqb daily d (bucket ++ [m])%list
  | None => PyDict.set PyDate.eqb (PyDict.set PyDate.eqb daily d []) d [m]
  end.

Definition build_daily_index (rows : list Measurement) : index :=
  fold_left setdefault_append rows [].

(** ** [create_daily_report]

    The two dates are the values returned by [parse_date_input]. *)

Record range_acc : Type := mk_range_acc {
  total_cons : float;
  total_prod : float;
  temps : list float
}.

Definition range_acc0 : range_acc := mk_range_acc PyFloat.zero PyFloat.zero [].

(** The inner [for m in rows] loop. *)
Definition add_rows (acc : range_acc) (rows : list Measurement) : range_acc :=
  fold_left
    (fun a m =>
       mk_range_acc (PyFloat.add (total_cons a) (consumption_kwh m))
                    (PyFloat.add (total_prod a) (production_kwh m))
                    (temps a ++ [temperature_c m])%list)
    rows acc.

(** [daily.get(cur, [])] *)
Definition get_or_nil (daily : index) (cur : date) : list Measurement :=
  match get daily cur with Some rows => rows | None => [] end.

(** The [while cur <= end] loop; [date.fromordinal] raises past
    9999-12-31. *)
Equations? range_loop (daily : index) (end_ cur : date) (acc : range_acc)
  : result range_acc
  by wf (Z.to_nat (PyDate.toordinal end_ + 1 - PyDate.toordinal cur)) lt :=
  range_loop daily end_ cur acc with inspect (PyDate.leb cur end_) := {
    | exist _ true Hle
        with inspect (PyDate.fromordinal (PyDate.toordinal cur + 1)) := {
        | exist _ (Ok next) Hnext =>
            range_loop daily end_ next (add_rows acc (get_or_nil daily cur))
        | exist _ (Raise e) _ => Raise e }
    | exist _ false _ => Ok acc }.
Proof.
  unfold PyDate.fromordinal in Hnext.
  destruct ((1 <=? PyDate.toordinal cur + 1)
            && (PyDate.toordinal cur + 1 <=? PyDate.MAXORDINAL));
    [ | discriminate ].
  injection Hnext as <-. simpl.
  unfold PyDate.leb in Hle. apply Z.leb_le in Hle. lia.
Qed.

(** [(sum(xs) / len(xs)) if xs else 0.0] *)
Definition mean_or_zero (xs : list float) : float :=
  match xs with
  | [] => PyFloat.zero
  | _ :: _ => PyFloat.div (PyFloat.sum xs) (PyFloat.of_len xs)
  end.

Definition divider : string := PyStr.repeat "-" 53.

Definition metric_lines (cons prod temp : float) : list string :=
  [ "- Total consumption: " ++ format_float_fi cons ++ " kWh";
    "- Total production: " ++ format_float_fi prod ++ " kWh";
    "- Average temperature: " ++ format_float_fi temp ++ " °C" ].

Definition create_daily_report (daily : index) (start0 end0 : date)
  : result (list string) :=
  let '(start, end_) :=
    if PyDate.ltb end0 start0 then (end0, start0) else (start0, end0) in
  acc <- range_loop daily end_ start range_acc0 ;;
  let avg_temp := mean_or_zero (temps acc) in
  Ok (divider
      :: ("Report for the period " ++ format_date_fi start ++ "–"
          ++ format_date_fi end_)
      :: metric_lines (total_cons acc) (total_prod acc) avg_temp).

(** ** [create_monthly_report]

    [month] is the value returned by [ask_int_in_range]. *)

Definition month_name_en (month : Z) : result string :=
  py_index
    [ "January"; "February"; "March"; "April"; "May"; "June";
      "July"; "August"; "September"; "October"; "November"; "December" ]
    (month - 1).

Record month_acc : Type := mk_month_acc {
  m_total_cons : float;
  m_total_prod : float;
  daily_avg_temps : list float
}.

Definition month_acc0 : month_acc := mk_month_acc PyFloat.zero PyFloat.zero [].

(** One turn of [for d, rows in daily.items()]. *)
Definition month_step (month : Z) (a : month_acc)
  (item : date * list Measurement) : month_acc :=
  let '(d, rows) := item in
  if (PyDate.year d =? 2025) && (PyDate.month d =? month) then
    let day_cons := PyFloat.sum (map consumption_kwh rows) in
    let day_prod := PyFloat.sum (map production_kwh rows) in
    let day_temp_avg := mean_or_zero (map temperature_c rows) in
    mk_month_acc (PyFloat.add (m_total_cons a) day_cons)
                 (PyFloat.add (m_total_prod a) day_prod)
                 (daily_avg_temps a ++ [day_temp_avg])%list
  else a.

Definition create_monthly_report (daily : index) (month : Z)
  : result (list string) :=
  let acc := fold_left (month_step month) (PyDict.items daily) month_acc0 in
  let avg_temp := mean_or_zero (daily_avg_temps acc) in
  name <- month_name_en month ;;
  Ok (divider
      :: ("Report for the month: " ++ name)
      :: metric_lines (m_total_cons acc) (m_total_prod acc) avg_temp).

(** ** [create_yearly_report] *)

Definition create_yearly_report (rows : list Measurement) : list string :=
  let year_rows :=
    filter (fun m => PyDate.year (date_of m) =? 2025) rows in
  let total_cons := PyFloat.sum (map consumption_kwh year_rows) in
  let total_prod := PyFloat.sum (map production_kwh year_rows) in
  let avg_temp := mean_or_zero (map temperature_c year_rows) in
  divider
  :: "Report for the year: 2025"
  :: metric_lines total_cons total_prod avg_temp.

End TaskF.

(* ===================================================================== *)
(** * Library behaviour on plain inputs

    Instances of the two library parameters of [read_data], used to run
    the loader on concrete files: a CSV reader for text without quote
    characters and with LF line ends, and the ISO parser on the two shapes
    [YYYY-MM-DD] and [YYYY-MM-DD?HH:MM:SS] (any one character between date
    and time).  The parser agrees with the library on texts of these two
    shapes and on texts that are no ISO date at all; the further shapes
    the library accepts (a time without seconds, fractions of a second,
    a zone offset) are refused here, and the sample files do not use
    them.  Text mode has translated every line end to LF before the
    reader sees the text. *)

Module PyLib.

Definition LF : ascii := ascii_of_nat 10.

(** [s.split(sep)] for a one-character separator. *)
Fixpoint split (sep : ascii) (s : string) : list string :=
  match s with
  | EmptyString => [EmptyString]
  | String c s' =>
      if Ascii.eqb c sep then EmptyString :: split sep s'
      else match split sep s' with
           | f :: fs => String c f :: fs
           | [] => [String c EmptyString]
           end
  end.

(** The lines of a text; a final line end opens no further line. *)
Definition lines (text : string) : list string :=
  let ls := split LF text in
  match rev ls with
  | EmptyString :: front => rev front
  | _ => ls
  end.

Definition csv_plain (delimiter : ascii) (text : string) : list (list string) :=
  map (fun l => if String.eqb l "" then [] else split delimiter l)
      (lines text).

Definition digits_of (cs : list ascii) : option Z :=
  if forallb PyStr.is_digit cs
  then Some (fold_left (fun a c => 10 * a + PyStr.digit_val c) cs 0)
  else None.

Definition is_char (c : ascii) (x : ascii) : bool := Ascii.eqb x c.

Definition parse_ymd (cs : list ascii) : result date :=
  match cs with
  | [y1; y2; y3; y4; a; m1; m2; b; d1; d2] =>
      match digits_of [y1; y2; y3; y4], digits_of [m1; m2], digits_of [d1; d2] with
      | Some y, Some m, Some d =>
          if is_char "-" a && is_char "-" b then PyDate.make y m d
          else Raise ValueError
      | _, _, _ => Raise ValueError
      end
  | _ => Raise ValueError
  end.

Definition parse_hms (cs : list ascii) : result (Z * Z * Z) :=
  match cs with
  | [h1; h2; a; m1; m2; b; s1; s2] =>
      match digits_of [h1; h2], digits_of [m1; m2], digits_of [s1; s2] with
      | Some h, Some m, Some s =>
          if is_char ":" a && is_char ":" b
             && (h <? 24) && (m <? 60) && (s <? 60)
          then Ok (h, m, s)
          else Raise ValueError
      | _, _, _ => Raise ValueError
      end
  | _ => Raise ValueError
  end.

Definition fromisoformat_basic (s : string) : result datetime :=
  let cs := list_ascii_of_string s in
  d <- parse_ymd (firstn 10 cs) ;;
  match skipn 10 cs with
  | [] => Ok (PyDate.mk_datetime d 0 0 0 0)
  | _ :: rest =>
      hms <- parse_hms rest ;;
      let '(h, m, sec) := hms in
      Ok (PyDate.mk_datetime d h m sec 0)
  end.

(** [read_data] with these two instances. *)
Definition read_data_plain : option string -> result (list TaskF.Measurement) :=
  TaskF.read_data csv_plain fromisoformat_basic.

(** ** Sample files *)

Definition nl : string := String LF EmptyString.

(** The three-row file of the specification's end-to-end scenario. *)
Definition sample_file : string :=
  "timestamp;consumption;production;temperature" ++ nl
  ++ "2025-01-01T00:00:00;1000;500;5,0" ++ nl
  ++ "2025-01-01T01:00:00;1000;500;7,0" ++ nl
  ++ "2025-01-02T00:00:00;2000;0;10,0" ++ nl.





(** A row whose consumption cell is empty. *)
Definition empty_cell_file : string :=
  "timestamp;consumption;production;temperature" ++ nl
  ++ "2025-01-01T00:00:00;;500;5,0" ++ nl.

(** A row that stops before the temperature cell. *)
Definition short_row_file : string :=
  "timestamp;consumption;production;temperature" ++ nl
  ++ "2025-01-01T00:00:00;1000;500" ++ nl.

(** A header without a temperature column. *)
Definition no_temperature_file : string :=
  "timestamp;consumption;production" ++ nl
  ++ "2025-01-01T00:00:00;1000;500" ++ nl.

(** Rows whose timestamp cell is blank. *)
Definition blank_timestamps_file : string :=
  "timestamp;consumption;production;temperature" ++ nl
  ++ ";1000;500;5,0" ++ nl
  ++ "   ;1000;500;7,0" ++ nl.


(** A good row followed by a row with a malformed timestamp. *)
Definition bad_timestamp_file : string :=
  "timestamp;consumption;production;temperature" ++ nl
  ++ "2025-01-01T00:00:00;1000;500;5,0" ++ nl
  ++ "yesterday;1000;500;7,0" ++ nl.

End PyLib.

(* ===================================================================== *)
(** * Products of an integer and a float *)

Module PyNum.

Definition mul : float -> float -> float :=
  SFmul PyFloat.prec PyFloat.emax.

(** [float(n)] where the conversion can fail: an integer whose nearest
    binary64 would be infinite raises [OverflowError], here [None]. *)
Definition float_of_int (n : Z) : option float :=
  match PyFloat.of_Z n with
  | S754_infinity _ => None
  | x => Some x
  end.

(** [n * x] for an [int] and a [float]: the integer is converted
    first. *)
Definition int_mul_float (n : Z) (x : float) : option float :=
  match float_of_int n with
  | None => None
  | Some y => Some (mul y x)
  end.

End PyNum.

(* ===================================================================== *)
(** * Reservations: the three [long_reservations] printers

    One reservation after [convert_reservation_data]: the fields have the
    same types in the three scripts; TaskC keeps them in a list read by
    position, TaskG in a dictionary read by key or in a [Reservation]
    object.  Standard output is the list of printed lines. *)

Record time_of_day : Type := mk_time { t_hour : Z; t_minute : Z }.

(** [d.strftime("%d.%m.%Y")]: day and month in two digits; the year as
    the C library prints it, which on Linux is without padding (other
    platforms pad it to four digits; from the year 1000 on all agree). *)
Definition strftime_dmY (d : date) : string :=
  PyStr.zfill 2 (PyStr.of_Z (PyDate.day d)) ++ "."
  ++ PyStr.zfill 2 (PyStr.of_Z (PyDate.month d)) ++ "."
  ++ PyStr.of_Z (PyDate.year d).

(** [t.strftime("%H.%M")] *)
Definition strftime_HM (t : time_of_day) : string :=
  PyStr.zfill 2 (PyStr.of_Z (t_hour t)) ++ "."
  ++ PyStr.zfill 2 (PyStr.of_Z (t_minute t)).

(** The line the three printers share. *)
Definition long_line (name : string) (d : date) (t : time_of_day)
  (duration : Z) (resource : string) : string :=
  "- " ++ name ++ ", " ++ strftime_dmY d ++ " at " ++ strftime_HM t
  ++ ", duration " ++ PyStr.of_Z duration ++ " h, " ++ resource.

Module TaskG_class.

Record Reservation : Type := mk_Reservation {
  reservation_id : Z;
  name : string;
  email : string;
  phone : string;
  date_ : date;
  time_ : time_of_day;
  duration : Z;
  price : float;
  confirmed : bool;
  resource : string;
  created : datetime
}.

Definition is_long (r : Reservation) : bool := 3 <=? duration r.

(** [long_reservations]: the loop tests [r.duration > 3], not
    [r.is_long()]. *)
Fixpoint long_reservations (reservations : list Reservation) : list string :=
  match reservations with
  | [] => []
  | r :: rest =>
      if 3 <? duration r
      then long_line (name r) (date_ r) (time_ r) (duration r) (resource r)
           :: long_reservations rest
      else long_reservations rest
  end.

(** The header [main] prints before the listing. *)
Definition long_header : string := "2) Long Reservations (>= 3 h)".

(** ** The other methods and printers

    A printer that can raise gives [None] for the error; [main] gives the
    lines printed up to the end or the error, and whether it ended
    without error. *)

Definition is_confirmed (r : Reservation) : bool := confirmed r.

(** [total_price]: [None] is the [OverflowError] of the product. *)
Definition total_price (r : Reservation) : option float :=
  PyNum.int_mul_float (duration r) (price r).

Fixpoint confirmed_reservations (reservations : list Reservation)
  : list string :=
  match reservations with
  | [] => []
  | r :: rest =>
      if is_confirmed r
      then ("- " ++ name r ++ ", " ++ resource r ++ ", "
            ++ strftime_dmY (date_ r) ++ " at " ++ strftime_HM (time_ r))
           :: confirmed_reservations rest
      else confirmed_reservations rest
  end.

Fixpoint confirmation_statuses (reservations : list Reservation)
  : list string :=
  match reservations with
  | [] => []
  | r :: rest =>
      let status := if is_confirmed r then "Confirmed" else "NOT Confirmed" in
      (name r ++ " -> " ++ status) :: confirmation_statuses rest
  end.

Definition confirmation_summary (reservations : list Reservation)
  : list string :=
  let confirmed_count :=
    Z.of_nat (List.length (filter is_confirmed reservations)) in
  let not_confirmed_count :=
    Z.of_nat (List.length reservations) - confirmed_count in
  [ "- Confirmed reservations: " ++ PyStr.of_Z confirmed_count ++ " pcs";
    "- Not confirmed reservations: " ++ PyStr.of_Z not_confirmed_count
    ++ " pcs" ].

(** The items of the generator in [total_revenue], up to the first that
    raises. *)
Fixpoint confirmed_prices (reservations : list Reservation)
  : option (list float) :=
  match reservations with
  | [] => Some []
  | r :: rest =>
      if is_confirmed r then
        match total_price r with
        | None => None
        | Some p =>
            match confirmed_prices rest with
            | None => None
            | Some ps => Some (p :: ps)
            end
        end
      else confirmed_prices rest
  end.

Definition total_revenue (reservations : list Reservation)
  : option (list string) :=
  match confirmed_prices reservations with
  | None => None
  | Some ps =>
      let revenue := PyFloat.sum ps in
      Some [ PyStr.replace "." ","
               ("Total revenue from confirmed reservations: "
                ++ PyFloat.format_2f revenue ++ " EUR") ]
  end.

(** [main] once the reservations are loaded. *)
Definition main (reservations : list Reservation) : list string * bool :=
  let printed :=
    (["1) Confirmed Reservations"]
     ++ confirmed_reservations reservations
     ++ [long_header]
     ++ long_reservations reservations
     ++ ["3) Reservation Confirmation Status"]
     ++ confirmation_statuses reservations
     ++ ["4) Confirmation Summary"]
     ++ confirmation_summary reservations
     ++ ["5) Total Revenue from Confirmed Reservations"])%list in
  match total_revenue reservations with
  | Some lines => ((printed ++ lines)%list, true)
  | None => (printed, false)
  end.

End TaskG_class.

Module TaskG_dict.

(** The dictionary of one reservation; field [k] is the value under
    key ["k"]. *)
Record reservation : Type := mk_reservation {
  id : Z;
  name : string;
  email : string;
  phone : string;
  date_ : date;
  time_ : time_of_day;
  duration : Z;
  price : float;
  confirmed : bool;
  resource : string;
  created : datetime
}.

Fixpoint long_reservations (reservations : list reservation) : list string :=
  match reservations with
  | [] => []
  | r :: rest =>
      if 3 <? duration r
      then long_line (name r) (date_ r) (time_ r) (duration r) (resource r)
           :: long_reservations rest
      else long_reservations rest
  end.

Definition of_Reservation (r : TaskG_class.Reservation) : reservation :=
  mk_reservation
    (TaskG_class.reservation_id r) (TaskG_class.name r)
    (TaskG_class.email r) (TaskG_class.phone r) (TaskG_class.date_ r)
    (TaskG_class.time_ r) (TaskG_class.duration r) (TaskG_class.price r)
    (TaskG_class.confirmed r) (TaskG_class.resource r)
    (TaskG_class.created r).

(** The header [main] prints before the listing. *)
Definition long_header : string := "2) Long Reservations (>= 3 h)".

(** ** The other printers *)

Fixpoint confirmed_reservations (reservations : list reservation)
  : list string :=
  match reservations with
  | [] => []
  | r :: rest =>
      if confirmed r
      then ("- " ++ name r ++ ", " ++ resource r ++ ", "
            ++ strftime_dmY (date_ r) ++ " " ++ "at " ++ strftime_HM (time_ r))
           :: confirmed_reservations rest
      else confirmed_reservations rest
  end.

Fixpoint confirmation_statuses (reservations : list reservation)
  : list string :=
  match reservations with
  | [] => []
  | r :: rest =>
      let status := if confirmed r then "Confirmed" else "NOT Confirmed" in
      (name r ++ " -> " ++ status) :: confirmation_statuses rest
  end.

Definition confirmation_summary (reservations : list reservation)
  : list string :=
  let confirmed_count :=
    Z.of_nat (List.length (filter confirmed reservations)) in
  let not_confirmed_count :=
    Z.of_nat (List.length reservations) - confirmed_count in
  [ "- Confirmed reservations: " ++ PyStr.of_Z confirmed_count ++ " pcs";
    "- Not confirmed reservations: " ++ PyStr.of_Z not_confirmed_count
    ++ " pcs" ].

(** The items of the generator in [total_revenue], up to the first that
    raises ([None]: the [OverflowError] of a product). *)
Fixpoint confirmed_prices (reservations : list reservation)
  : option (list float) :=
  match reservations with
  | [] => Some []
  | r :: rest =>
      if confirmed r then
        match PyNum.int_mul_float (duration r) (price r) with
        | None => None
        | Some p =>
            match confirmed_prices rest with
            | None => None
            | Some ps => Some (p :: ps)
            end
        end
      else confirmed_prices rest
  end.

Definition total_revenue (reservations : list reservation)
  : option (list string) :=
  match confirmed_prices reservations with
  | None => None
  | Some ps =>
      let revenue := PyFloat.sum ps in
      Some [ PyStr.replace "." ","
               ("Total revenue from confirmed reservations: "
                ++ PyFloat.format_2f revenue ++ " EUR") ]
  end.

(** [main] once the reservations are loaded: the lines printed, and
    whether it ended without error. *)
Definition main (reservations : list reservation) : list string * bool :=
  let printed :=
    (["1) Confirmed Reservations"]
     ++ confirmed_reservations reservations
     ++ [long_header]
     ++ long_reservations reservations
     ++ ["3) Reservation Confirmation Status"]
     ++ confirmation_statuses reservations
     ++ ["4) Confirmation Summary"]
     ++ confirmation_summary reservations
     ++ ["5) Total Revenue from Confirmed Reservations"])%list in
  match total_revenue reservations with
  | Some lines => ((printed ++ lines)%list, true)
  | None => (printed, false)
  end.

End TaskG_dict.

Module TaskC.

(** The list of one reservation; field [r_i] is the value at index
    [i]. *)
Record row : Type := mk_row {
  r0 : Z;
  r1 : string;
  r2 : string;
  r3 : string;
  r4 : date;
  r5 : time_of_day;
  r6 : Z;
  r7 : float;
  r8 : bool;
  r9 : string;
  r10 : datetime
}.

Fixpoint long_reservations (reservations : list row) : list string :=
  match reservations with
  | [] => []
  | r :: rest =>
      let duration := r6 r in
      if 3 <=? duration
      then long_line (r1 r) (r4 r) (r5 r) duration (r9 r)
           :: long_reservations rest
      else long_reservations rest
  end.

Definition of_Reservation (r : TaskG_class.Reservation) : row :=
  mk_row
    (TaskG_class.reservation_id r) (TaskG_class.name r)
    (TaskG_class.email r) (TaskG_class.phone r) (TaskG_class.date_ r)
    (TaskG_class.time_ r) (TaskG_class.duration r) (TaskG_class.price r)
    (TaskG_class.confirmed r) (TaskG_class.resource r)
    (TaskG_class.created r).

(** The header [main] prints before the listing. *)
Definition long_header : string := "2) Long Reservations (>= 3 h)".

(** ** The other printers *)

Fixpoint confirmed_reservations (reservations : list row) : list string :=
  match reservations with
  | [] => []
  | r :: rest =>
      if r8 r then
        let name := r1 r in
        let resource := r9 r in
        let date_fi := strftime_dmY (r4 r) in
        let time_fi := strftime_HM (r5 r) in
        ("- " ++ name ++ ", " ++ resource ++ ", " ++ date_fi ++ " at "
         ++ time_fi)
        :: confirmed_reservations rest
      else confirmed_reservations rest
  end.

Fixpoint confirmation_statuses (reservations : list row) : list string :=
  match reservations with
  | [] => []
  | r :: rest =>
      let name := r1 r in
      let confirmed := r8 r in
      let status := if confirmed then "Confirmed" else "NOT Confirmed" in
      (name ++ " -> " ++ status) :: confirmation_statuses rest
  end.

(** The two counters of [confirmation_summary] at the end of its loop. *)
Fixpoint count_loop (confirmed_count not_confirmed_count : Z)
  (reservations : list row) : Z * Z :=
  match reservations with
  | [] => (confirmed_count, not_confirmed_count)
  | r :: rest =>
      if r8 r
      then count_loop (confirmed_count + 1) not_confirmed_count rest
      else count_loop confirmed_count (not_confirmed_count + 1) rest
  end.

Definition confirmation_summary (reservations : list row) : list string :=
  let '(confirmed_count, not_confirmed_count) :=
    count_loop 0 0 reservations in
  [ "- Confirmed reservations: " ++ PyStr.of_Z confirmed_count ++ " pcs";
    "- Not confirmed reservations: " ++ PyStr.of_Z not_confirmed_count
    ++ " pcs" ].

(** The loop of [total_revenue]; [None] is the [OverflowError] of a
    product. *)
Fixpoint revenue_loop (total : float) (reservations : list row)
  : option float :=
  match reservations with
  | [] => Some total
  | r :: rest =>
      if r8 r then
        let duration := r6 r in
        let price := r7 r in
        match PyNum.int_mul_float duration price with
        | None => None
        | Some p => revenue_loop (PyFloat.add total p) rest
        end
      else revenue_loop total rest
  end.

Definition total_revenue (reservations : list row) : option (list string) :=
  match revenue_loop PyFloat.zero reservations with
  | None => None
  | Some total =>
      let total_str := PyStr.replace "." "," (PyFloat.format_2f total) in
      Some [ "Total revenue from confirmed reservations: " ++ total_str
             ++ " EUR" ]
  end.

(** [main] once the reservations are loaded: the lines printed ([print()]
    gives an empty line), and whether it ended without error. *)
Definition main (reservations : list row) : list string * bool :=
  let printed :=
    (["1) Confirmed Reservations"]
     ++ confirmed_reservations reservations
     ++ [""; long_header]
     ++ long_reservations reservations
     ++ [""; "3) Reservation Confirmation Status"]
     ++ confirmation_statuses reservations
     ++ [""; "4) Confirmation Summary"]
     ++ confirmation_summary reservations
     ++ [""; "5) Total Revenue from Confirmed Reservations"])%list in
  match total_revenue reservations with
  | Some lines => ((printed ++ lines)%list, true)
  | None => (printed, false)
  end.

End TaskC.

(* ===================================================================== *)
(** * Specification-level definitions

    The first group follows the words of the specification; the theorems
    below compare them with the functions translated from the code.  The
    second group holds the predicates and the invariant the statements and
    proofs use. *)

Module Spec.

Import TaskF.

(** The measurements of the input whose timestamp falls on [d], in
    input order. *)
Definition on_date (d : date) (rows : list Measurement) : list Measurement :=
  filter (fun m => PyDate.eqb (date_of m) d) rows.

Definition has_date (d : date) (rows : list Measurement) : bool :=
  existsb (fun m => PyDate.eqb (date_of m) d) rows.

(** A day of the index that the month report selects: year 2025 and the
    requested month. *)
Definition is_qualifying (month : Z) (item : date * list Measurement) : bool :=
  (PyDate.year (fst item) =? 2025) && (PyDate.month (fst item) =? month).

(** The measurements of the qualifying days, day by day, in index
    order. *)
Definition qualifying_days (daily : index) (month : Z)
  : list (list Measurement) :=
  map snd (filter (is_qualifying month) (PyDict.items daily)).

(** A day's own mean temperature. *)
Definition day_mean_temperature (rows : list Measurement) : float :=
  mean_or_zero (map temperature_c rows).

(** The mean of the per-day means. *)
Definition mean_of_day_means (daily : index) (month : Z) : float :=
  mean_or_zero (map day_mean_temperature (qualifying_days daily month)).

(** The sum of a quantity over all measurements of the qualifying days,
    accumulated day by day. *)
Definition month_total (quantity : Measurement -> float)
  (daily : index) (month : Z) : float :=
  PyFloat.sum
    (map (fun rows => PyFloat.sum (map quantity rows))
         (qualifying_days daily month)).

(** The flat mean of all readings. *)
Definition flat_mean_temperature (rows : list Measurement) : float :=
  mean_or_zero (map temperature_c rows).


(** The three metric lines of a report with nothing selected. *)
Definition zero_metric_lines : list string :=
  [ "- Total consumption: 0,00 kWh";
    "- Total production: 0,00 kWh";
    "- Average temperature: 0,00 °C" ].

(** The reservations a threshold test keeps, as printed lines. *)
Definition printed (keep : Z -> bool)
  (rs : list TaskG_class.Reservation) : list string :=
  map (fun r =>
         long_line (TaskG_class.name r) (TaskG_class.date_ r)
           (TaskG_class.time_ r) (TaskG_class.duration r)
           (TaskG_class.resource r))
      (filter (fun r => keep (TaskG_class.duration r)) rs).

(** The earlier and the later of two dates. *)
Definition earlier (a b : date) : date := if PyDate.ltb b a then b else a.
Definition later (a b : date) : date := if PyDate.ltb b a then a else b.

(** The candidate names of the four required columns. *)
Definition REQUIRED : list (list string) :=
  [TIME_CANDIDATES; CONS_CANDIDATES; PROD_CANDIDATES; TEMP_CANDIDATES].

(** A numeric cell is missing when it is empty or when the row ends
    before it. *)
Definition missing_cell (row : row_dict) (col : string) : Prop :=
  PyDict.get String.eqb row col = Some (Str "")
  \/ PyDict.get String.eqb row col = Some NoneCell.


(** What holds of the index after the measurements [seen] have been
    filed. *)
Record index_inv (daily : index) (seen : list Measurement) : Prop := {
  inv_keys : NoDup (PyDict.keys daily);
  inv_get : forall d,
    get daily d =
    if has_date d seen then Some (on_date d seen) else None;
  inv_perm : Permutation (List.concat (PyDict.values daily)) seen
}.

End Spec.

(* ===================================================================== *)
(** * Sample data *)

Module Examples.

Import TaskF.

(** The two-day dataset of the specification: one reading of 10 degrees
    on 1 March 2025, three readings of 0 degrees on 2 March 2025. *)
Definition march (day hour : Z) (temp : Z) : Measurement :=
  mk_Measurement
    (PyDate.mk_datetime (PyDate.mk_date (PyDate.ymd2ord 2025 3 day)) hour 0 0 0)
    (PyFloat.of_Z 1) (PyFloat.of_Z 2) (PyFloat.of_Z temp).

Definition two_day_rows : list Measurement :=
  [ march 1 0 10; march 2 0 0; march 2 1 0; march 2 2 0 ].


(** Header names in capitals and mixed case, each equal to a candidate
    when case is set aside. *)
Definition mixed_case_header : list string :=
  ["Timestamp"; "KULUTUS"; "Production (net) in kWh"; "LÄMPÖTILA"].

(** Header names that only contain a candidate, in another case. *)
Definition containing_header : list string :=
  ["Time (UTC)"; "Net CONSUMPTION"; "Solar Production"; "Outside TEMP"].

(** A header without any name for the temperature. *)
Definition no_temperature_header : list string :=
  ["Timestamp"; "KULUTUS"; "Production"; "Humidity"].

(** The columns of a file with the plain header names. *)
Definition plain_columns : columns :=
  mk_columns "timestamp" "consumption" "production" "temperature".

(** The second data row of [PyLib.bad_timestamp_file]. *)
Definition bad_row : row_dict :=
  [ ("timestamp", Str "yesterday"); ("consumption", Str "1000");
    ("production", Str "500"); ("temperature", Str "7,0") ].

(** A reservation of exactly three hours. *)
Definition three_hours : TaskG_class.Reservation :=
  TaskG_class.mk_Reservation
    1 "Anna Virtanen" "anna@example.com" "0401234567"
    (PyDate.mk_date (PyDate.ymd2ord 2025 10 31)) (mk_time 9 0)
    3 (PyFloat.of_decimal false 195 (-1)) true "Meeting Room A"
    (PyDate.mk_datetime (PyDate.mk_date (PyDate.ymd2ord 2025 8 12)) 14 33 20 0).

(** The temperature line of the year report of a loaded file. *)
Definition year_temperature_line (file : string) : result string :=
  rows <- PyLib.read_data_plain (Some file) ;;
  py_index (create_yearly_report rows) 4.

End Examples.

(* ===================================================================== *)
(** * Selections of the reports *)

Module Aggregates.

Import TaskF Spec.

(** The [n] days from ordinal [first] on, as the range loop visits
    them. *)
Fixpoint span_days (n : nat) (first : Z) : list date :=
  match n with
  | O => []
  | S k => PyDate.mk_date first :: span_days k (first + 1)
  end.

(** The days from the earlier to the later of two dates, both included. *)
Definition span (a b : date) : list date :=
  span_days
    (Z.to_nat (PyDate.toordinal (later a b) + 1 - PyDate.toordinal (earlier a b)))
    (PyDate.toordinal (earlier a b)).

(** The measurements a range report visits: the buckets of the days of the
    span, one day after the other. *)
Definition span_rows (daily : index) (a b : date) : list Measurement :=
  List.concat (map (get_or_nil daily) (span a b)).

(** A measurement dated within the span. *)
Definition in_span (a b : date) (m : Measurement) : bool :=
  (PyDate.toordinal (earlier a b) <=? PyDate.toordinal (date_of m))
  && (PyDate.toordinal (date_of m) <=? PyDate.toordinal (later a b)).

Definition range_title (a b : date) : string :=
  "Report for the period " ++ format_date_fi (earlier a b) ++ "–"
  ++ format_date_fi (later a b).

(** The metric lines of a flat aggregation: sums and the mean of all
    readings of a list of measurements. *)
Definition flat_lines (rows : list Measurement) : list string :=
  metric_lines (PyFloat.sum (map consumption_kwh rows))
               (PyFloat.sum (map production_kwh rows))
               (mean_or_zero (map temperature_c rows)).

(** The total a [+=] loop reaches from [0.0]. *)
Definition running_total (xs : list float) : float :=
  fold_left PyFloat.add xs PyFloat.zero.

(** The distinct dates of a list, each at its first occurrence. *)
Definition first_seen (ds : list date) : list date :=
  fold_left (fun acc d => if existsb (PyDate.eqb d) acc then acc
                          else (acc ++ [d])%list)
            ds [].

(** Measurements in calendar order. *)
Fixpoint date_sorted (rows : list Measurement) : Prop :=
  match rows with
  | [] => True
  | m :: rest =>
      (forall m', In m' rest ->
         PyDate.toordinal (date_of m) <= PyDate.toordinal (date_of m'))
      /\ date_sorted rest
  end.

End Aggregates.

(* ===================================================================== *)
(** * More sample data *)

Module Samples.

Import TaskF Examples.

Definition day_2025 (month day : Z) : date :=
  PyDate.mk_date (PyDate.ymd2ord 2025 month day).

(** A measurement of 31 December 2024. *)
Definition row_2024 : Measurement :=
  mk_Measurement
    (PyDate.mk_datetime (PyDate.mk_date (PyDate.ymd2ord 2024 12 31)) 23 0 0 0)
    (PyFloat.of_Z 7) (PyFloat.of_Z 3) (PyFloat.of_Z (-4)).

(** The index of the two-day dataset. *)
Definition two_day_index : index := build_daily_index two_day_rows.

(** A file whose consumption header has a space before the name. *)
Definition padded_consumption_file : string :=
  "timestamp; consumption;production;temperature" ++ PyLib.nl
  ++ "2025-01-01T00:00:00;1000;500;5,0" ++ PyLib.nl.

(** A file whose timestamp header has a space before the name. *)
Definition padded_timestamp_file : string :=
  " timestamp;consumption;production;temperature" ++ PyLib.nl
  ++ "2025-01-01T00:00:00;1000;500;5,0" ++ PyLib.nl.

End Samples.

(* ===================================================================== *)
(** * Python integers from text *)

Module PyInt.

(** The default limit on the number of digits of a decimal integer
    text. *)
Definition MAX_STR_DIGITS : nat := 4300.

(** The least and greatest value of a C [int], the type in which
    [datetime.date] takes its fields. *)
Definition C_INT_MIN : Z := - 2 ^ 31.
Definition C_INT_MAX : Z := 2 ^ 31 - 1.

Definition fits_c_int (n : Z) : bool := (C_INT_MIN <=? n) && (n <=? C_INT_MAX).

(** [int(s)] on a string: in the ASCII form of the text, whitespace of
    the C locale around an optional sign and decimal digits, which may be
    grouped with single underscores. *)
Definition of_string (s : string) : result Z :=
  let s := PyFloat.rstrip_c (PyFloat.lstrip_c (PyStr.to_ascii s)) in
  let '(neg, r) :=
    match s with
    | String "-" r => (true, r)
    | String "+" r => (false, r)
    | _ => (false, s)
    end in
  match PyFloat.digitpart r with
  | Some (ds, EmptyString) =>
      if (MAX_STR_DIGITS <? String.length ds)%nat then Raise ValueError
      else Ok ((if neg then -1 else 1) * PyFloat.digits_value 0 ds)
  | _ => Raise ValueError
  end.

End PyInt.

(* ===================================================================== *)
(** * The calendar: month and day within a year *)

Module Calendar.

(** The last step of [ord2ymd]: month and day of the day number [n]
    (from 0) of a year. *)
Definition month_day (leapyear : bool) (n : Z) : Z * Z :=
  let month := Z.shiftr (n + 50) 5 in
  let preceding :=
    nth (Z.to_nat month) PyDate.DAYS_BEFORE_MONTH 0
    + (if (2 <? month) && leapyear then 1 else 0) in
  if n <? preceding then
    let month := month - 1 in
    let preceding :=
      preceding
      - (nth (Z.to_nat month) PyDate.DAYS_IN_MONTH 0
         + (if (month =? 2) && leapyear then 1 else 0)) in
    (month, n - preceding + 1)
  else (month, n - preceding + 1).

(** Month and day are of the calendar and lead back to the day
    number. *)
Definition month_day_ok (leapyear : bool) (n : Z) : bool :=
  let '(m, d) := month_day leapyear n in
  (1 <=? m) && (m <=? 12) && (1 <=? d)
  && (d <=? (if (m =? 2) && leapyear then 29
             else nth (Z.to_nat m) PyDate.DAYS_IN_MONTH 0))
  && (nth (Z.to_nat m) PyDate.DAYS_BEFORE_MONTH 0
      + (if (2 <? m) && leapyear then 1 else 0) + d =? n + 1).

(** A text of ASCII digits and points. *)
Fixpoint digits_and_points (s : string) : bool :=
  match s with
  | EmptyString => true
  | String c s' =>
      (PyStr.is_digit c || Ascii.eqb c ".") && digits_and_points s'
  end.

(** The form [dd.mm.yyyy] of a date, with zeros to the full width. *)
Definition padded_date (d : date) : string :=
  PyStr.zfill 2 (PyStr.of_Z (PyDate.day d)) ++ "."
  ++ PyStr.zfill 2 (PyStr.of_Z (PyDate.month d)) ++ "."
  ++ PyStr.zfill 4 (PyStr.of_Z (PyDate.year d)).

(** The [n] integers from [first] on. *)
Fixpoint numbers (n : nat) (first : Z) : list Z :=
  match n with
  | O => []
  | S k => first :: numbers k (first + 1)
  end.

(** [int] reads the text back as [k], also behind zeros up to width
    [w]. *)
Definition reads_back (w : nat) (k : Z) : bool :=
  let text := PyStr.zfill w (PyStr.of_Z k) in
  PyStr.all_digits text
  && match PyInt.of_string text with
     | Ok v => v =? k
     | Raise _ => false
     end.

End Calendar.

(* ===================================================================== *)
(** * TaskF: the console

    The console is a world of three parts: the lines still to be read from
    standard input, what has been written to standard output, and the
    content of [report.txt], if it has been written.  [input] at the end
    of the input raises [EOFError]. *)

Module Console.

Import TaskF.

(** The errors of this part of the program: those of [exn], the end of
    input, and an integer that does not fit the field of a date. *)
Inductive error : Type :=
| Builtin (e : exn)
| EOFError
| OverflowError.

(** The result of a [try] body. *)
Inductive tried (A : Type) : Type :=
| Got (a : A)
| Failed (e : error).
Arguments Got {A} a.
Arguments Failed {A} e.

(** What reaches standard output: the prompt of an [input] call, which
    ends no line, and the text of a [print] call. *)
Inductive event : Type :=
| Prompt (text : string)
| Line (text : string).

Record world : Type := mk_world {
  stdin : list string;
  stdout : list event;
  report_txt : option string
}.

Inductive outcome (A : Type) : Type :=
| Returned (a : A) (w : world)
| Uncaught (e : error) (w : world).
Arguments Returned {A} a w.
Arguments Uncaught {A} e w.

Definition io (A : Type) : Type := world -> outcome A.

Definition and_then {A B} (c : io A) (k : A -> io B) : io B :=
  fun w =>
    match c w with
    | Returned a w' => k a w'
    | Uncaught e w' => Uncaught e w'
    end.

Notation "x <~ c ;;; k" := (and_then c (fun x => k))
  (at level 61, c at next level, right associativity).

Definition ret {A} (a : A) : io A := fun w => Returned a w.

(** [print(text)] *)
Definition print (text : string) : io unit :=
  fun w =>
    Returned tt (mk_world (stdin w) (stdout w ++ [Line text]) (report_txt w)).

(** [input(prompt)] *)
Definition input (prompt : string) : io string :=
  fun w =>
    match stdin w with
    | [] =>
        Uncaught EOFError
          (mk_world [] (stdout w ++ [Prompt prompt]) (report_txt w))
    | line :: rest =>
        Returned line
          (mk_world rest (stdout w ++ [Prompt prompt]) (report_txt w))
    end.

(** The result of pure code that may raise. *)
Definition lift {A} (r : result A) : io A :=
  fun w =>
    match r with
    | Ok a => Returned a w
    | Raise e => Uncaught (Builtin e) w
    end.

(** [date(year, month, day)] on Python integers: a field outside the C
    [int] range is an [OverflowError], before any range check. *)
Definition date_new (year month day : Z) : tried date :=
  if PyInt.fits_c_int year && PyInt.fits_c_int month && PyInt.fits_c_int day
  then match PyDate.make year month day with
       | Ok d => Got d
       | Raise e => Failed (Builtin e)
       end
  else Failed OverflowError.

Definition tried_int (s : string) : tried Z :=
  match PyInt.of_string s with
  | Ok n => Got n
  | Raise e => Failed (Builtin e)
  end.

(** The [try] body of [parse_date_input] on the trimmed line. *)
Definition try_date (raw : string) : tried date :=
  match PyLib.split "." raw with
  | [p0; p1; p2] =>
      match tried_int p0 with
      | Failed e => Failed e
      | Got day =>
          match tried_int p1 with
          | Failed e => Failed e
          | Got month =>
              match tried_int p2 with
              | Failed e => Failed e
              | Got year => date_new year month day
              end
          end
      end
  | _ => Failed (Builtin ValueError)
  end.

Definition INVALID_DATE : string :=
  "Invalid date. Use format dd.mm.yyyy (e.g., 1.11.2025 or 01.11.2025).".

(** The [while True] loop of [parse_date_input], one input line per
    turn. *)
Fixpoint parse_date_lines (prompt : string) (inp : list string)
  (out : list event) (file : option string) : outcome date :=
  match inp with
  | [] => Uncaught EOFError (mk_world [] (out ++ [Prompt prompt]) file)
  | line :: rest =>
      let out1 := (out ++ [Prompt prompt])%list in
      match try_date (PyStr.strip line) with
      | Got d => Returned d (mk_world rest out1 file)
      | Failed (Builtin ValueError) =>
          parse_date_lines prompt rest (out1 ++ [Line INVALID_DATE]) file
      | Failed e => Uncaught e (mk_world rest out1 file)
      end
  end.

Definition parse_date_input (prompt : string) : io date :=
  fun w => parse_date_lines prompt (stdin w) (stdout w) (report_txt w).

(** The [while True] loop of [ask_int_in_range]. *)
Fixpoint ask_int_lines (prompt : string) (min_v max_v : Z)
  (inp : list string) (out : list event) (file : option string)
  : outcome Z :=
  match inp with
  | [] => Uncaught EOFError (mk_world [] (out ++ [Prompt prompt]) file)
  | line :: rest =>
      let out1 := (out ++ [Prompt prompt])%list in
      match PyInt.of_string (PyStr.strip line) with
      | Ok val =>
          if (min_v <=? val) && (val <=? max_v)
          then Returned val (mk_world rest out1 file)
          else ask_int_lines prompt min_v max_v rest
                 (out1 ++ [Line ("Please enter a number between "
                                 ++ PyStr.of_Z min_v ++ " and "
                                 ++ PyStr.of_Z max_v ++ ".")])
                 file
      | Raise ValueError =>
          ask_int_lines prompt min_v max_v rest
            (out1 ++ [Line "Invalid number. Try again."]) file
      | Raise e => Uncaught (Builtin e) (mk_world rest out1 file)
      end
  end.

Definition ask_int_in_range (prompt : string) (min_v max_v : Z) : io Z :=
  fun w =>
    ask_int_lines prompt min_v max_v (stdin w) (stdout w) (report_txt w).

(** A string that starts with a line feed, as [print("\n...")]. *)
Definition after_blank (text : string) : string := String PyLib.LF text.

Definition show_main_menu : io string :=
  _ <~ print (after_blank "Choose a report type:") ;;;
  _ <~ print "1) Daily summary for a date range" ;;;
  _ <~ print "2) Monthly summary for one month" ;;;
  _ <~ print "3) Full year 2025 summary" ;;;
  _ <~ print "4) Exit the program" ;;;
  choice <~ input "Choose (1-4): " ;;;
  ret (PyStr.strip choice).

Definition show_after_menu : io string :=
  _ <~ print (after_blank "What would you like to do next?") ;;;
  _ <~ print "1) Write the report to the file report.txt" ;;;
  _ <~ print "2) Create a new report" ;;;
  _ <~ print "3) Exit" ;;;
  choice <~ input "Choose (1-3): " ;;;
  ret (PyStr.strip choice).

(** [create_daily_report(daily)], with its two prompts. *)
Definition create_daily_report (daily : index) : io (list string) :=
  start <~ parse_date_input "Enter start date (dd.mm.yyyy): " ;;;
  end_ <~ parse_date_input "Enter end date (dd.mm.yyyy): " ;;;
  lift (TaskF.create_daily_report daily start end_).

(** [create_monthly_report(daily)], with its prompt. *)
Definition create_monthly_report (daily : index) : io (list string) :=
  month <~ ask_int_in_range "Enter month number (1–12): " 1 12 ;;;
  lift (TaskF.create_monthly_report daily month).

Fixpoint print_report_to_console (lines : list string) : io unit :=
  match lines with
  | [] => ret tt
  | line :: rest => _ <~ print line ;;; print_report_to_console rest
  end.

(** ["\n".join(lines)] *)
Fixpoint join_lines (lines : list string) : string :=
  match lines with
  | [] => EmptyString
  | [line] => line
  | line :: rest => line ++ String PyLib.LF (join_lines rest)
  end.

(** [write_report_to_file(path, lines)]: the file is replaced. *)
Definition write_report_to_file (lines : list string) : io unit :=
  fun w =>
    Returned tt
      (mk_world (stdin w) (stdout w)
         (Some (join_lines lines ++ String PyLib.LF EmptyString))).

(** ** [main]

    Each turn of the two menu loops reads a line, so a loop over a finite
    input is run with one unit of fuel per line; [None] stands for fuel
    that has run out, which the theorems exclude. *)

Section Main.

Variable csv_reader : ascii -> string -> list (list string).
Variable fromisoformat : string -> result datetime.

(** The post-report loop: [Some true] goes back to the main menu
    ([break]), [Some false] leaves the program ([return]). *)
Fixpoint after_menu_loop (fuel : nat) (last_report : list string)
  : io (option bool) :=
  match fuel with
  | O => ret None
  | S fuel' =>
      after <~ show_after_menu ;;;
      if String.eqb after "1" then
        _ <~ write_report_to_file last_report ;;;
        _ <~ print "Wrote report to report.txt" ;;;
        after_menu_loop fuel' last_report
      else if String.eqb after "2" then ret (Some true)
      else if String.eqb after "3" then
        _ <~ print "Goodbye!" ;;; ret (Some false)
      else
        _ <~ print "Unknown choice. Please select 1-3." ;;;
        after_menu_loop fuel' last_report
  end.

(** The main menu loop; [Some tt] is the end of [main]. *)
Fixpoint main_loop (fuel : nat) (rows : list Measurement) (daily : index)
  (last_report : list string) : io (option unit) :=
  match fuel with
  | O => ret None
  | S fuel' =>
      let after_report (report : list string) : io (option unit) :=
        _ <~ print_report_to_console report ;;;
        again <~ after_menu_loop fuel' report ;;;
        match again with
        | None => ret None
        | Some true => main_loop fuel' rows daily report
        | Some false => ret (Some tt)
        end in
      choice <~ show_main_menu ;;;
      if String.eqb choice "1" then
        report <~ create_daily_report daily ;;; after_report report
      else if String.eqb choice "2" then
        report <~ create_monthly_report daily ;;; after_report report
      else if String.eqb choice "3" then
        after_report (create_yearly_report rows)
      else if String.eqb choice "4" then
        _ <~ print "Goodbye!" ;;; ret (Some tt)
      else
        _ <~ print "Unknown choice. Please select 1-4." ;;;
        main_loop fuel' rows daily last_report
  end.

(** [main()]: [file] is the content of [2025.csv], if the file exists. *)
Definition main (file : option string) : io (option unit) :=
  fun w =>
    match read_data csv_reader fromisoformat file with
    | Raise e => Uncaught (Builtin e) w
    | Ok rows =>
        main_loop (S (List.length (stdin w))) rows (build_daily_index rows)
          [] w
    end.

End Main.

End Console.

(* ===================================================================== *)
(** * Console: what the statements speak of *)

Module ConsoleSpec.

Import Console.

(** What a console operation leaves of the world: the output has only
    grown, the input is a remainder of the input, the report file is
    untouched. *)
Definition reads_only (w w' : world) : Prop :=
  (exists more, stdout w' = (stdout w ++ more)%list)
  /\ (exists consumed, stdin w = (consumed ++ stdin w')%list)
  /\ report_txt w' = report_txt w.

(** The output of the turns spent on rejected lines. *)
Definition rejected_turns (prompt message : string) (bad : list string)
  : list event :=
  flat_map (fun _ => [Prompt prompt; Line message]) bad.

(** The answer of [ask_int_in_range] to an integer outside the range. *)
Definition out_of_range_message (min_v max_v : Z) : string :=
  "Please enter a number between " ++ PyStr.of_Z min_v ++ " and "
  ++ PyStr.of_Z max_v ++ ".".

(** The message a rejected line earns. *)
Definition int_rejection (min_v max_v : Z) (line : string) : option string :=
  match PyInt.of_string (PyStr.strip line) with
  | Ok val =>
      if (min_v <=? val) && (val <=? max_v) then None
      else Some (out_of_range_message min_v max_v)
  | Raise _ => Some "Invalid number. Try again."
  end.

Definition int_rejected_turns (prompt : string) (min_v max_v : Z)
  (bad : list string) : list event :=
  flat_map (fun line =>
              match int_rejection min_v max_v line with
              | Some msg => [Prompt prompt; Line msg]
              | None => []
              end) bad.

(** A report: the divider, a title and three metric lines. *)
Definition is_report (r : list string) : Prop :=
  exists title cons prod temp, r = [TaskF.divider; title; cons; prod; temp].

(** Every line of [r] has been printed. *)
Definition printed_all (r : list string) (w : world) : Prop :=
  Forall (fun line => In (Line line) (stdout w)) r.

(** The text [write_report_to_file] writes for a report. *)
Definition file_text (r : list string) : string :=
  join_lines r ++ String PyLib.LF EmptyString.

(** The report file is as it was, or holds a report all of whose lines
    have been printed. *)
Definition file_ok (w w' : world) : Prop :=
  report_txt w' = report_txt w
  \/ exists r, is_report r /\ report_txt w' = Some (file_text r)
                /\ printed_all r w'.

(** Output has only been added and input only been consumed. *)
Definition grows (w w' : world) : Prop :=
  (exists more, stdout w' = (stdout w ++ more)%list)
  /\ (exists consumed, stdin w = (consumed ++ stdin w')%list).

(** The prompts of the range report. *)
Definition START_DATE_PROMPT : string := "Enter start date (dd.mm.yyyy): ".
Definition END_DATE_PROMPT : string := "Enter end date (dd.mm.yyyy): ".

(** A line of three integers parted by points, one of them beyond the C
    [int] range. *)
Definition oversized_date (line : string) : Prop :=
  exists p0 p1 p2 day month year,
    PyLib.split "." (PyStr.strip line) = [p0; p1; p2]
    /\ PyInt.of_string p0 = Ok day
    /\ PyInt.of_string p1 = Ok month
    /\ PyInt.of_string p2 = Ok year
    /\ PyInt.fits_c_int year && PyInt.fits_c_int month
       && PyInt.fits_c_int day = false.

(** The three ways a console operation stops with an error.  [EOFError]:
    the input has come to its end. *)
Definition input_ended (e : error) (w' : world) : Prop :=
  e = EOFError /\ stdin w' = [].

(** [OverflowError]: the last line read is an oversized date. *)
Definition oversized_date_read (e : error) (w w' : world) : Prop :=
  e = OverflowError
  /\ exists consumed line,
       stdin w = (consumed ++ line :: stdin w')%list
       /\ oversized_date line.

(** [ValueError]: the two date prompts, asked from [w0] on, have returned
    dates the later of which is 9999-12-31, and have left the world
    [w']. *)
Definition range_to_last_day (e : error) (w0 w' : world) : Prop :=
  e = Builtin ValueError
  /\ exists a b w1,
       parse_date_input START_DATE_PROMPT w0 = Returned a w1
       /\ parse_date_input END_DATE_PROMPT w1 = Returned b w'
       /\ Spec.later a b = PyDate.max.

(** The errors that can end a session that starts in [w], once the data
    is loaded. *)
Definition session_error (e : error) (w w' : world) : Prop :=
  input_ended e w'
  \/ oversized_date_read e w w'
  \/ exists w0, grows w w0 /\ range_to_last_day e w0 w'.

(** The last thing written to standard output. *)
Definition last_event (w : world) : option event :=
  match rev (stdout w) with
  | [] => None
  | ev :: _ => Some ev
  end.

(** A text without line feed. *)
Fixpoint no_line_feed (s : string) : bool :=
  match s with
  | EmptyString => true
  | String c s' => negb (Ascii.eqb c PyLib.LF) && no_line_feed s'
  end.

(** The events of the two menus. *)
Definition main_menu_events : list event :=
  [ Line (after_blank "Choose a report type:");
    Line "1) Daily summary for a date range";
    Line "2) Monthly summary for one month";
    Line "3) Full year 2025 summary";
    Line "4) Exit the program";
    Prompt "Choose (1-4): " ].

Definition after_menu_events : list event :=
  [ Line (after_blank "What would you like to do next?");
    Line "1) Write the report to the file report.txt";
    Line "2) Create a new report";
    Line "3) Exit";
    Prompt "Choose (1-3): " ].

(** What the post-report loop does to the world. *)
Definition after_menu_ok (r : list string) (w : world)
  (o : outcome (option bool)) : Prop :=
  match o with
  | Returned None _ => False
  | Returned (Some again) w' =>
      grows w w'
      /\ (List.length (stdin w') < List.length (stdin w))%nat
      /\ (report_txt w' = report_txt w \/ report_txt w' = Some (file_text r))
      /\ (again = false -> last_event w' = Some (Line "Goodbye!"))
  | Uncaught e w' =>
      input_ended e w'
      /\ grows w w'
      /\ (report_txt w' = report_txt w \/ report_txt w' = Some (file_text r))
  end.

(** What a session does to the world: it ends, by an exit choice after
    the farewell line or by one of the session errors; the output has
    only grown; the report file is as it was or holds a printed report. *)
Definition session_ok (w : world) (o : outcome (option unit)) : Prop :=
  match o with
  | Returned None _ => False
  | Returned (Some _) w' =>
      grows w w' /\ file_ok w w'
      /\ last_event w' = Some (Line "Goodbye!")
  | Uncaught e w' => session_error e w w' /\ grows w w' /\ file_ok w w'
  end.

End ConsoleSpec.

(* ===================================================================== *)
(** * A console session *)

Module Session.

Import Console.

(** [main] with the plain library instances. *)
Definition main_plain : option string -> io (option unit) :=
  main PyLib.csv_plain PyLib.fromisoformat_basic.

(** A session on the sample file: an unknown choice, the year report,
    the report written to the file, exit. *)
Definition year_session : world :=
  mk_world ["9"; "3"; "1"; "3"] [] None.

End Session.

(* ===================================================================== *)
(** * Reservations: what the statements speak of *)

Module ReservationSpec.

(** The number of empty lines among printed lines. *)
Definition blank_lines (lines : list string) : nat :=
  List.length (filter (String.eqb "") lines).

(** The number of confirmed reservations. *)
Definition confirmed_count (rs : list TaskG_class.Reservation) : Z :=
  Z.of_nat (List.length (filter TaskG_class.confirmed rs)).

(** The revenue line of a total of zero. *)
Definition NO_REVENUE : list string :=
  ["Total revenue from confirmed reservations: 0,00 EUR"].

(** A confirmed reservation whose duration has no finite float. *)
Definition overflows (r : TaskG_class.Reservation) : Prop :=
  TaskG_class.confirmed r = true
  /\ PyNum.float_of_int (TaskG_class.duration r) = None.

(** Two confirmed reservations and one that is not. *)
Definition office_hours : list TaskG_class.Reservation :=
  [ Examples.three_hours;
    TaskG_class.mk_Reservation
      2 "Bertil Berg" "bertil@example.com" "0407654321"
      (PyDate.mk_date (PyDate.ymd2ord 2025 1 5)) (mk_time 14 30)
      4 (PyFloat.of_decimal false 1005 (-2)) false "Room B"
      (PyDate.mk_datetime (PyDate.mk_date (PyDate.ymd2ord 2025 1 2)) 8 0 0 0);
    TaskG_class.mk_Reservation
      3 "Cecilia Ceder" "cecilia@example.com" "0405550000"
      (PyDate.mk_date (PyDate.ymd2ord 2025 1 5)) (mk_time 16 0)
      7 (PyFloat.of_decimal false 1 (-1)) true "Room B"
      (PyDate.mk_datetime (PyDate.mk_date (PyDate.ymd2ord 2025 1 3)) 9 15 0 0) ].

End ReservationSpec.

(* ===================================================================== *)
(** * Dates: equality test *)

Section DateFacts.

Lemma date_eqb_eq a b : PyDate.eqb a b = true <-> a = b.
Proof.
  destruct a as [x], b as [y]; unfold PyDate.eqb; simpl.
  rewrite Z.eqb_eq. split; congruence.
Qed.

Lemma date_eqb_refl a : PyDate.eqb a a = true.
Proof. apply date_eqb_eq. reflexivity. Qed.

End DateFacts.

(* ===================================================================== *)
(** * Dictionaries: lookup after update *)

Section DictFacts.

Context {K V : Type}.
Variable eqb : K -> K -> bool.
Hypothesis eqb_spec : forall a b, eqb a b = true <-> a = b.

Let get := @PyDict.get K V eqb.
Let set := @PyDict.set K V eqb.

Lemma eqb_same k : eqb k k = true.
Proof. apply eqb_spec. reflexivity. Qed.

Lemma eqb_diff a b : a <> b -> eqb a b = false.
Proof.
  intros Hne. destruct (eqb a b) eqn:E; [ | reflexivity ].
  apply eqb_spec in E. contradiction.
Qed.

Lemma get_set_same d k v : get (set d k v) k = Some v.
Proof.
  induction d as [ | [k0 v0] d IH ]; simpl.
  - rewrite eqb_same. reflexivity.
  - destruct (eqb k k0) eqn:E; simpl; rewrite E; [ reflexivity | exact IH ].
Qed.

Lemma get_set_other d k v k' :
  k' <> k -> get (set d k v) k' = get d k'.
Proof.
  intros Hne.
  induction d as [ | [k0 v0] d IH ]; simpl.
  - rewrite (eqb_diff _ _ Hne). reflexivity.
  - destruct (eqb k k0) eqn:E; simpl.
    + apply eqb_spec in E. subst k0.
      rewrite (eqb_diff _ _ Hne). reflexivity.
    + rewrite IH. reflexivity.
Qed.

Lemma get_None_iff d k : get d k = None <-> ~ In k (PyDict.keys d).
Proof.
  induction d as [ | [k0 v0] d IH ]; simpl.
  - tauto.
  - destruct (eqb k k0) eqn:E.
    + apply eqb_spec in E. split; [ discriminate | intros H; exfalso; auto ].
    + rewrite IH. split.
      * intros H [H1 | H1]; [ | auto ].
        subst k0. rewrite eqb_same in E. discriminate.
      * intros H H1. apply H. right. exact H1.
Qed.

Lemma get_In d k v : get d k = Some v -> In (k, v) d.
Proof.
  induction d as [ | [k0 v0] d IH ]; simpl; [ discriminate | ].
  destruct (eqb k k0) eqn:E.
  - apply eqb_spec in E. intros [= <-]. left. congruence.
  - intros H. right. auto.
Qed.

Lemma In_get d k v :
  NoDup (PyDict.keys d) -> In (k, v) d -> get d k = Some v.
Proof.
  induction d as [ | [k0 v0] d IH ]; simpl; [ tauto | ].
  intros Hnd [Heq | Hin].
  - injection Heq as -> ->. rewrite eqb_same. reflexivity.
  - inversion Hnd as [ | ? ? Hnot Hnd' ]; subst.
    destruct (eqb k k0) eqn:E.
    + apply eqb_spec in E. subst k0. exfalso. apply Hnot.
      change (In (fst (k, v)) (map fst d)). apply in_map. exact Hin.
    + apply IH; assumption.
Qed.

Lemma keys_set_present d k v0 v :
  get d k = Some v0 -> PyDict.keys (set d k v) = PyDict.keys d.
Proof.
  induction d as [ | [k1 v1] d IH ]; simpl; [ discriminate | ].
  destruct (eqb k k1) eqn:E; simpl; [ reflexivity | ].
  intros H. rewrite (IH H). reflexivity.
Qed.

Lemma set_absent d k v :
  get d k = None -> set d k v = (d ++ [(k, v)])%list.
Proof.
  induction d as [ | [k1 v1] d IH ]; simpl; [ reflexivity | ].
  destruct (eqb k k1) eqn:E; [ discriminate | ].
  intros H. rewrite (IH H). reflexivity.
Qed.

Lemma set_last d k v v' :
  get d k = None ->
  set (d ++ [(k, v)])%list k v' = (d ++ [(k, v')])%list.
Proof.
  induction d as [ | [k1 v1] d IH ]; simpl.
  - rewrite eqb_same. reflexivity.
  - destruct (eqb k k1) eqn:E; [ discriminate | ].
    intros H. rewrite (IH H). reflexivity.
Qed.

End DictFacts.

Lemma concat_set_extend {K A : Type} (eqb : K -> K -> bool)
  (d : @PyDict.dict K (list A)) k b x :
  PyDict.get eqb d k = Some b ->
  Permutation (List.concat (PyDict.values (PyDict.set eqb d k (b ++ x)%list)))
              (List.concat (PyDict.values d) ++ x)%list.
Proof.
  induction d as [ | [k1 v1] d IH ]; simpl; [ discriminate | ].
  destruct (eqb k k1) eqn:E; simpl.
  - intros [= ->]. rewrite <- !app_assoc.
    apply Permutation_app_head. apply Permutation_app_comm.
  - intros H. rewrite <- app_assoc.
    apply Permutation_app_head. apply IH. exact H.
Qed.

(* ===================================================================== *)
(** * The daily index is an exact partition *)

Section DailyIndex.

Import TaskF Spec.

Lemma filter_none {A} (f : A -> bool) l :
  existsb f l = false -> filter f l = [].
Proof.
  induction l as [ | a l IH ]; simpl; [ reflexivity | ].
  destruct (f a); simpl; [ discriminate | exact IH ].
Qed.

Lemma NoDup_snoc {A} (l : list A) x :
  NoDup l -> ~ In x l -> NoDup (l ++ [x]).
Proof.
  intros Hnd Hnot.
  apply (Permutation_NoDup (Permutation_cons_append l x)).
  constructor; assumption.
Qed.

Lemma index_inv_nil : index_inv [] [].
Proof. split; simpl; [ constructor | reflexivity | constructor ]. Qed.

Lemma index_inv_step daily seen m :
  index_inv daily seen ->
  index_inv (setdefault_append daily m) (seen ++ [m]).
Proof.
  intros [Hk Hg Hp]. unfold setdefault_append.
  pose proof (Hg (date_of m)) as Hd.
  assert (Hhas : forall d,
    Spec.has_date d (seen ++ [m])
    = Spec.has_date d seen || PyDate.eqb (date_of m) d).
  { intros d. unfold Spec.has_date. rewrite existsb_app. simpl.
    rewrite orb_false_r. reflexivity. }
  assert (Hon : forall d,
    Spec.on_date d (seen ++ [m])
    = (Spec.on_date d seen
       ++ if PyDate.eqb (date_of m) d then [m] else [])%list).
  { intros d. unfold Spec.on_date. rewrite filter_app. simpl.
    destruct (PyDate.eqb (date_of m) d); reflexivity. }
  destruct (get daily (date_of m)) as [bucket | ] eqn:G.
  - (* the day already has a bucket *)
    destruct (Spec.has_date (date_of m) seen) eqn:Hs; [ | discriminate ].
    injection Hd as ->.
    split.
    + unfold get in G.
      rewrite (keys_set_present PyDate.eqb _ _ _ _ G). exact Hk.
    + intros d. rewrite Hhas, Hon. unfold get in *.
      destruct (PyDate.eqb (date_of m) d) eqn:E.
      * apply date_eqb_eq in E. subst d.
        rewrite (get_set_same PyDate.eqb date_eqb_eq), Hs.
        reflexivity.
      * rewrite (get_set_other PyDate.eqb date_eqb_eq).
        -- rewrite Hg, orb_false_r, app_nil_r. reflexivity.
        -- intros ->. rewrite date_eqb_refl in E. discriminate.
    + eapply Permutation_trans.
      * apply concat_set_extend. exact G.
      * apply Permutation_app_tail. exact Hp.
  - (* a new bucket is opened at the end *)
    destruct (Spec.has_date (date_of m) seen) eqn:Hs; [ discriminate | ].
    assert (Hnot : ~ In (date_of m) (PyDict.keys daily)).
    { apply (get_None_iff PyDate.eqb date_eqb_eq). exact G. }
    unfold get in G.
    split.
    + rewrite (set_absent PyDate.eqb _ _ _ G).
      rewrite (set_last PyDate.eqb date_eqb_eq _ _ _ _ G).
      unfold PyDict.keys. rewrite map_app. simpl.
      apply NoDup_snoc; assumption.
    + intros d. rewrite Hhas, Hon. unfold get in *.
      destruct (PyDate.eqb (date_of m) d) eqn:E.
      * apply date_eqb_eq in E. subst d.
        rewrite (get_set_same PyDate.eqb date_eqb_eq), Hs. simpl.
        unfold Spec.on_date, Spec.has_date in *.
        rewrite (filter_none _ _ Hs). reflexivity.
      * assert (Hne : d <> date_of m).
        { intros ->. rewrite date_eqb_refl in E. discriminate. }
        rewrite !(get_set_other PyDate.eqb date_eqb_eq) by exact Hne.
        rewrite Hg, orb_false_r, app_nil_r. reflexivity.
    + rewrite (set_absent PyDate.eqb _ _ _ G).
      rewrite (set_last PyDate.eqb date_eqb_eq _ _ _ _ G).
      unfold PyDict.values. rewrite map_app, concat_app. simpl.
      apply Permutation_app_tail. exact Hp.
Qed.

Lemma index_inv_fold rows : forall daily seen,
  index_inv daily seen ->
  index_inv (fold_left setdefault_append rows daily) (seen ++ rows).
Proof.
  induction rows as [ | m rows IH ]; intros daily seen Hinv; simpl.
  - rewrite app_nil_r. exact Hinv.
  - replace (seen ++ m :: rows)%list with ((seen ++ [m]) ++ rows)%list
      by (rewrite <- app_assoc; reflexivity).
    apply IH. apply index_inv_step. exact Hinv.
Qed.

Lemma build_daily_index_inv rows :
  index_inv (build_daily_index rows) rows.
Proof.
  apply (index_inv_fold rows [] []). exact index_inv_nil.
Qed.

(** C3. [build_daily_index] files every measurement under the date of its
    timestamp and nowhere else: the keys are distinct; the bucket of a
    date is exactly the input's measurements of that date, in input
    order, and a date without measurements has no bucket; the buckets
    together are a rearrangement of the input list; every measurement of
    the input is found in the bucket of its own date; a bucket is never
    empty and holds only measurements of its date, so two buckets with a
    common measurement are the same bucket. *)
Theorem build_daily_index_partition (rows : list Measurement) :
  let daily := build_daily_index rows in
  NoDup (PyDict.keys daily)
  /\ (forall d,
        get daily d =
        if Spec.has_date d rows then Some (Spec.on_date d rows) else None)
  /\ Permutation (List.concat (PyDict.values daily)) rows
  /\ (forall m, In m rows ->
        exists bucket, get daily (date_of m) = Some bucket /\ In m bucket)
  /\ (forall d bucket, In (d, bucket) (PyDict.items daily) ->
        bucket <> [] /\ bucket = Spec.on_date d rows
        /\ forall m, In m bucket -> date_of m = d)
  /\ (forall d1 b1 d2 b2 m,
        In (d1, b1) (PyDict.items daily) ->
        In (d2, b2) (PyDict.items daily) ->
        In m b1 -> In m b2 -> d1 = d2 /\ b1 = b2).
Proof.
  intros daily.
  destruct (build_daily_index_inv rows) as [Hk Hg Hp].
  fold daily in Hk, Hg, Hp.
  assert (Hitem : forall d bucket, In (d, bucket) (PyDict.items daily) ->
    bucket <> [] /\ bucket = Spec.on_date d rows
    /\ forall m, In m bucket -> date_of m = d).
  { intros d bucket Hin.
    apply (In_get PyDate.eqb date_eqb_eq _ _ _ Hk) in Hin.
    pose proof (Hg d) as Hd. unfold get in Hd. rewrite Hin in Hd.
    destruct (Spec.has_date d rows) eqn:Hs; [ | discriminate ].
    injection Hd as ->.
    unfold Spec.has_date in Hs. apply existsb_exists in Hs.
    destruct Hs as [m0 [Hin0 E0]].
    split; [ | split; [ reflexivity | ] ].
    - intros Hnil.
      assert (Hm : In m0 (Spec.on_date d rows))
        by (apply filter_In; split; assumption).
      rewrite Hnil in Hm. exact Hm.
    - intros m Hm. apply filter_In in Hm. destruct Hm as [_ E].
      apply date_eqb_eq. exact E. }
  split; [ exact Hk | ].
  split; [ exact Hg | ].
  split; [ exact Hp | ].
  split; [ | split ].
  - intros m Hin. exists (Spec.on_date (date_of m) rows). split.
    + rewrite Hg.
      assert (Hs : Spec.has_date (date_of m) rows = true).
      { apply existsb_exists. exists m. split;
          [ exact Hin | apply date_eqb_refl ]. }
      rewrite Hs. reflexivity.
    + apply filter_In. split; [ exact Hin | apply date_eqb_refl ].
  - exact Hitem.
  - intros d1 b1 d2 b2 m H1 H2 Hm1 Hm2.
    destruct (Hitem _ _ H1) as (_ & -> & Hd1).
    destruct (Hitem _ _ H2) as (_ & -> & Hd2).
    rewrite <- (Hd1 m Hm1), <- (Hd2 m Hm2). split; reflexivity.
Qed.

End DailyIndex.

(* ===================================================================== *)
(** * The month report *)

Section MonthReport.

Import TaskF Spec Examples.

(** Regrouping a sum of sums into one pass needs an associative
    operation with a unit; binary64 addition is not associative, which is
    why the totals are stated day by day. *)
Lemma sum_of_sums_flat {A} (op : A -> A -> A) (e : A) :
  (forall x y z, op (op x y) z = op x (op y z)) ->
  (forall x, op e x = x) -> (forall x, op x e = x) ->
  forall (groups : list (list A)),
    fold_left op (map (fun g => fold_left op g e) groups) e
    = fold_left op (List.concat groups) e.
Proof.
  intros Hassoc Hl Hr.
  assert (Hshift : forall g a, fold_left op g a = op a (fold_left op g e)).
  { induction g as [ | x g IH ]; intros a; simpl.
    - rewrite Hr. reflexivity.
    - rewrite (IH (op a x)), (IH (op e x)), Hl, Hassoc. reflexivity. }
  assert (Hgen : forall groups a,
    fold_left op (map (fun g => fold_left op g e) groups) a
    = fold_left op (List.concat groups) a).
  { induction groups as [ | g groups IH ]; intros a; simpl.
    - reflexivity.
    - rewrite fold_left_app, IH, <- Hshift. reflexivity. }
  intros groups. apply Hgen.
Qed.

(** The loop over the items, from any accumulator. *)
Lemma month_loop month items : forall acc,
  let days := map snd (filter (is_qualifying month) items) in
  fold_left (month_step month) items acc
  = mk_month_acc
      (fold_left PyFloat.add
         (map (fun rows => PyFloat.sum (map consumption_kwh rows)) days)
         (m_total_cons acc))
      (fold_left PyFloat.add
         (map (fun rows => PyFloat.sum (map production_kwh rows)) days)
         (m_total_prod acc))
      (daily_avg_temps acc ++ map Spec.day_mean_temperature days)%list.
Proof.
  induction items as [ | [d rows] items IH ]; intros acc days.
  - subst days. simpl. rewrite app_nil_r. destruct acc; reflexivity.
  - subst days. cbn [fold_left filter]. rewrite IH.
    unfold month_step.
    change ((PyDate.year d =? 2025) && (PyDate.month d =? month))
      with (is_qualifying month (d, rows)).
    destruct (is_qualifying month (d, rows)); [ | reflexivity ].
    cbn [map snd fold_left m_total_cons m_total_prod daily_avg_temps].
    rewrite <- app_assoc. reflexivity.
Qed.

Lemma month_name_defined month :
  1 <= month <= 12 -> exists name, month_name_en month = Ok name.
Proof.
  intros H.
  assert (Hc : month = 1 \/ month = 2 \/ month = 3 \/ month = 4
               \/ month = 5 \/ month = 6 \/ month = 7 \/ month = 8
               \/ month = 9 \/ month = 10 \/ month = 11 \/ month = 12)
    by lia.
  repeat (destruct Hc as [-> | Hc]; [ eexists; reflexivity | ]).
  subst. eexists. reflexivity.
Qed.

Lemma create_monthly_report_eq daily month name :
  month_name_en month = Ok name ->
  create_monthly_report daily month
  = Ok (divider
        :: ("Report for the month: " ++ name)
        :: metric_lines
             (Spec.month_total consumption_kwh daily month)
             (Spec.month_total production_kwh daily month)
             (Spec.mean_of_day_means daily month)).
Proof.
  intros Hname. unfold create_monthly_report.
  rewrite month_loop, Hname. simpl. reflexivity.
Qed.

(** C1. For a month in 1..12 the month report is the divider, the title
    with the month's English name, and three metric lines: total
    consumption and total production are the sums over all measurements
    of the days of year 2025 in that month (each day's measurements
    summed, the day sums added up in index order), and the average
    temperature is the mean of the per-day mean temperatures.  On the
    two-day dataset (one reading of 10 degrees, then three readings of
    0 degrees) the reported average is 5,00 while the flat mean of the
    four readings prints as 2,50. *)
Theorem monthly_report_mean_of_day_means :
  (forall (daily : index) (month : Z),
     1 <= month <= 12 ->
     exists name,
       month_name_en month = Ok name
       /\ create_monthly_report daily month
          = Ok [ divider;
                 "Report for the month: " ++ name;
                 "- Total consumption: "
                   ++ format_float_fi
                        (Spec.month_total consumption_kwh daily month)
                   ++ " kWh";
                 "- Total production: "
                   ++ format_float_fi
                        (Spec.month_total production_kwh daily month)
                   ++ " kWh";
                 "- Average temperature: "
                   ++ format_float_fi (Spec.mean_of_day_means daily month)
                   ++ " °C" ])
  /\ create_monthly_report (build_daily_index two_day_rows) 3
     = Ok [ divider;
            "Report for the month: March";
            "- Total consumption: 4,00 kWh";
            "- Total production: 8,00 kWh";
            "- Average temperature: 5,00 °C" ]
  /\ format_float_fi (Spec.flat_mean_temperature two_day_rows) = "2,50".
Proof.
  split; [ | split ].
  - intros daily month Hm.
    destruct (month_name_defined month Hm) as [name Hname].
    exists name. split; [ exact Hname | ].
    apply create_monthly_report_eq. exact Hname.
  - vm_compute. reflexivity.
  - vm_compute. reflexivity.
Qed.

Lemma monthly_report_mean_of_day_means_witness :
  1 <= 3 <= 12
  /\ exists name,
       month_name_en 3 = Ok name
       /\ create_monthly_report (build_daily_index two_day_rows) 3
          = Ok [ divider;
                 "Report for the month: " ++ name;
                 "- Total consumption: "
                   ++ format_float_fi
                        (Spec.month_total consumption_kwh
                           (build_daily_index two_day_rows) 3)
                   ++ " kWh";
                 "- Total production: "
                   ++ format_float_fi
                        (Spec.month_total production_kwh
                           (build_daily_index two_day_rows) 3)
                   ++ " kWh";
                 "- Average temperature: "
                   ++ format_float_fi
                        (Spec.mean_of_day_means
                           (build_daily_index two_day_rows) 3)
                   ++ " °C" ].
Proof.
  split; [ lia | ].
  apply (proj1 monthly_report_mean_of_day_means
           (build_daily_index two_day_rows) 3).
  lia.
Defined.

End MonthReport.

(* ===================================================================== *)
(** * The range report *)

Section RangeReport.

Import TaskF Spec.

Lemma range_loop_unfold daily end_ cur acc :
  range_loop daily end_ cur acc =
  if PyDate.leb cur end_ then
    match PyDate.fromordinal (PyDate.toordinal cur + 1) with
    | Ok next =>
        range_loop daily end_ next (add_rows acc (get_or_nil daily cur))
    | Raise e => Raise e
    end
  else Ok acc.
Proof.
  funelim (range_loop daily end_ cur acc);
    repeat match goal with
           | E : PyDate.leb _ _ = _ |- _ => rewrite E
           | E : PyDate.fromordinal _ = _ |- _ => rewrite E
           end;
    reflexivity.
Qed.

Lemma fromordinal_next n :
  0 <= n < PyDate.MAXORDINAL ->
  PyDate.fromordinal (n + 1) = Ok (PyDate.mk_date (n + 1)).
Proof.
  intros H. unfold PyDate.fromordinal.
  replace (1 <=? n + 1) with true by (symmetry; apply Z.leb_le; lia).
  replace (n + 1 <=? PyDate.MAXORDINAL) with true
    by (symmetry; apply Z.leb_le; lia).
  reflexivity.
Qed.

Lemma fromordinal_past_max :
  PyDate.fromordinal (PyDate.MAXORDINAL + 1) = Raise ValueError.
Proof. reflexivity. Qed.

(** The loop ends on every span that stops before the last date. *)
Lemma range_loop_returns daily end_ :
  PyDate.toordinal end_ < PyDate.MAXORDINAL ->
  forall n cur acc,
    Z.to_nat (PyDate.toordinal end_ + 1 - PyDate.toordinal cur) = n ->
    0 <= PyDate.toordinal cur ->
    exists acc', range_loop daily end_ cur acc = Ok acc'.
Proof.
  intros Hend. induction n as [ | n IH ]; intros cur acc Hn Hcur;
    rewrite range_loop_unfold; unfold PyDate.leb.
  - replace (PyDate.toordinal cur <=? PyDate.toordinal end_) with false
      by (symmetry; apply Z.leb_gt; lia).
    eexists. reflexivity.
  - destruct (PyDate.toordinal cur <=? PyDate.toordinal end_) eqn:E;
      [ | eexists; reflexivity ].
    apply Z.leb_le in E.
    rewrite fromordinal_next by lia.
    apply IH; simpl; lia.
Qed.

(** With no day of the span in the index the loop changes nothing. *)
Lemma range_loop_no_day daily end_ :
  PyDate.toordinal end_ < PyDate.MAXORDINAL ->
  forall n cur acc,
    Z.to_nat (PyDate.toordinal end_ + 1 - PyDate.toordinal cur) = n ->
    0 <= PyDate.toordinal cur ->
    (forall d, PyDate.toordinal cur <= PyDate.toordinal d
               <= PyDate.toordinal end_ -> get daily d = None) ->
    range_loop daily end_ cur acc = Ok acc.
Proof.
  intros Hend. induction n as [ | n IH ]; intros cur acc Hn Hcur Hnone;
    rewrite range_loop_unfold; unfold PyDate.leb.
  - replace (PyDate.toordinal cur <=? PyDate.toordinal end_) with false
      by (symmetry; apply Z.leb_gt; lia).
    reflexivity.
  - destruct (PyDate.toordinal cur <=? PyDate.toordinal end_) eqn:E;
      [ | reflexivity ].
    apply Z.leb_le in E.
    rewrite fromordinal_next by lia.
    unfold get_or_nil. rewrite (Hnone cur) by lia. simpl.
    apply IH; simpl; try lia.
    intros d Hd. apply Hnone. simpl in Hd. lia.
Qed.

(** Up to the last date the loop runs into [date.fromordinal] past
    9999-12-31. *)
Lemma range_loop_to_max daily :
  forall n cur acc,
    Z.to_nat (PyDate.MAXORDINAL - PyDate.toordinal cur) = n ->
    0 <= PyDate.toordinal cur <= PyDate.MAXORDINAL ->
    range_loop daily PyDate.max cur acc = Raise ValueError.
Proof.
  induction n as [ | n IH ]; intros cur acc Hn Hcur;
    rewrite range_loop_unfold; unfold PyDate.leb;
    change (PyDate.toordinal PyDate.max) with PyDate.MAXORDINAL;
    (replace (PyDate.toordinal cur <=? PyDate.MAXORDINAL) with true
      by (symmetry; apply Z.leb_le; lia)).
  - replace (PyDate.toordinal cur) with PyDate.MAXORDINAL by lia.
    reflexivity.
  - rewrite fromordinal_next by lia.
    apply IH; cbn [PyDate.toordinal]; lia.
Qed.

Lemma create_daily_report_ordered daily a b :
  create_daily_report daily a b
  = create_daily_report daily (earlier a b) (later a b).
Proof.
  unfold create_daily_report, earlier, later.
  destruct (PyDate.ltb b a) eqn:E.
  - unfold PyDate.ltb in *.
    replace (PyDate.toordinal a <? PyDate.toordinal b) with false
      by (symmetry; apply Z.ltb_ge; apply Z.ltb_lt in E; lia).
    reflexivity.
  - rewrite E. reflexivity.
Qed.

Lemma earlier_later_swap a b :
  earlier a b = earlier b a /\ later a b = later b a.
Proof.
  unfold earlier, later, PyDate.ltb.
  destruct a as [x], b as [y]; simpl.
  destruct (y <? x) eqn:E1, (x <? y) eqn:E2;
    try (split; reflexivity).
  - apply Z.ltb_lt in E1, E2. lia.
  - apply Z.ltb_ge in E1, E2.
    assert (x = y) by lia. subst. split; reflexivity.
Qed.

Lemma create_daily_report_swap daily a b :
  create_daily_report daily a b = create_daily_report daily b a.
Proof.
  rewrite (create_daily_report_ordered daily a b).
  rewrite (create_daily_report_ordered daily b a).
  destruct (earlier_later_swap a b) as [-> ->]. reflexivity.
Qed.

Lemma later_not_before_earlier a b :
  PyDate.ltb (later a b) (earlier a b) = false.
Proof.
  unfold earlier, later.
  destruct (PyDate.ltb b a) eqn:E; [ | exact E ].
  unfold PyDate.ltb in *. apply Z.ltb_ge. apply Z.ltb_lt in E. lia.
Qed.

(** Every span of valid dates that ends before 9999-12-31 gets its five
    lines. *)
Lemma create_daily_report_defined daily a b :
  PyDate.valid a -> PyDate.valid b ->
  PyDate.toordinal (later a b) < PyDate.MAXORDINAL ->
  exists title cons prod temp,
    create_daily_report daily a b
    = Ok [divider; title; cons; prod; temp].
Proof.
  intros Ha Hb Hmax.
  rewrite create_daily_report_ordered.
  assert (Hlo : 0 <= PyDate.toordinal (earlier a b)).
  { unfold earlier, PyDate.valid in *. destruct (PyDate.ltb b a); lia. }
  unfold create_daily_report.
  rewrite later_not_before_earlier.
  destruct (range_loop_returns daily (later a b) Hmax _
              (earlier a b) range_acc0 eq_refl Hlo) as [acc' ->].
  simpl. repeat eexists.
Qed.

(** A range report that ends on 9999-12-31 is not built. *)
Lemma create_daily_report_to_max daily a :
  PyDate.valid a -> create_daily_report daily a PyDate.max = Raise ValueError.
Proof.
  intros Ha.
  unfold create_daily_report, PyDate.ltb, PyDate.valid in *.
  change (PyDate.toordinal PyDate.max) with PyDate.MAXORDINAL.
  replace (PyDate.MAXORDINAL <? PyDate.toordinal a) with false
    by (symmetry; apply Z.ltb_ge; lia).
  rewrite (range_loop_to_max daily _ a range_acc0 eq_refl) by lia.
  reflexivity.
Qed.

(** C2. The range report for [(a, b)] is the range report for [(b, a)]:
    both are the report built for the earlier of the two dates as start
    and the later as end, so an end date before the start date is
    swapped and not refused.  For dates of the calendar whose later one
    is before 9999-12-31 the report is built, the same five lines in both
    orders.  When the later one is 9999-12-31 no report is built: both
    orders raise [ValueError], also when the dates were entered with the
    end before the start. *)
Theorem create_daily_report_symmetric (daily : index) (a b : date) :
  create_daily_report daily a b = create_daily_report daily b a
  /\ create_daily_report daily a b
     = create_daily_report daily (earlier a b) (later a b)
  /\ PyDate.ltb (later a b) (earlier a b) = false
  /\ (PyDate.valid a -> PyDate.valid b ->
      PyDate.toordinal (later a b) < PyDate.MAXORDINAL ->
      exists title cons prod temp,
        create_daily_report daily a b
        = Ok [divider; title; cons; prod; temp]
        /\ create_daily_report daily b a
           = Ok [divider; title; cons; prod; temp])
  /\ (PyDate.valid a -> PyDate.valid b ->
      PyDate.toordinal (later a b) = PyDate.MAXORDINAL ->
      create_daily_report daily a b = Raise ValueError
      /\ create_daily_report daily b a = Raise ValueError).
Proof.
  split; [ apply create_daily_report_swap | ].
  split; [ apply create_daily_report_ordered | ].
  split; [ apply later_not_before_earlier | ].
  split.
  - intros Ha Hb Hmax.
    destruct (create_daily_report_defined daily a b Ha Hb Hmax)
      as (title & cons & prod & temp & H).
    exists title, cons, prod, temp. split; [ exact H | ].
    rewrite <- (create_daily_report_swap daily a b). exact H.
  - intros Ha Hb Hmax.
    assert (H : create_daily_report daily a b = Raise ValueError).
    { rewrite create_daily_report_ordered.
      assert (Hl : later a b = PyDate.max).
      { destruct (later a b) as [n]. cbn [PyDate.toordinal] in Hmax.
        subst n. reflexivity. }
      rewrite Hl. apply create_daily_report_to_max.
      unfold earlier. destruct (PyDate.ltb b a); assumption. }
    split; [ exact H | ].
    rewrite <- (create_daily_report_swap daily a b). exact H.
Qed.

Lemma metric_lines_zero :
  metric_lines PyFloat.zero PyFloat.zero PyFloat.zero
  = Spec.zero_metric_lines.
Proof. vm_compute. reflexivity. Qed.

(** A span that matches no day of the index reports zeros. *)
Lemma create_daily_report_empty daily a b :
  PyDate.valid a -> PyDate.valid b ->
  PyDate.toordinal (later a b) < PyDate.MAXORDINAL ->
  (forall d, PyDate.toordinal (earlier a b) <= PyDate.toordinal d
             <= PyDate.toordinal (later a b) -> get daily d = None) ->
  create_daily_report daily a b
  = Ok (divider
        :: ("Report for the period " ++ format_date_fi (earlier a b)
            ++ "–" ++ format_date_fi (later a b))
        :: Spec.zero_metric_lines).
Proof.
  intros Ha Hb Hmax Hnone.
  rewrite create_daily_report_ordered.
  assert (Hlo : 0 <= PyDate.toordinal (earlier a b)).
  { unfold earlier, PyDate.valid in *. destruct (PyDate.ltb b a); lia. }
  unfold create_daily_report.
  rewrite later_not_before_earlier.
  rewrite (range_loop_no_day daily (later a b) Hmax _
             (earlier a b) range_acc0 eq_refl Hlo Hnone).
  simpl. rewrite <- metric_lines_zero. reflexivity.
Qed.

Lemma create_yearly_report_empty rows :
  (forall m, In m rows -> PyDate.year (date_of m) <> 2025) ->
  create_yearly_report rows
  = divider :: "Report for the year: 2025" :: Spec.zero_metric_lines.
Proof.
  intros Hnone. unfold create_yearly_report.
  assert (Hf : filter (fun m => PyDate.year (date_of m) =? 2025) rows = []).
  { apply filter_none. destruct (existsb _ rows) eqn:E; [ | reflexivity ].
    apply existsb_exists in E. destruct E as [m [Hin Hy]].
    apply Z.eqb_eq in Hy. exfalso. exact (Hnone m Hin Hy). }
  rewrite Hf. simpl. rewrite <- metric_lines_zero. reflexivity.
Qed.

Lemma create_monthly_report_empty daily month name :
  month_name_en month = Ok name ->
  Spec.qualifying_days daily month = [] ->
  create_monthly_report daily month
  = Ok (divider :: ("Report for the month: " ++ name)
        :: Spec.zero_metric_lines).
Proof.
  intros Hname Hq. rewrite (create_monthly_report_eq _ _ _ Hname).
  unfold Spec.month_total, Spec.mean_of_day_means. rewrite Hq. simpl.
  rewrite <- metric_lines_zero. reflexivity.
Qed.

(** C7. A range report that ends on 9999-12-31, the last date the user
    can enter, is never built: after the last day the loop asks
    [date.fromordinal] for the day after, which raises [ValueError].
    This holds for every index and every valid start date, the empty
    selection included. *)
Theorem create_daily_report_raises_at_last_date
  (daily : index) (a : date) :
  PyDate.valid a ->
  create_daily_report daily a PyDate.max = Raise ValueError
  /\ create_daily_report daily PyDate.max a = Raise ValueError.
Proof.
  intros Ha.
  assert (H : create_daily_report daily a PyDate.max = Raise ValueError).
  { unfold create_daily_report, PyDate.ltb, PyDate.valid in *.
    change (PyDate.toordinal PyDate.max) with PyDate.MAXORDINAL.
    replace (PyDate.MAXORDINAL <? PyDate.toordinal a) with false
      by (symmetry; apply Z.ltb_ge; lia).
    rewrite (range_loop_to_max daily _ a range_acc0 eq_refl) by lia.
    reflexivity. }
  split; [ exact H | ].
  rewrite (create_daily_report_swap daily PyDate.max a).
  exact H.
Qed.

Lemma create_daily_report_symmetric_witness :
  (PyDate.valid (date_of (Examples.march 2 0 0))
   /\ PyDate.valid (date_of (Examples.march 1 0 10))
   /\ PyDate.toordinal
        (later (date_of (Examples.march 2 0 0))
               (date_of (Examples.march 1 0 10)))
      < PyDate.MAXORDINAL
   /\ exists title cons prod temp,
        create_daily_report (build_daily_index Examples.two_day_rows)
          (date_of (Examples.march 2 0 0)) (date_of (Examples.march 1 0 10))
        = Ok [divider; title; cons; prod; temp]
        /\ create_daily_report (build_daily_index Examples.two_day_rows)
             (date_of (Examples.march 1 0 10))
             (date_of (Examples.march 2 0 0))
           = Ok [divider; title; cons; prod; temp])
  /\ (PyDate.valid PyDate.max
      /\ PyDate.valid (date_of (Examples.march 1 0 10))
      /\ PyDate.toordinal (later PyDate.max (date_of (Examples.march 1 0 10)))
         = PyDate.MAXORDINAL
      /\ create_daily_report [] PyDate.max (date_of (Examples.march 1 0 10))
         = Raise ValueError
      /\ create_daily_report [] (date_of (Examples.march 1 0 10)) PyDate.max
         = Raise ValueError).
Proof.
  assert (H2 : PyDate.valid (date_of (Examples.march 2 0 0)))
    by (split; vm_compute; discriminate).
  assert (H1 : PyDate.valid (date_of (Examples.march 1 0 10)))
    by (split; vm_compute; discriminate).
  assert (Hm : PyDate.valid PyDate.max) by (split; vm_compute; discriminate).
  split.
  - assert (Hlt : PyDate.toordinal
                    (later (date_of (Examples.march 2 0 0))
                           (date_of (Examples.march 1 0 10)))
                  < PyDate.MAXORDINAL) by (vm_compute; reflexivity).
    split; [ exact H2 | ]. split; [ exact H1 | ]. split; [ exact Hlt | ].
    exact (proj1 (proj2 (proj2 (proj2
             (create_daily_report_symmetric
                (build_daily_index Examples.two_day_rows)
                (date_of (Examples.march 2 0 0))
                (date_of (Examples.march 1 0 10)))))) H2 H1 Hlt).
  - assert (Heq : PyDate.toordinal
                    (later PyDate.max (date_of (Examples.march 1 0 10)))
                  = PyDate.MAXORDINAL) by (vm_compute; reflexivity).
    split; [ exact Hm | ]. split; [ exact H1 | ]. split; [ exact Heq | ].
    exact (proj2 (proj2 (proj2 (proj2
             (create_daily_report_symmetric []
                PyDate.max (date_of (Examples.march 1 0 10)))))) Hm H1 Heq).
Defined.

Lemma create_daily_report_raises_at_last_date_witness :
  PyDate.valid PyDate.max
  /\ create_daily_report [] PyDate.max PyDate.max = Raise ValueError.
Proof.
  assert (Hv : PyDate.valid PyDate.max)
    by (unfold PyDate.valid; simpl; unfold PyDate.MAXORDINAL; lia).
  split; [ exact Hv | ].
  exact (proj1 (create_daily_report_raises_at_last_date [] PyDate.max Hv)).
Defined.

End RangeReport.

(* ===================================================================== *)
(** * Finnish number formatting *)

Section Formatting.

Import TaskF Spec Examples.





Lemma replace_app old new s t :
  PyStr.replace old new (s ++ t)
  = PyStr.replace old new s ++ PyStr.replace old new t.
Proof. induction s; simpl; [ | rewrite IHs ]; reflexivity. Qed.








End Formatting.

(* ===================================================================== *)
(** * Loading the measurements *)

Section Loading.

Import TaskF Spec.

Variable csv_reader : ascii -> string -> list (list string).
Variable fromisoformat : string -> result datetime.

Let read_data := TaskF.read_data csv_reader fromisoformat.
Let read_rows := TaskF.read_rows fromisoformat.
Let read_row := TaskF.read_row fromisoformat.

(** ** Column resolution *)

Lemma prefix_refl s : String.prefix s s = true.
Proof.
  induction s as [ | c s IH ]; simpl; [ reflexivity | ].
  destruct (ascii_dec c c); [ exact IH | contradiction ].
Qed.

Lemma contains_refl s : PyStr.contains s s = true.
Proof. destruct s; simpl; [ reflexivity | ].
  destruct (ascii_dec a a); [ | contradiction ].
  rewrite prefix_refl. reflexivity.
Qed.

Lemma same_name_within cand fn :
  same_name cand fn = true -> name_within cand fn = true.
Proof.
  unfold same_name, name_within. intros H.
  apply String.eqb_eq in H. rewrite H. apply contains_refl.
Qed.

Lemma first_match_none test candidates headers :
  first_match test candidates headers = None <->
  (forall cand fn, In cand candidates -> In fn headers ->
                   test cand fn = false).
Proof.
  induction candidates as [ | c cs IH ]; simpl.
  - split; [ intros _ ? ? [] | reflexivity ].
  - destruct (find (test c) headers) as [fn | ] eqn:F.
    + split; [ discriminate | ].
      intros H. apply find_some in F. destruct F as [Hin Ht].
      rewrite (H c fn (or_introl eq_refl) Hin) in Ht. discriminate.
    + rewrite IH. split.
      * intros H cand fn [<- | Hc] Hfn.
        -- exact (find_none _ _ F fn Hfn).
        -- exact (H cand fn Hc Hfn).
      * intros H cand fn Hc Hfn. apply H; [ right | ]; assumption.
Qed.

Lemma first_match_some test candidates headers fn :
  first_match test candidates headers = Some fn ->
  In fn headers /\ exists cand, In cand candidates /\ test cand fn = true.
Proof.
  induction candidates as [ | c cs IH ]; simpl; [ discriminate | ].
  destruct (find (test c) headers) as [fn' | ] eqn:F.
  - intros [= ->]. apply find_some in F. destruct F as [Hin Ht].
    split; [ exact Hin | ]. exists c. split; [ left; reflexivity | exact Ht ].
  - intros H. destruct (IH H) as [Hin [cand [Hc Ht]]].
    split; [ exact Hin | ]. exists cand. split; [ right | ]; assumption.
Qed.

(** [find_col] fails exactly when no header contains a candidate, and it
    fails with [ValueError]. *)
Lemma find_col_raises normalized candidates e :
  find_col normalized candidates = Raise e <->
  e = ValueError
  /\ forall cand fn, In cand candidates ->
       In fn (PyDict.values normalized) -> name_within cand fn = false.
Proof.
  unfold find_col.
  destruct (first_match same_name _ _) as [fn | ] eqn:F1.
  - split; [ discriminate | ]. intros [_ H].
    apply first_match_some in F1. destruct F1 as [Hin [cand [Hc Ht]]].
    apply same_name_within in Ht. rewrite (H cand fn Hc Hin) in Ht.
    discriminate.
  - destruct (first_match name_within _ _) as [fn | ] eqn:F2.
    + split; [ discriminate | ]. intros [_ H].
      apply first_match_none in H. unfold PyDict.values in *. congruence.
    + split.
      * intros [= <-]. split; [ reflexivity | ].
        apply first_match_none. exact F2.
      * intros [-> _]. reflexivity.
Qed.

(** A resolved column is a normalised header that equals a candidate
    without regard to case, or, when no header equals any candidate,
    one that contains a candidate. *)
Lemma find_col_returns normalized candidates fn :
  find_col normalized candidates = Ok fn ->
  In fn (PyDict.values normalized)
  /\ exists cand, In cand candidates
     /\ (same_name cand fn = true
         \/ (name_within cand fn = true
             /\ forall c f, In c candidates ->
                  In f (PyDict.values normalized) ->
                  same_name c f = false)).
Proof.
  unfold find_col.
  destruct (first_match same_name _ _) as [fn1 | ] eqn:F1.
  - intros [= ->]. apply first_match_some in F1.
    destruct F1 as [Hin [cand [Hc Ht]]].
    split; [ exact Hin | ]. exists cand. split; [ exact Hc | left; exact Ht ].
  - destruct (first_match name_within _ _) as [fn2 | ] eqn:F2;
      [ | discriminate ].
    intros [= ->]. apply first_match_some in F2.
    destruct F2 as [Hin [cand [Hc Ht]]].
    split; [ exact Hin | ]. exists cand. split; [ exact Hc | ].
    right. split; [ exact Ht | ].
    apply first_match_none. exact F1.
Qed.

Lemma find_col_cases normalized candidates :
  find_col normalized candidates = Raise ValueError
  \/ exists fn, find_col normalized candidates = Ok fn.
Proof.
  unfold find_col.
  destruct (first_match same_name _ _); [ right; eexists; reflexivity | ].
  destruct (first_match name_within _ _);
    [ right; eexists; reflexivity | left; reflexivity ].
Qed.

Lemma find_columns_unresolved fieldnames candidates :
  In candidates REQUIRED ->
  find_col (normalize fieldnames) candidates = Raise ValueError ->
  find_columns fieldnames = Raise ValueError.
Proof.
  intros Hin Hraise. unfold find_columns.
  destruct (find_col_cases (normalize fieldnames) TIME_CANDIDATES)
    as [-> | [t Ht]]; [ reflexivity | ].
  destruct (find_col_cases (normalize fieldnames) CONS_CANDIDATES)
    as [Hc | [c Hc]]; [ rewrite Ht, Hc; reflexivity | ].
  destruct (find_col_cases (normalize fieldnames) PROD_CANDIDATES)
    as [Hp | [p Hp]]; [ rewrite Ht, Hc, Hp; reflexivity | ].
  destruct (find_col_cases (normalize fieldnames) TEMP_CANDIDATES)
    as [Hk | [k Hk]]; [ rewrite Ht, Hc, Hp, Hk; reflexivity | ].
  simpl in Hin.
  destruct Hin as [<- | [<- | [<- | [<- | []]]]]; congruence.
Qed.

(** ** The row loop *)

Lemma read_row_blank cols row :
  time_str row (col_time cols) = "" -> read_row cols row = Ok None.
Proof.
  intros H. unfold read_row, TaskF.read_row. rewrite H. reflexivity.
Qed.

Lemma read_row_skips_only_blank cols row :
  read_row cols row = Ok None -> time_str row (col_time cols) = "".
Proof.
  unfold read_row, TaskF.read_row.
  destruct (String.eqb (time_str row (col_time cols)) "") eqn:E.
  - intros _. apply String.eqb_eq. exact E.
  - destruct (fromisoformat _); simpl; [ | discriminate ].
    destruct (parse_float_fi (cell_str row (col_cons cols)));
      simpl; [ | discriminate ].
    destruct (parse_float_fi (cell_str row (col_prod cols)));
      simpl; [ | discriminate ].
    destruct (parse_float_fi (cell_str row (col_temp cols)));
      simpl; discriminate.
Qed.

Lemma read_row_bad_timestamp cols row e :
  time_str row (col_time cols) <> "" ->
  fromisoformat (time_str row (col_time cols)) = Raise e ->
  read_row cols row = Raise e.
Proof.
  intros Hne Hiso. unfold read_row, TaskF.read_row.
  destruct (String.eqb (time_str row (col_time cols)) "") eqn:E.
  - apply String.eqb_eq in E. contradiction.
  - rewrite Hiso. reflexivity.
Qed.

Lemma read_rows_skip cols row rest rows :
  time_str row (col_time cols) = "" ->
  read_rows cols (row :: rest) rows = read_rows cols rest rows.
Proof.
  intros H. unfold read_rows. simpl.
  fold (read_row cols row). rewrite (read_row_blank _ _ H). reflexivity.
Qed.

Lemma read_rows_all_blank cols data : forall rows,
  (forall row, In row data -> time_str row (col_time cols) = "") ->
  read_rows cols data rows = Ok rows.
Proof.
  induction data as [ | row data IH ]; intros rows H; [ reflexivity | ].
  rewrite read_rows_skip by (apply H; left; reflexivity).
  apply IH. intros r Hr. apply H. right. exact Hr.
Qed.

Lemma read_rows_raises cols data row e0 : forall rows,
  In row data -> read_row cols row = Raise e0 ->
  exists e, read_rows cols data rows = Raise e.
Proof.
  induction data as [ | r data IH ]; intros rows Hin Hbad; [ destruct Hin | ].
  unfold read_rows. simpl. fold (read_row cols r).
  destruct (read_row cols r) as [ [m | ] | e ] eqn:R.
  - destruct Hin as [-> | Hin]; [ congruence | ].
    apply IH; assumption.
  - destruct Hin as [-> | Hin]; [ congruence | ].
    apply IH; assumption.
  - exists e. reflexivity.
Qed.

(** ** C5 *)

Lemma join_chars s : PyStr.join (PyStr.chars s) = s.
Proof.
  induction s as [ | b rest IH ]; [ reflexivity | ].
  cbn [PyStr.chars]. cbv zeta.
  destruct rest as [ | b2 r ]; [ reflexivity | ].
  destruct (PyStr.is_cont b2).
  - destruct (PyStr.chars (String b2 r)) as [ | c cs ];
      cbn [PyStr.join append] in *; rewrite <- IH; reflexivity.
  - cbn [PyStr.join append]. rewrite IH. reflexivity.
Qed.



(** ** C6 *)

(** C6. [read_data] raises [FileNotFoundError] when the path does not
    exist.  On an existing file it raises [ValueError] when one of the
    four required columns is not resolved, and when no row is kept
    because every row has a blank timestamp; it never returns an empty
    list.  A column is unresolved exactly when no normalised header
    contains, without regard to case, any of its candidate names (an
    exact match is such a containment); a resolved column is a header
    equal to a candidate without regard to case, or, when there is no
    such header for any candidate, a header containing one.  Case is set
    aside as [str.lower] does it, letters outside ASCII included: the
    headers [Timestamp], [KULUTUS], [Production (net) in kWh] and
    [LÄMPÖTILA] are resolved as equal to a candidate, the headers
    [Time (UTC)], [Net CONSUMPTION], [Solar Production] and
    [Outside TEMP] as containing one. *)
Theorem read_data_failures :
  read_data None = Raise FileNotFoundError
  /\ (forall text candidates,
        In candidates REQUIRED ->
        find_col
          (normalize
             (fieldnames_of (csv_reader (detect_delimiter text) text)))
          candidates = Raise ValueError ->
        read_data (Some text) = Raise ValueError)
  /\ (forall text cols,
        let records := csv_reader (detect_delimiter text) text in
        find_columns (fieldnames_of records) = Ok cols ->
        (forall row, In row (dict_rows records) ->
                     time_str row (col_time cols) = "") ->
        read_data (Some text) = Raise ValueError)
  /\ (forall text, read_data (Some text) <> Ok [])
  /\ (forall normalized candidates e,
        find_col normalized candidates = Raise e <->
        e = ValueError
        /\ forall cand fn, In cand candidates ->
             In fn (PyDict.values normalized) ->
             name_within cand fn = false)
  /\ (forall normalized candidates fn,
        find_col normalized candidates = Ok fn ->
        In fn (PyDict.values normalized)
        /\ exists cand, In cand candidates
           /\ (same_name cand fn = true
               \/ (name_within cand fn = true
                   /\ forall c f, In c candidates ->
                        In f (PyDict.values normalized) ->
                        same_name c f = false)))
  /\ (forall cand fn,
        (same_name cand fn = true <-> PyStr.lower fn = PyStr.lower cand)
        /\ (name_within cand fn = true
            <-> PyStr.contains (PyStr.lower cand) (PyStr.lower fn) = true))
  /\ PyStr.lower "LÄMPÖTILA" = "lämpötila"
  /\ PyStr.lower "Production (net) in kWh" = "production (net) in kwh"
  /\ same_name "lämpötila" "LÄMPÖTILA" = true
  /\ same_name "lampotila" "LÄMPÖTILA" = false
  /\ find_columns Examples.mixed_case_header
     = Ok (mk_columns "Timestamp" "KULUTUS" "Production (net) in kWh"
             "LÄMPÖTILA")
  /\ find_columns Examples.containing_header
     = Ok (mk_columns "Time (UTC)" "Net CONSUMPTION" "Solar Production"
             "Outside TEMP")
  /\ find_columns Examples.no_temperature_header = Raise ValueError.
Proof.
  split; [ reflexivity | ].
  split; [ | split; [ | split; [ | split; [ | split ] ] ] ].
  - intros text candidates Hin Hraise.
    unfold read_data, TaskF.read_data.
    rewrite (find_columns_unresolved _ _ Hin Hraise). reflexivity.
  - intros text cols records Hcols Hblank.
    unfold read_data, TaskF.read_data. fold records.
    rewrite Hcols. simpl.
    fold (read_rows cols (dict_rows records) []).
    rewrite (read_rows_all_blank cols _ [] Hblank). reflexivity.
  - intros text. unfold read_data, TaskF.read_data.
    destruct (find_columns _) as [cols | e]; simpl; [ | discriminate ].
    destruct (TaskF.read_rows _ _ _ _) as [ [ | m rows ] | e ];
      simpl; discriminate.
  - exact find_col_raises.
  - exact find_col_returns.
  - split.
    + intros cand fn. unfold same_name, name_within.
      split; [ apply String.eqb_eq | reflexivity ].
    + split; [ vm_compute; reflexivity | ].
      split; [ vm_compute; reflexivity | ].
      split; [ vm_compute; reflexivity | ].
      split; [ vm_compute; reflexivity | ].
      split; [ vm_compute; reflexivity | ].
      split; vm_compute; reflexivity.
Qed.

(** ** C10 *)

(** C10. When the columns are resolved and some row of the file has a
    timestamp field that is not blank and that [fromisoformat] rejects,
    [read_data] raises and returns no measurements: the row is not
    skipped.  The only rows the loop skips are those whose timestamp
    field is blank after trimming. *)
Theorem malformed_timestamp_aborts_load :
  (forall text cols row e,
     let records := csv_reader (detect_delimiter text) text in
     find_columns (fieldnames_of records) = Ok cols ->
     In row (dict_rows records) ->
     time_str row (col_time cols) <> "" ->
     fromisoformat (time_str row (col_time cols)) = Raise e ->
     read_row cols row = Raise e
     /\ exists e', read_data (Some text) = Raise e')
  /\ (forall cols row,
        read_row cols row = Ok None <-> time_str row (col_time cols) = "")
  /\ (forall cols row rest rows,
        time_str row (col_time cols) = "" ->
        read_rows cols (row :: rest) rows = read_rows cols rest rows).
Proof.
  split; [ | split ].
  - intros text cols row e records Hcols Hin Hne Hiso.
    pose proof (read_row_bad_timestamp cols row e Hne Hiso) as Hrow.
    split; [ exact Hrow | ].
    destruct (read_rows_raises cols _ row e [] Hin Hrow) as [e' He'].
    exists e'. unfold read_data, TaskF.read_data. fold records.
    rewrite Hcols. simpl.
    fold (read_rows cols (dict_rows records) []). rewrite He'.
    reflexivity.
  - intros cols row. split;
      [ apply read_row_skips_only_blank | apply read_row_blank ].
  - intros cols row rest rows. apply read_rows_skip.
Qed.

End Loading.

(* ===================================================================== *)
(** * Loading concrete files *)

Section LoadingExamples.

Import TaskF PyLib Spec Examples.

Lemma floatnumber_raises_value_error neg s e :
  PyFloat.floatnumber neg s = Raise e -> e = ValueError.
Proof.
  unfold PyFloat.floatnumber.
  destruct (PyFloat.number s) as [ [ [ip fp] rest ] | ];
    [ | intros [= <-]; reflexivity ].
  destruct rest; [ discriminate | ].
  destruct (PyFloat.exponent _) as [ [ex [ | ? ? ] ] | ];
    try discriminate; intros [= <-]; reflexivity.
Qed.

Lemma parse_float_fi_raises_value_error s e :
  parse_float_fi s = Raise e -> e = ValueError.
Proof.
  unfold parse_float_fi, PyFloat.of_string.
  match goal with
  | |- context [ let '(neg, r0) := ?p in _ ] => destruct p as [neg r0]
  end.
  destruct (_ || _); [ discriminate | ].
  destruct (String.eqb _ "nan"); [ discriminate | ].
  apply floatnumber_raises_value_error.
Qed.

Lemma missing_cell_not_a_float row col :
  missing_cell row col ->
  parse_float_fi (cell_str row col) = Raise ValueError.
Proof.
  unfold missing_cell, cell_str. intros [-> | ->]; reflexivity.
Qed.

(** A row with a good timestamp and a missing numeric cell raises. *)
Lemma read_row_missing_cell fromisoformat cols row ts :
  time_str row (col_time cols) <> "" ->
  fromisoformat (time_str row (col_time cols)) = Ok ts ->
  missing_cell row (col_cons cols) \/ missing_cell row (col_prod cols)
  \/ missing_cell row (col_temp cols) ->
  read_row fromisoformat cols row = Raise ValueError.
Proof.
  intros Hne Hts Hmiss. unfold read_row.
  destruct (String.eqb (time_str row (col_time cols)) "") eqn:E.
  - apply String.eqb_eq in E. contradiction.
  - rewrite Hts. simpl.
    destruct (parse_float_fi (cell_str row (col_cons cols))) as [c | e] eqn:Pc;
      simpl.
    2: { apply parse_float_fi_raises_value_error in Pc. subst. reflexivity. }
    destruct (parse_float_fi (cell_str row (col_prod cols))) as [p | e] eqn:Pp;
      simpl.
    2: { apply parse_float_fi_raises_value_error in Pp. subst. reflexivity. }
    destruct (parse_float_fi (cell_str row (col_temp cols))) as [k | e] eqn:Pk;
      simpl.
    2: { apply parse_float_fi_raises_value_error in Pk. subst. reflexivity. }
    destruct Hmiss as [H | [H | H]];
      apply missing_cell_not_a_float in H; congruence.
Qed.

(** The default of [row.get(col, "0")] is reached only when the row has
    no key [col] at all, which happens when the header carries
    surrounding whitespace: the resolved name is the trimmed one, the
    row's key is not. *)
Lemma absent_key_reads_zero row col :
  PyDict.get String.eqb row col = None ->
  parse_float_fi (cell_str row col) = Ok PyFloat.zero.
Proof. unfold cell_str. intros ->. reflexivity. Qed.

(** C4, on the code: a row with a timestamp and an empty consumption
    cell, and a row that ends before its temperature cell, both make
    [read_data] raise [ValueError]; no measurement is produced and no
    value is defaulted to zero.  The file of the specification's scenario,
    with every cell filled in, loads and reports. *)
Theorem missing_cell_aborts_load :
  read_data_plain (Some empty_cell_file) = Raise ValueError
  /\ read_data_plain (Some short_row_file) = Raise ValueError
  /\ year_temperature_line sample_file
     = Ok "- Average temperature: 7,33 °C".
Proof. repeat split; vm_compute; reflexivity. Qed.


Lemma read_data_failures_witness :
  read_data_plain None = Raise FileNotFoundError
  /\ read_data_plain (Some no_temperature_file) = Raise ValueError
  /\ read_data_plain (Some blank_timestamps_file) = Raise ValueError.
Proof.
  pose proof (read_data_failures csv_plain fromisoformat_basic)
    as (Hnone & Hcol & Hblank & _).
  split; [ exact Hnone | split ].
  - apply (Hcol no_temperature_file TEMP_CANDIDATES).
    + right; right; right; left; reflexivity.
    + vm_compute. reflexivity.
  - apply (Hblank blank_timestamps_file plain_columns).
    + vm_compute. reflexivity.
    + intros row Hin. vm_compute in Hin.
      destruct Hin as [<- | [<- | []]]; vm_compute; reflexivity.
Defined.

Lemma malformed_timestamp_aborts_load_witness :
  read_row fromisoformat_basic plain_columns bad_row = Raise ValueError
  /\ exists e, read_data_plain (Some bad_timestamp_file) = Raise e.
Proof.
  apply (proj1 (malformed_timestamp_aborts_load csv_plain
                  fromisoformat_basic)
           bad_timestamp_file plain_columns bad_row ValueError).
  - vm_compute. reflexivity.
  - vm_compute. right. left. reflexivity.
  - vm_compute. discriminate.
  - vm_compute. reflexivity.
Defined.

End LoadingExamples.

(* ===================================================================== *)
(** * The long-reservation printers *)

Section LongReservations.

Import Examples.

Lemma TaskC_long_reservations_spec rs :
  TaskC.long_reservations (map TaskC.of_Reservation rs)
  = Spec.printed (fun d => 3 <=? d) rs.
Proof.
  unfold Spec.printed.
  induction rs as [ | r rs IH ]; simpl; [ reflexivity | ].
  destruct (3 <=? TaskG_class.duration r); simpl; rewrite IH; reflexivity.
Qed.

Lemma TaskG_dict_long_reservations_spec rs :
  TaskG_dict.long_reservations (map TaskG_dict.of_Reservation rs)
  = Spec.printed (fun d => 3 <? d) rs.
Proof.
  unfold Spec.printed.
  induction rs as [ | r rs IH ]; simpl; [ reflexivity | ].
  destruct (3 <? TaskG_class.duration r); simpl; rewrite IH; reflexivity.
Qed.

Lemma TaskG_class_long_reservations_spec rs :
  TaskG_class.long_reservations rs = Spec.printed (fun d => 3 <? d) rs.
Proof.
  unfold Spec.printed.
  induction rs as [ | r rs IH ]; simpl; [ reflexivity | ].
  destruct (3 <? TaskG_class.duration r); simpl; rewrite IH; reflexivity.
Qed.

(** C8. On every reservation list TaskC prints the reservations of
    duration at least 3 and both TaskG scripts print those of duration
    more than 3, each under the same header text; on a reservation of
    exactly three hours TaskC prints its line and the TaskG scripts
    print nothing. *)
Theorem long_reservations_thresholds_differ :
  (forall rs,
     TaskC.long_reservations (map TaskC.of_Reservation rs)
     = Spec.printed (fun d => 3 <=? d) rs)
  /\ (forall rs,
        TaskG_dict.long_reservations (map TaskG_dict.of_Reservation rs)
        = Spec.printed (fun d => 3 <? d) rs)
  /\ (forall rs,
        TaskG_class.long_reservations rs
        = Spec.printed (fun d => 3 <? d) rs)
  /\ TaskC.long_header = "2) Long Reservations (>= 3 h)"
  /\ TaskG_dict.long_header = TaskC.long_header
  /\ TaskG_class.long_header = TaskC.long_header
  /\ TaskG_class.duration three_hours = 3
  /\ TaskC.long_reservations [TaskC.of_Reservation three_hours]
     = ["- Anna Virtanen, 31.10.2025 at 09.00, duration 3 h, Meeting Room A"]
  /\ TaskG_dict.long_reservations [TaskG_dict.of_Reservation three_hours]
     = []
  /\ TaskG_class.long_reservations [three_hours] = [].
Proof.
  split; [ exact TaskC_long_reservations_spec | ].
  split; [ exact TaskG_dict_long_reservations_spec | ].
  split; [ exact TaskG_class_long_reservations_spec | ].
  repeat split; vm_compute; reflexivity.
Qed.

End LongReservations.

(* ===================================================================== *)
(** * What the reports select *)

Section Selections.

(** The unfolding equation of the range loop, under a name of its own. *)
Let range_loop_step := range_loop_unfold.

Import TaskF Spec Examples Aggregates Samples.

Lemma add_rows_totals rows : forall acc,
  add_rows acc rows
  = mk_range_acc
      (fold_left PyFloat.add (map consumption_kwh rows) (total_cons acc))
      (fold_left PyFloat.add (map production_kwh rows) (total_prod acc))
      (temps acc ++ map temperature_c rows)%list.
Proof.
  unfold add_rows.
  induction rows as [ | m rows IH ]; intros acc; simpl.
  - rewrite app_nil_r. destruct acc; reflexivity.
  - rewrite IH. simpl. rewrite <- app_assoc. reflexivity.
Qed.

Lemma add_rows_app acc l1 l2 :
  add_rows acc (l1 ++ l2) = add_rows (add_rows acc l1) l2.
Proof. unfold add_rows. apply fold_left_app. Qed.

(** The loop visits the days up to the end date in order and adds their
    buckets. *)
Lemma range_loop_span daily end_ :
  PyDate.toordinal end_ < PyDate.MAXORDINAL ->
  forall n cur acc,
    Z.to_nat (PyDate.toordinal end_ + 1 - PyDate.toordinal cur) = n ->
    0 <= PyDate.toordinal cur ->
    range_loop daily end_ cur acc
    = Ok (add_rows acc
            (List.concat
               (map (get_or_nil daily) (span_days n (PyDate.toordinal cur))))).
Proof.
  intros Hend. induction n as [ | n IH ]; intros cur acc Hn Hcur;
    rewrite range_loop_step; unfold PyDate.leb.
  - replace (PyDate.toordinal cur <=? PyDate.toordinal end_) with false
      by (symmetry; apply Z.leb_gt; lia).
    reflexivity.
  - replace (PyDate.toordinal cur <=? PyDate.toordinal end_) with true
      by (symmetry; apply Z.leb_le; lia).
    rewrite fromordinal_next by lia.
    rewrite IH by (cbn [PyDate.toordinal]; lia).
    cbn [span_days map List.concat PyDate.toordinal].
    rewrite add_rows_app. destruct cur as [c]. reflexivity.
Qed.

Lemma range_report_flat_lines daily a b :
  PyDate.valid a -> PyDate.valid b ->
  PyDate.toordinal (later a b) < PyDate.MAXORDINAL ->
  create_daily_report daily a b
  = Ok (divider :: range_title a b :: flat_lines (span_rows daily a b)).
Proof.
  intros Ha Hb Hmax.
  rewrite create_daily_report_ordered.
  assert (Hlo : 0 <= PyDate.toordinal (earlier a b)).
  { unfold earlier, PyDate.valid in *. destruct (PyDate.ltb b a); lia. }
  unfold create_daily_report.
  rewrite later_not_before_earlier.
  rewrite (range_loop_span daily (later a b) Hmax _
             (earlier a b) range_acc0 eq_refl Hlo).
  rewrite add_rows_totals.
  cbn [bind total_cons total_prod temps range_acc0 app].
  reflexivity.
Qed.

(** X1. For valid dates whose later one is before 9999-12-31 the range
    report is built, and its three metric lines are flat aggregates of the
    measurements in the buckets of the days from the earlier to the later
    date, taken day after day: the two sums, and the mean of all
    individual temperature readings (zero when there is none). *)
Theorem create_daily_report_flat (daily : index) (a b : date) :
  PyDate.valid a -> PyDate.valid b ->
  PyDate.toordinal (later a b) < PyDate.MAXORDINAL ->
  create_daily_report daily a b
  = Ok [ divider;
         "Report for the period " ++ format_date_fi (earlier a b) ++ "–"
           ++ format_date_fi (later a b);
         "- Total consumption: "
           ++ format_float_fi
                (PyFloat.sum (map consumption_kwh (span_rows daily a b)))
           ++ " kWh";
         "- Total production: "
           ++ format_float_fi
                (PyFloat.sum (map production_kwh (span_rows daily a b)))
           ++ " kWh";
         "- Average temperature: "
           ++ format_float_fi
                (mean_or_zero (map temperature_c (span_rows daily a b)))
           ++ " °C" ].
Proof. apply range_report_flat_lines. Qed.

Lemma create_daily_report_flat_witness :
  PyDate.valid (day_2025 3 5) /\ PyDate.valid (day_2025 2 25)
  /\ PyDate.toordinal (later (day_2025 3 5) (day_2025 2 25))
     < PyDate.MAXORDINAL
  /\ exists lines,
       create_daily_report two_day_index (day_2025 3 5) (day_2025 2 25)
       = Ok lines
       /\ nth 4 lines "" = "- Average temperature: 2,50 °C".
Proof.
  assert (Ha : PyDate.valid (day_2025 3 5))
    by (split; vm_compute; discriminate).
  assert (Hb : PyDate.valid (day_2025 2 25))
    by (split; vm_compute; discriminate).
  assert (Hm : PyDate.toordinal (later (day_2025 3 5) (day_2025 2 25))
               < PyDate.MAXORDINAL) by (vm_compute; reflexivity).
  split; [ exact Ha | split; [ exact Hb | split; [ exact Hm | ] ] ].
  eexists. split.
  - exact (create_daily_report_flat two_day_index _ _ Ha Hb Hm).
  - vm_compute. reflexivity.
Defined.

(** ** The range report on the index of a list of measurements *)

Lemma get_or_nil_build rows d :
  get_or_nil (build_daily_index rows) d = on_date d rows.
Proof.
  unfold get_or_nil.
  rewrite (inv_get _ _ (build_daily_index_inv rows) d).
  destruct (has_date d rows) eqn:E; [ reflexivity | ].
  symmetry. apply filter_none. exact E.
Qed.

Lemma span_days_In n : forall first d,
  In d (span_days n first)
  <-> first <= PyDate.toordinal d < first + Z.of_nat n.
Proof.
  induction n as [ | n IH ]; intros first d.
  - simpl. lia.
  - cbn [span_days In]. rewrite IH. split.
    + intros [<- | H]; cbn [PyDate.toordinal]; lia.
    + intros H.
      destruct (Z.eq_dec (PyDate.toordinal d) first) as [E | E].
      * left. destruct d as [x]. cbn [PyDate.toordinal] in E. congruence.
      * right. lia.
Qed.

Lemma span_days_NoDup n : forall first, NoDup (span_days n first).
Proof.
  induction n as [ | n IH ]; intros first; cbn [span_days]; constructor.
  - rewrite span_days_In. cbn [PyDate.toordinal]. lia.
  - apply IH.
Qed.

Lemma concat_map_one {A} (x : date) (m : A) days :
  NoDup days ->
  List.concat (map (fun d => if PyDate.eqb x d then [m] else []) days)
  = if existsb (PyDate.eqb x) days then [m] else [].
Proof.
  induction days as [ | d days IH ]; intros Hnd; [ reflexivity | ].
  inversion Hnd as [ | ? ? Hnot Hnd' ]; subst.
  cbn [map List.concat existsb]. rewrite (IH Hnd').
  destruct (PyDate.eqb x d) eqn:E; [ | reflexivity ].
  apply date_eqb_eq in E. subst d.
  destruct (existsb (PyDate.eqb x) days) eqn:Ex; [ | reflexivity ].
  apply existsb_exists in Ex. destruct Ex as [y [Hy Exy]].
  apply date_eqb_eq in Exy. subst y. contradiction.
Qed.

Lemma concat_map_app {A B} (f g : A -> list B) l :
  Permutation (List.concat (map (fun d => f d ++ g d)%list l))
              (List.concat (map f l) ++ List.concat (map g l))%list.
Proof.
  induction l as [ | d l IH ]; [ constructor | ].
  cbn [map List.concat].
  rewrite <- !app_assoc. apply Permutation_app_head.
  eapply Permutation_trans; [ apply Permutation_app_head; exact IH | ].
  rewrite !app_assoc. apply Permutation_app_tail. apply Permutation_app_comm.
Qed.

Lemma on_date_cons d m rows :
  on_date d (m :: rows)
  = ((if PyDate.eqb (date_of m) d then [m] else []) ++ on_date d rows)%list.
Proof.
  unfold on_date. cbn [filter].
  destruct (PyDate.eqb (date_of m) d); reflexivity.
Qed.

(** The buckets of a duplicate-free list of days hold, together, the
    measurements dated on one of these days. *)
Lemma buckets_of_days rows days :
  NoDup days ->
  Permutation
    (List.concat (map (fun d => on_date d rows) days))
    (filter (fun m => existsb (PyDate.eqb (date_of m)) days) rows).
Proof.
  intros Hnd. induction rows as [ | m rows IH ].
  - simpl. induction days as [ | d days IHd ]; [ constructor | ].
    inversion Hnd; subst. cbn [map List.concat app]. auto.
  - rewrite (map_ext _ _ (fun d => on_date_cons d m rows)).
    eapply Permutation_trans; [ apply concat_map_app | ].
    rewrite (concat_map_one _ _ _ Hnd). cbn [filter].
    destruct (existsb (PyDate.eqb (date_of m)) days).
    + simpl. constructor. exact IH.
    + simpl. exact IH.
Qed.

Lemma existsb_span a b m :
  existsb (PyDate.eqb (date_of m)) (span a b) = in_span a b m.
Proof.
  unfold in_span, span.
  match goal with |- ?l = ?r => destruct l eqn:E1; destruct r eqn:E2 end;
    try reflexivity; exfalso.
  - apply existsb_exists in E1. destruct E1 as [d [Hd Ed]].
    apply date_eqb_eq in Ed. subst d. apply span_days_In in Hd.
    apply andb_false_iff in E2.
    destruct E2 as [E2 | E2]; apply Z.leb_gt in E2; lia.
  - apply andb_true_iff in E2. destruct E2 as [L1 L2].
    apply Z.leb_le in L1, L2.
    assert (Hin : In (date_of m)
      (span_days
         (Z.to_nat (PyDate.toordinal (later a b) + 1
                    - PyDate.toordinal (earlier a b)))
         (PyDate.toordinal (earlier a b)))).
    { apply span_days_In. lia. }
    assert (Ex : existsb (PyDate.eqb (date_of m))
      (span_days
         (Z.to_nat (PyDate.toordinal (later a b) + 1
                    - PyDate.toordinal (earlier a b)))
         (PyDate.toordinal (earlier a b))) = true).
    { apply existsb_exists. exists (date_of m). split;
        [ exact Hin | apply date_eqb_refl ]. }
    congruence.
Qed.

(** X2. A range report over the index built from a list of measurements
    aggregates just the measurements dated from the earlier to the later
    of the two dates: they are taken day after day in calendar order, and
    within a day in the order of the list, and together they are a
    rearrangement of the list's measurements dated within the span. *)
Theorem create_daily_report_selects_span
  (rows : list Measurement) (a b : date) :
  PyDate.valid a -> PyDate.valid b ->
  PyDate.toordinal (later a b) < PyDate.MAXORDINAL ->
  exists selected,
    create_daily_report (build_daily_index rows) a b
    = Ok (divider :: range_title a b :: flat_lines selected)
    /\ selected = List.concat (map (fun d => on_date d rows) (span a b))
    /\ Permutation selected (filter (in_span a b) rows).
Proof.
  intros Ha Hb Hmax.
  exists (List.concat (map (fun d => on_date d rows) (span a b))).
  split; [ | split; [ reflexivity | ] ].
  - rewrite (range_report_flat_lines _ a b Ha Hb Hmax).
    unfold span_rows.
    rewrite (map_ext _ _ (get_or_nil_build rows)). reflexivity.
  - eapply Permutation_trans.
    + apply buckets_of_days. apply span_days_NoDup.
    + rewrite (filter_ext _ _ (existsb_span a b)). apply Permutation_refl.
Qed.

Lemma create_daily_report_selects_span_witness :
  PyDate.valid (day_2025 3 2) /\ PyDate.valid (day_2025 2 25)
  /\ PyDate.toordinal (later (day_2025 3 2) (day_2025 2 25))
     < PyDate.MAXORDINAL
  /\ exists selected,
       create_daily_report (build_daily_index two_day_rows)
         (day_2025 3 2) (day_2025 2 25)
       = Ok (divider :: range_title (day_2025 3 2) (day_2025 2 25)
             :: flat_lines selected)
       /\ selected
          = List.concat (map (fun d => on_date d two_day_rows)
                             (span (day_2025 3 2) (day_2025 2 25)))
       /\ Permutation selected
            (filter (in_span (day_2025 3 2) (day_2025 2 25)) two_day_rows).
Proof.
  assert (Ha : PyDate.valid (day_2025 3 2))
    by (split; vm_compute; discriminate).
  assert (Hb : PyDate.valid (day_2025 2 25))
    by (split; vm_compute; discriminate).
  assert (Hm : PyDate.toordinal (later (day_2025 3 2) (day_2025 2 25))
               < PyDate.MAXORDINAL) by (vm_compute; reflexivity).
  split; [ exact Ha | split; [ exact Hb | split; [ exact Hm | ] ] ].
  exact (create_daily_report_selects_span two_day_rows _ _ Ha Hb Hm).
Defined.

End Selections.
(* ===================================================================== *)
(** * The year report and the range report over the year *)

Section YearAndRange.

Import TaskF Spec Examples Aggregates Samples.

(** The ordinals of the days of 2025. *)
Lemma year_2025_iff (d : date) :
  PyDate.year d = 2025 <-> 739252 <= PyDate.toordinal d <= 739616.
Proof.
  unfold PyDate.year, PyDate.ord2ymd. cbv zeta.
  destruct ((_ =? 4) || (_ =? 4)) eqn:E.
  - cbn [fst].
    apply orb_true_iff in E. rewrite !Z.eqb_eq in E.
    Z.div_mod_to_equations; lia.
  - apply orb_false_iff in E. rewrite !Z.eqb_neq in E.
    match goal with |- context [if ?c then _ else _] => destruct c end;
      cbn [fst]; Z.div_mod_to_equations; lia.
Qed.

Lemma in_year_2025 (m : Measurement) :
  (PyDate.year (date_of m) =? 2025)
  = in_span (day_2025 1 1) (day_2025 12 31) m.
Proof.
  unfold in_span.
  change (PyDate.toordinal (earlier (day_2025 1 1) (day_2025 12 31)))
    with 739252.
  change (PyDate.toordinal (later (day_2025 1 1) (day_2025 12 31)))
    with 739616.
  pose proof (year_2025_iff (date_of m)) as H.
  destruct (PyDate.year (date_of m) =? 2025) eqn:E1;
    destruct ((739252 <=? PyDate.toordinal (date_of m))
              && (PyDate.toordinal (date_of m) <=? 739616)) eqn:E2;
    try reflexivity; exfalso.
  - apply Z.eqb_eq in E1. apply andb_false_iff in E2.
    destruct E2 as [E2 | E2]; apply Z.leb_gt in E2; lia.
  - apply Z.eqb_neq in E1. apply andb_true_iff in E2.
    destruct E2 as [L1 L2]. apply Z.leb_le in L1, L2. lia.
Qed.

Lemma filter_nothing {A} (f : A -> bool) l :
  (forall x, In x l -> f x = false) -> filter f l = [].
Proof.
  induction l as [ | a l IH ]; intros H; [ reflexivity | ].
  cbn [filter]. rewrite (H a (or_introl eq_refl)).
  apply IH. intros x Hx. apply H. right. exact Hx.
Qed.

(** In a list in calendar order the bucket of a day, followed by the
    measurements of the days after it, gives the measurements from that
    day on, in the order of the list. *)
Lemma sorted_day_then_rest (first hi : Z) rows :
  date_sorted rows -> first < hi ->
  (on_date (PyDate.mk_date first) rows
   ++ filter (fun m => (first + 1 <=? PyDate.toordinal (date_of m))
                       && (PyDate.toordinal (date_of m) <? hi)) rows)%list
  = filter (fun m => (first <=? PyDate.toordinal (date_of m))
                     && (PyDate.toordinal (date_of m) <? hi)) rows.
Proof.
  intros Hs Hlt. unfold on_date, PyDate.eqb. cbn [PyDate.toordinal].
  induction rows as [ | m rows IH ]; [ reflexivity | ].
  destruct Hs as [Hm Hs]. specialize (IH Hs). cbn [filter].
  destruct (Z.lt_trichotomy (PyDate.toordinal (date_of m)) first)
    as [Lt | [Eq | Gt]].
  - replace (PyDate.toordinal (date_of m) =? first) with false
      by (symmetry; apply Z.eqb_neq; lia).
    replace (first + 1 <=? PyDate.toordinal (date_of m)) with false
      by (symmetry; apply Z.leb_gt; lia).
    replace (first <=? PyDate.toordinal (date_of m)) with false
      by (symmetry; apply Z.leb_gt; lia).
    exact IH.
  - replace (PyDate.toordinal (date_of m) =? first) with true
      by (symmetry; apply Z.eqb_eq; lia).
    replace (first + 1 <=? PyDate.toordinal (date_of m)) with false
      by (symmetry; apply Z.leb_gt; lia).
    replace (first <=? PyDate.toordinal (date_of m)) with true
      by (symmetry; apply Z.leb_le; lia).
    replace (PyDate.toordinal (date_of m) <? hi) with true
      by (symmetry; apply Z.ltb_lt; lia).
    cbn [andb app]. rewrite IH. reflexivity.
  - replace (PyDate.toordinal (date_of m) =? first) with false
      by (symmetry; apply Z.eqb_neq; lia).
    replace (first + 1 <=? PyDate.toordinal (date_of m)) with true
      by (symmetry; apply Z.leb_le; lia).
    replace (first <=? PyDate.toordinal (date_of m)) with true
      by (symmetry; apply Z.leb_le; lia).
    cbn [andb].
    assert (Hnone :
      filter (fun m0 => PyDate.toordinal (date_of m0) =? first) rows = []).
    { apply filter_nothing. intros x Hx. apply Z.eqb_neq.
      specialize (Hm x Hx). lia. }
    rewrite Hnone in *. cbn [app] in *. rewrite IH. reflexivity.
Qed.

(** In a list in calendar order the buckets of consecutive days, one
    after the other, are the measurements of these days in the order of
    the list. *)
Lemma sorted_buckets rows :
  date_sorted rows ->
  forall n first,
    List.concat (map (fun d => on_date d rows) (span_days n first))
    = filter (fun m => (first <=? PyDate.toordinal (date_of m))
                       && (PyDate.toordinal (date_of m)
                           <? first + Z.of_nat n)) rows.
Proof.
  intros Hs. induction n as [ | n IH ]; intros first.
  - cbn [span_days map List.concat]. symmetry. apply filter_nothing.
    intros m _. apply andb_false_iff.
    destruct (Z.le_gt_cases first (PyDate.toordinal (date_of m)));
      [ right; apply Z.ltb_ge; lia | left; apply Z.leb_gt; lia ].
  - cbn [span_days map List.concat]. rewrite IH.
    replace (first + 1 + Z.of_nat n) with (first + Z.of_nat (S n)) by lia.
    apply sorted_day_then_rest; [ exact Hs | lia ].
Qed.

Lemma sorted_span_rows rows a b :
  date_sorted rows ->
  PyDate.toordinal (earlier a b) <= PyDate.toordinal (later a b) ->
  List.concat (map (fun d => on_date d rows) (span a b))
  = filter (in_span a b) rows.
Proof.
  intros Hs Hle. unfold span. rewrite (sorted_buckets rows Hs).
  apply filter_ext. intros m. unfold in_span. f_equal.
  destruct (PyDate.toordinal (date_of m) <=? PyDate.toordinal (later a b))
    eqn:E.
  - apply Z.leb_le in E. apply Z.ltb_lt. lia.
  - apply Z.leb_gt in E. apply Z.ltb_ge. lia.
Qed.

(** X16. For measurements in calendar order, the year report and the
    range report from 1.1.2025 to 31.12.2025 aggregate the same
    measurements in the same order: those dated in 2025, in the order of
    the input.  The average-temperature line is the same in both; the
    totals are taken over the same sequence of values, by [sum] in the
    year report and by a [+=] loop in the range report. *)
Theorem year_report_is_range_report_of_2025 (rows : list Measurement) :
  date_sorted rows ->
  exists selected temp,
    selected = filter (fun m => PyDate.year (date_of m) =? 2025) rows
    /\ temp = "- Average temperature: "
              ++ format_float_fi (mean_or_zero (map temperature_c selected))
              ++ " °C"
    /\ create_yearly_report rows
       = [ divider;
           "Report for the year: 2025";
           "- Total consumption: "
             ++ format_float_fi (PyFloat.sum (map consumption_kwh selected))
             ++ " kWh";
           "- Total production: "
             ++ format_float_fi (PyFloat.sum (map production_kwh selected))
             ++ " kWh";
           temp ]
    /\ create_daily_report (build_daily_index rows)
         (day_2025 1 1) (day_2025 12 31)
       = Ok [ divider;
              "Report for the period 1.1.2025–31.12.2025";
              "- Total consumption: "
                ++ format_float_fi
                     (running_total (map consumption_kwh selected))
                ++ " kWh";
              "- Total production: "
                ++ format_float_fi
                     (running_total (map production_kwh selected))
                ++ " kWh";
              temp ].
Proof.
  intros Hs.
  assert (Ha : PyDate.valid (day_2025 1 1))
    by (split; vm_compute; discriminate).
  assert (Hb : PyDate.valid (day_2025 12 31))
    by (split; vm_compute; discriminate).
  assert (Hm : PyDate.toordinal (later (day_2025 1 1) (day_2025 12 31))
               < PyDate.MAXORDINAL) by (vm_compute; reflexivity).
  assert (Hle : PyDate.toordinal (earlier (day_2025 1 1) (day_2025 12 31))
                <= PyDate.toordinal (later (day_2025 1 1) (day_2025 12 31)))
    by (vm_compute; discriminate).
  pose proof (range_report_flat_lines (build_daily_index rows) _ _ Ha Hb Hm)
    as Hr.
  unfold span_rows in Hr.
  rewrite (map_ext _ _ (get_or_nil_build rows)) in Hr.
  rewrite (sorted_span_rows rows _ _ Hs Hle) in Hr.
  rewrite <- (filter_ext _ _ in_year_2025) in Hr.
  assert (Ht : range_title (day_2025 1 1) (day_2025 12 31)
               = "Report for the period 1.1.2025–31.12.2025")
    by (vm_compute; reflexivity).
  rewrite Ht in Hr.
  exists (filter (fun m => PyDate.year (date_of m) =? 2025) rows).
  eexists. split; [ reflexivity | ]. split; [ reflexivity | ].
  split; [ reflexivity | exact Hr ].
Qed.

Lemma year_report_is_range_report_of_2025_witness :
  date_sorted two_day_rows
  /\ exists lines,
       create_daily_report (build_daily_index two_day_rows)
         (day_2025 1 1) (day_2025 12 31)
       = Ok lines
       /\ nth 4 lines "" = nth 4 (create_yearly_report two_day_rows) ""
       /\ nth 4 lines "" = "- Average temperature: 2,50 °C".
Proof.
  assert (Hs : date_sorted two_day_rows).
  { cbn [date_sorted two_day_rows In].
    repeat split; intros m' H;
      repeat (destruct H as [<- | H]; [ vm_compute; discriminate | ]);
      destruct H. }
  split; [ exact Hs | ].
  destruct (year_report_is_range_report_of_2025 two_day_rows Hs)
    as (selected & temp & Hsel & Htemp & Hy & Hr).
  eexists. split; [ exact Hr | ].
  split; [ rewrite Hy; reflexivity | ].
  cbn [nth]. rewrite Htemp, Hsel. vm_compute. reflexivity.
Defined.

End YearAndRange.

(* ===================================================================== *)
(** * The order of the daily index *)

Section IndexOrder.

Import TaskF Spec Examples Aggregates Samples.

Lemma keys_setdefault_append daily m :
  PyDict.keys (setdefault_append daily m)
  = if existsb (PyDate.eqb (date_of m)) (PyDict.keys daily)
    then PyDict.keys daily
    else (PyDict.keys daily ++ [date_of m])%list.
Proof.
  unfold setdefault_append, get.
  destruct (PyDict.get PyDate.eqb daily (date_of m)) as [bucket | ] eqn:G.
  - rewrite (keys_set_present PyDate.eqb _ _ _ _ G).
    destruct (existsb (PyDate.eqb (date_of m)) (PyDict.keys daily)) eqn:Ex;
      [ reflexivity | exfalso ].
    assert (Hnot : ~ In (date_of m) (PyDict.keys daily)).
    { intros Hin.
      assert (Ex' : existsb (PyDate.eqb (date_of m)) (PyDict.keys daily)
                    = true).
      { apply existsb_exists. exists (date_of m). split;
          [ exact Hin | apply date_eqb_refl ]. }
      congruence. }
    apply (get_None_iff PyDate.eqb date_eqb_eq) in Hnot. congruence.
  - rewrite (set_absent PyDate.eqb _ _ _ G).
    rewrite (set_last PyDate.eqb date_eqb_eq _ _ _ _ G).
    unfold PyDict.keys. rewrite map_app. cbn [map fst].
    destruct (existsb (PyDate.eqb (date_of m)) (map fst daily)) eqn:Ex;
      [ | reflexivity ].
    apply existsb_exists in Ex. destruct Ex as [d [Hd Ed]].
    apply date_eqb_eq in Ed. subst d.
    apply (get_None_iff PyDate.eqb date_eqb_eq) in G. contradiction.
Qed.

Lemma keys_fold rows : forall daily,
  PyDict.keys (fold_left setdefault_append rows daily)
  = fold_left (fun acc d => if existsb (PyDate.eqb d) acc then acc
                            else (acc ++ [d])%list)
              (map date_of rows) (PyDict.keys daily).
Proof.
  induction rows as [ | m rows IH ]; intros daily; [ reflexivity | ].
  cbn [fold_left map]. rewrite IH, keys_setdefault_append. reflexivity.
Qed.

(** X3. The days of the daily index come in the order in which their
    first measurement appears in the input: the keys of
    [build_daily_index rows] are the distinct dates of [rows], each at its
    first occurrence.  This is the order in which the month report visits
    the days. *)
Theorem build_daily_index_key_order (rows : list Measurement) :
  map fst (PyDict.items (build_daily_index rows))
  = first_seen (map date_of rows).
Proof. apply (keys_fold rows []). Qed.

End IndexOrder.

(* ===================================================================== *)
(** * Reports with nothing selected, month names, decimal separators *)

Section EdgeCases.

Import TaskF Spec Examples Aggregates Samples.

(** X4. A range report between valid dates, the later one before
    9999-12-31, whose days are all absent from the index, is built and
    shows 0,00 for the two totals and for the average temperature. *)
Theorem range_report_nothing_selected (daily : index) (a b : date) :
  PyDate.valid a -> PyDate.valid b ->
  PyDate.toordinal (later a b) < PyDate.MAXORDINAL ->
  (forall d, PyDate.toordinal (earlier a b) <= PyDate.toordinal d
             <= PyDate.toordinal (later a b) -> get daily d = None) ->
  create_daily_report daily a b
  = Ok [ divider;
         "Report for the period " ++ format_date_fi (earlier a b) ++ "–"
           ++ format_date_fi (later a b);
         "- Total consumption: 0,00 kWh";
         "- Total production: 0,00 kWh";
         "- Average temperature: 0,00 °C" ].
Proof. apply create_daily_report_empty. Qed.

Lemma range_report_nothing_selected_witness :
  create_daily_report two_day_index (day_2025 4 1) (day_2025 4 3)
  = Ok [ divider;
         "Report for the period 1.4.2025–3.4.2025";
         "- Total consumption: 0,00 kWh";
         "- Total production: 0,00 kWh";
         "- Average temperature: 0,00 °C" ].
Proof.
  apply (range_report_nothing_selected two_day_index
           (day_2025 4 1) (day_2025 4 3)).
  - split; vm_compute; discriminate.
  - split; vm_compute; discriminate.
  - vm_compute. reflexivity.
  - intros [x] Hx.
    change (PyDate.toordinal (earlier (day_2025 4 1) (day_2025 4 3)))
      with 739342 in Hx.
    change (PyDate.toordinal (later (day_2025 4 1) (day_2025 4 3)))
      with 739344 in Hx.
    cbn [PyDate.toordinal] in Hx.
    assert (Hc : x = 739342 \/ x = 739343 \/ x = 739344) by lia.
    destruct Hc as [-> | [-> | ->]]; vm_compute; reflexivity.
Defined.

(** X5. A year report over measurements none of which is dated in 2025,
    and a month report (month in 1..12) over an index none of whose days
    lies in that month of 2025, show 0,00 for all three metrics. *)
Theorem year_and_month_report_nothing_selected :
  (forall rows : list Measurement,
     (forall m, In m rows -> PyDate.year (date_of m) <> 2025) ->
     create_yearly_report rows
     = [ divider;
         "Report for the year: 2025";
         "- Total consumption: 0,00 kWh";
         "- Total production: 0,00 kWh";
         "- Average temperature: 0,00 °C" ])
  /\ (forall (daily : index) (month : Z),
        1 <= month <= 12 ->
        (forall d rows, In (d, rows) (PyDict.items daily) ->
           PyDate.year d = 2025 -> PyDate.month d <> month) ->
        exists name,
          month_name_en month = Ok name
          /\ create_monthly_report daily month
             = Ok [ divider;
                    "Report for the month: " ++ name;
                    "- Total consumption: 0,00 kWh";
                    "- Total production: 0,00 kWh";
                    "- Average temperature: 0,00 °C" ]).
Proof.
  split.
  - intros rows H. apply (create_yearly_report_empty rows H).
  - intros daily month Hm Hnone.
    destruct (month_name_defined month Hm) as [name Hname].
    exists name. split; [ exact Hname | ].
    apply (create_monthly_report_empty daily month name Hname).
    unfold qualifying_days.
    assert (Hf : filter (is_qualifying month) (PyDict.items daily) = []).
    { apply filter_none.
      destruct (existsb (is_qualifying month) (PyDict.items daily)) eqn:E;
        [ exfalso | reflexivity ].
      apply existsb_exists in E. destruct E as [[d rows] [Hin Hq]].
      unfold is_qualifying in Hq. cbn [fst] in Hq.
      apply andb_true_iff in Hq. destruct Hq as [Hy Hmo].
      apply Z.eqb_eq in Hy, Hmo.
      exact (Hnone d rows Hin Hy Hmo). }
    rewrite Hf. reflexivity.
Qed.

Lemma year_and_month_report_nothing_selected_witness :
  create_yearly_report [row_2024]
  = [ divider;
      "Report for the year: 2025";
      "- Total consumption: 0,00 kWh";
      "- Total production: 0,00 kWh";
      "- Average temperature: 0,00 °C" ]
  /\ exists name,
       month_name_en 4 = Ok name
       /\ create_monthly_report two_day_index 4
          = Ok [ divider;
                 "Report for the month: " ++ name;
                 "- Total consumption: 0,00 kWh";
                 "- Total production: 0,00 kWh";
                 "- Average temperature: 0,00 °C" ].
Proof.
  split.
  - apply (proj1 year_and_month_report_nothing_selected [row_2024]).
    intros m [<- | []]. vm_compute. discriminate.
  - apply (proj2 year_and_month_report_nothing_selected two_day_index 4).
    + lia.
    + intros d rows Hin _. vm_compute in Hin.
      destruct Hin as [[= <- _] | [[= <- _] | []]]; vm_compute; discriminate.
Defined.

(** X6. [month_name_en] returns a name exactly for the arguments -11..12
    and raises [IndexError] for every other integer; an argument from
    -11 to 0 is not refused but, by the negative index, names the same
    month as the argument plus twelve (0 is December). *)
Theorem month_name_en_bounds (month : Z) :
  ((exists name, month_name_en month = Ok name) <-> -11 <= month <= 12)
  /\ (month_name_en month = Raise IndexError <-> ~ (-11 <= month <= 12))
  /\ (-11 <= month <= 0 -> month_name_en month = month_name_en (month + 12)).
Proof.
  assert (Hin : -11 <= month <= 12 ->
                exists name, month_name_en month = Ok name).
  { intros H.
    assert (Hc : month = -11 \/ month = -10 \/ month = -9 \/ month = -8
                 \/ month = -7 \/ month = -6 \/ month = -5 \/ month = -4
                 \/ month = -3 \/ month = -2 \/ month = -1 \/ month = 0
                 \/ 1 <= month <= 12) by lia.
    repeat (destruct Hc as [-> | Hc]; [ eexists; reflexivity | ]).
    apply month_name_defined. exact Hc. }
  assert (Hout : ~ (-11 <= month <= 12) ->
                 month_name_en month = Raise IndexError).
  { intros H. unfold month_name_en, py_index.
    cbn [List.length Z.of_nat Pos.of_succ_nat Pos.succ].
    destruct (month - 1 <? 0) eqn:E.
    - apply Z.ltb_lt in E.
      replace ((0 <=? month - 1 + 12) && (month - 1 + 12 <? 12)) with false;
        [ reflexivity | ].
      symmetry. apply andb_false_iff. left. apply Z.leb_gt. lia.
    - apply Z.ltb_ge in E.
      replace ((0 <=? month - 1) && (month - 1 <? 12)) with false;
        [ reflexivity | ].
      symmetry. apply andb_false_iff. right. apply Z.ltb_ge. lia. }
  split; [ | split ].
  - split; [ | exact Hin ].
    intros [name Hname].
    destruct (Z_le_dec (-11) month) as [L | L];
      [ destruct (Z_le_dec month 12) as [U | U]; [ lia | ] | ];
      rewrite Hout in Hname by lia; discriminate.
  - split; [ | exact Hout ].
    intros Hraise Hb. destruct (Hin Hb) as [name Hname]. congruence.
  - intros H.
    assert (Hc : month = -11 \/ month = -10 \/ month = -9 \/ month = -8
                 \/ month = -7 \/ month = -6 \/ month = -5 \/ month = -4
                 \/ month = -3 \/ month = -2 \/ month = -1 \/ month = 0)
      by lia.
    repeat (destruct Hc as [-> | Hc]; [ reflexivity | ]).
    subst. reflexivity.
Qed.

Lemma month_name_en_bounds_witness :
  -11 <= 0 <= 0
  /\ month_name_en 0 = month_name_en (0 + 12)
  /\ month_name_en 0 = Ok "December"
  /\ month_name_en 13 = Raise IndexError.
Proof.
  split; [ lia | split; [ | split ] ].
  - apply (proj2 (proj2 (month_name_en_bounds 0))). lia.
  - reflexivity.
  - apply (proj2 (proj1 (proj2 (month_name_en_bounds 13)))). lia.
Defined.

(** ** Decimal separators *)

Lemma count_nonneg c s : 0 <= PyStr.count c s.
Proof.
  induction s as [ | a s IH ]; cbn [PyStr.count]; [ lia | ].
  destruct (Ascii.eqb a c); lia.
Qed.

(** Replacing a byte by another leaves the comparison with a text that
    holds neither of them as it is. *)
Lemma eqb_replace a b c : forall sp,
  PyStr.count a sp = 0 -> PyStr.count b sp = 0 ->
  String.eqb (PyStr.replace a b c) sp = String.eqb c sp.
Proof.
  induction c as [ | x c IH ]; intros sp Ha Hb; [ reflexivity | ].
  destruct sp as [ | y sp ]; [ reflexivity | ].
  cbn [PyStr.replace String.eqb]. cbn [PyStr.count] in Ha, Hb.
  pose proof (count_nonneg a sp). pose proof (count_nonneg b sp).
  destruct (Ascii.eqb y a) eqn:Eya; [ lia | ].
  destruct (Ascii.eqb y b) eqn:Eyb; [ lia | ].
  rewrite (IH sp) by lia.
  destruct (Ascii.eqb x a) eqn:Exa; [ | reflexivity ].
  apply Ascii.eqb_eq in Exa. subst x.
  rewrite (Ascii.eqb_sym b y), (Ascii.eqb_sym a y), Eya, Eyb. reflexivity.
Qed.

Section ReplaceAndStrip.

Variables a b : ascii.
Hypothesis a_lead : PyStr.is_cont a = false.
Hypothesis b_lead : PyStr.is_cont b = false.
Hypothesis no_space :
  forallb (fun sp => (PyStr.count a sp =? 0) && (PyStr.count b sp =? 0))
          PyStr.SPACE_CHARS = true.

Lemma is_space_replace c :
  PyStr.is_space (PyStr.replace a b c) = PyStr.is_space c.
Proof.
  unfold PyStr.is_space.
  rewrite forallb_forall in no_space.
  induction PyStr.SPACE_CHARS as [ | sp sps IH ]; [ reflexivity | ].
  cbn [existsb].
  pose proof (no_space sp (or_introl eq_refl)) as H.
  apply andb_true_iff in H. destruct H as [H1 H2].
  apply Z.eqb_eq in H1, H2.
  rewrite (eqb_replace a b c sp H1 H2).
  rewrite IH; [ reflexivity | ].
  intros x Hx. apply no_space. right. exact Hx.
Qed.

Lemma is_cont_replaced x :
  PyStr.is_cont (if Ascii.eqb x a then b else x) = PyStr.is_cont x.
Proof.
  destruct (Ascii.eqb x a) eqn:E; [ | reflexivity ].
  apply Ascii.eqb_eq in E. subst x. rewrite a_lead, b_lead. reflexivity.
Qed.

Lemma chars_replace s :
  PyStr.chars (PyStr.replace a b s)
  = map (PyStr.replace a b) (PyStr.chars s).
Proof.
  induction s as [ | x rest IH ]; [ reflexivity | ].
  cbn [PyStr.replace PyStr.chars]. cbv zeta. rewrite IH.
  destruct rest as [ | y r ]; [ reflexivity | ].
  cbn [PyStr.replace]. rewrite is_cont_replaced.
  destruct (PyStr.is_cont y); [ | reflexivity ].
  destruct (PyStr.chars (String y r)) as [ | c cs ]; reflexivity.
Qed.

Lemma drop_space_replace cs :
  PyStr.drop_space (map (PyStr.replace a b) cs)
  = map (PyStr.replace a b) (PyStr.drop_space cs).
Proof.
  induction cs as [ | c cs IH ]; [ reflexivity | ].
  cbn [map PyStr.drop_space]. rewrite is_space_replace.
  destruct (PyStr.is_space c); [ exact IH | reflexivity ].
Qed.

Lemma join_replace cs :
  PyStr.join (map (PyStr.replace a b) cs)
  = PyStr.replace a b (PyStr.join cs).
Proof.
  induction cs as [ | c cs IH ]; [ reflexivity | ].
  cbn [map PyStr.join]. rewrite IH, replace_app. reflexivity.
Qed.

Lemma strip_replace s :
  PyStr.strip (PyStr.replace a b s) = PyStr.replace a b (PyStr.strip s).
Proof.
  unfold PyStr.strip.
  rewrite chars_replace, drop_space_replace, <- map_rev, drop_space_replace,
    <- map_rev, join_replace.
  reflexivity.
Qed.

End ReplaceAndStrip.

Lemma replace_comma_after s :
  PyStr.replace "," "." (PyStr.replace "." "," s) = PyStr.replace "," "." s
  /\ PyStr.replace "," "." (PyStr.replace "," "." s)
     = PyStr.replace "," "." s.
Proof.
  induction s as [ | c s [IH1 IH2] ]; [ split; reflexivity | ].
  cbn [PyStr.replace]. rewrite IH1, IH2.
  destruct (Ascii.eqb c ".") eqn:E1; destruct (Ascii.eqb c ",") eqn:E2;
    try (apply Ascii.eqb_eq in E1; subst c);
    try (apply Ascii.eqb_eq in E2; subst c);
    try discriminate; cbn; rewrite ?E1, ?E2; split; reflexivity.
Qed.

(** X7. [parse_float_fi] treats the decimal comma and the decimal point
    alike: writing every point of a cell as a comma, or every comma as a
    point, does not change the result, be it a float or the error; and
    the only error it raises is [ValueError]. *)
Theorem parse_float_fi_comma_or_point (s : string) :
  parse_float_fi (PyStr.replace "." "," s) = parse_float_fi s
  /\ parse_float_fi (PyStr.replace "," "." s) = parse_float_fi s
  /\ (forall e, parse_float_fi s = Raise e -> e = ValueError).
Proof.
  unfold parse_float_fi.
  rewrite !strip_replace by reflexivity.
  destruct (replace_comma_after (PyStr.strip s)) as [-> ->].
  repeat split.
  intros e He. apply (parse_float_fi_raises_value_error s e). exact He.
Qed.

Lemma parse_float_fi_comma_or_point_witness :
  parse_float_fi "5,0" = parse_float_fi "5.0"
  /\ parse_float_fi "5,0" = Ok (PyFloat.of_Z 5).
Proof.
  split.
  - exact (proj1 (parse_float_fi_comma_or_point "5.0")).
  - vm_compute. reflexivity.
Defined.

End EdgeCases.
(* ===================================================================== *)
(** * Header names with surrounding whitespace *)

Section PaddedHeader.

Variable csv_reader : ascii -> string -> list (list string).
Variable fromisoformat : string -> result datetime.

Import TaskF Spec Examples Samples.

Let read_row := TaskF.read_row fromisoformat.
Let read_rows := TaskF.read_rows fromisoformat.
Let read_data := TaskF.read_data csv_reader fromisoformat.

Lemma keys_set_within {V} (d : @PyDict.dict string V) k v x :
  In x (PyDict.keys (PyDict.set String.eqb d k v)) ->
  x = k \/ In x (PyDict.keys d).
Proof.
  unfold PyDict.keys.
  induction d as [ | [k0 v0] d IH ]; cbn [PyDict.set map fst In].
  - intros [<- | []]. left. reflexivity.
  - destruct (String.eqb k k0) eqn:E; cbn [map fst In].
    + intros H. right. exact H.
    + intros [H | H]; [ right; left; exact H | ].
      destruct (IH H) as [H1 | H1]; [ left; exact H1 | right; right; exact H1 ].
Qed.

Lemma keys_fold_within {A V} (key : A -> string) (val : A -> V) l :
  forall (d : @PyDict.dict string V) x,
  In x (PyDict.keys
          (fold_left (fun d a => PyDict.set String.eqb d (key a) (val a)) l d)) ->
  In x (map key l) \/ In x (PyDict.keys d).
Proof.
  induction l as [ | a l IH ]; intros d x H; [ right; exact H | ].
  cbn [fold_left] in H. destruct (IH _ _ H) as [H1 | H1].
  - left. right. exact H1.
  - destruct (keys_set_within _ _ _ _ H1) as [-> | H2];
      [ left; left; reflexivity | right; exact H2 ].
Qed.

(** The keys of a [DictReader] row are header names as they stand in the
    file. *)
Lemma dict_row_keys fieldnames row x :
  In x (PyDict.keys (dict_row fieldnames row)) -> In x fieldnames.
Proof.
  unfold dict_row. intros H.
  destruct (keys_fold_within (fun k => k) (fun _ => NoneCell) _ _ _ H)
    as [H1 | H1].
  - rewrite map_id in H1.
    rewrite <- (firstn_skipn (List.length row) fieldnames).
    apply in_or_app. right. exact H1.
  - destruct (keys_fold_within fst (fun kv => Str (snd kv)) _ _ _ H1)
      as [H2 | []].
    apply in_map_iff in H2. destruct H2 as [[k c] [<- H2]].
    apply in_combine_l in H2. exact H2.
Qed.

Lemma dict_row_absent fieldnames row col :
  ~ In col fieldnames ->
  PyDict.get String.eqb (dict_row fieldnames row) col = None.
Proof.
  intros Hnot. apply (get_None_iff String.eqb String.eqb_eq).
  intros H. apply Hnot. exact (dict_row_keys _ _ _ H).
Qed.

Lemma dict_rows_absent records col row :
  ~ In col (fieldnames_of records) -> In row (dict_rows records) ->
  PyDict.get String.eqb row col = None.
Proof.
  intros Hnot Hin. unfold dict_rows in Hin.
  apply in_map_iff in Hin. destruct Hin as [r [<- _]].
  apply dict_row_absent. exact Hnot.
Qed.

(** What a kept row gives for its three values. *)
Lemma read_row_values cols row m :
  read_row cols row = Ok (Some m) ->
  parse_float_fi (cell_str row (col_cons cols)) = Ok (consumption_kwh m)
  /\ parse_float_fi (cell_str row (col_prod cols)) = Ok (production_kwh m)
  /\ parse_float_fi (cell_str row (col_temp cols)) = Ok (temperature_c m).
Proof.
  unfold read_row, TaskF.read_row. cbv zeta.
  destruct (String.eqb _ ""); [ discriminate | ].
  destruct (fromisoformat _) as [ts | e]; cbn [bind]; [ | discriminate ].
  destruct (parse_float_fi (cell_str row (col_cons cols))) as [c | e];
    cbn [bind]; [ | discriminate ].
  destruct (parse_float_fi (cell_str row (col_prod cols))) as [p | e];
    cbn [bind]; [ | discriminate ].
  destruct (parse_float_fi (cell_str row (col_temp cols))) as [k | e];
    cbn [bind]; [ | discriminate ].
  intros [= <-]. repeat split.
Qed.

(** A property of the values of the kept rows carries over to the list
    [read_rows] returns. *)
Lemma read_rows_all (P : Measurement -> Prop) cols data :
  (forall row m, In row data -> read_row cols row = Ok (Some m) -> P m) ->
  forall rows out,
    Forall P rows -> read_rows cols data rows = Ok out -> Forall P out.
Proof.
  induction data as [ | row data IH ]; intros Hrow rows out Hrows.
  - cbn. intros [= <-]. exact Hrows.
  - unfold read_rows. cbn [TaskF.read_rows].
    fold (read_row cols row). fold read_rows.
    destruct (read_row cols row) as [[m | ] | e] eqn:E; [ | | discriminate ].
    + apply IH.
      * intros r m' Hr. apply Hrow. right. exact Hr.
      * apply Forall_app. split; [ exact Hrows | ].
        constructor; [ | constructor ].
        apply (Hrow row m); [ left; reflexivity | exact E ].
    + apply IH; [ | exact Hrows ].
      intros r m' Hr. apply Hrow. right. exact Hr.
Qed.

Lemma column_reads_zero (value : Measurement -> float)
  (col : columns -> string) text cols rows :
  (forall row m, read_row cols row = Ok (Some m) ->
     parse_float_fi (cell_str row (col cols)) = Ok (value m)) ->
  find_columns (fieldnames_of (csv_reader (detect_delimiter text) text))
  = Ok cols ->
  ~ In (col cols) (fieldnames_of (csv_reader (detect_delimiter text) text)) ->
  read_data (Some text) = Ok rows ->
  Forall (fun m => value m = PyFloat.zero) rows.
Proof.
  intros Hval Hcols Hnot. unfold read_data, TaskF.read_data. cbv zeta.
  rewrite Hcols. cbn [bind]. fold read_rows.
  destruct (read_rows cols _ []) as [out | e] eqn:E; cbn [bind];
    [ | discriminate ].
  destruct out as [ | m out ]; [ discriminate | ].
  intros [= <-].
  refine (read_rows_all (fun m => value m = PyFloat.zero) cols _ _
            [] (m :: out) (Forall_nil _) E).
  intros row m' Hin Hrow.
  pose proof (Hval row m' Hrow) as Hp.
  rewrite (absent_key_reads_zero row _
             (dict_rows_absent _ _ _ Hnot Hin)) in Hp.
  congruence.
Qed.

(** X23. The columns are looked up in each row under the trimmed header
    name, while the rows are keyed by the header names as they stand in
    the file.  So when the resolved name of a value column is no header of
    the file (the header has surrounding whitespace), every measurement of
    a successful load has 0.0 in that column, whatever the cells hold;
    when it is the timestamp column, every row is skipped and the load
    raises [ValueError]. *)
Theorem padded_header_column_is_lost (text : string) (cols : columns) :
  let fieldnames :=
    fieldnames_of (csv_reader (detect_delimiter text) text) in
  find_columns fieldnames = Ok cols ->
  (~ In (col_time cols) fieldnames ->
   read_data (Some text) = Raise ValueError)
  /\ (forall rows,
        read_data (Some text) = Ok rows ->
        (~ In (col_cons cols) fieldnames ->
         Forall (fun m => consumption_kwh m = PyFloat.zero) rows)
        /\ (~ In (col_prod cols) fieldnames ->
            Forall (fun m => production_kwh m = PyFloat.zero) rows)
        /\ (~ In (col_temp cols) fieldnames ->
            Forall (fun m => temperature_c m = PyFloat.zero) rows)).
Proof.
  intros fieldnames Hcols. subst fieldnames. split.
  - intros Hnot. unfold read_data, TaskF.read_data. cbv zeta.
    rewrite Hcols. cbn [bind].
    rewrite read_rows_all_blank; [ reflexivity | ].
    intros row Hin. unfold time_str.
    rewrite (dict_rows_absent _ _ _ Hnot Hin). reflexivity.
  - intros rows Hrows.
    split; [ | split ]; intros Hnot.
    + apply (column_reads_zero consumption_kwh col_cons text cols rows);
        try assumption.
      intros row m H. apply (read_row_values cols row m H).
    + apply (column_reads_zero production_kwh col_prod text cols rows);
        try assumption.
      intros row m H. apply (read_row_values cols row m H).
    + apply (column_reads_zero temperature_c col_temp text cols rows);
        try assumption.
      intros row m H. apply (read_row_values cols row m H).
Qed.

End PaddedHeader.

Section PaddedHeaderExamples.

Import TaskF Spec Examples Samples.

Lemma padded_header_column_is_lost_witness :
  (find_columns
     (fieldnames_of
        (PyLib.csv_plain (detect_delimiter padded_timestamp_file)
           padded_timestamp_file))
   = Ok plain_columns
   /\ ~ In (col_time plain_columns)
          (fieldnames_of
             (PyLib.csv_plain (detect_delimiter padded_timestamp_file)
                padded_timestamp_file))
   /\ PyLib.read_data_plain (Some padded_timestamp_file) = Raise ValueError)
  /\ (find_columns
        (fieldnames_of
           (PyLib.csv_plain (detect_delimiter padded_consumption_file)
              padded_consumption_file))
      = Ok plain_columns
      /\ ~ In (col_cons plain_columns)
             (fieldnames_of
                (PyLib.csv_plain (detect_delimiter padded_consumption_file)
                   padded_consumption_file))
      /\ exists rows,
           PyLib.read_data_plain (Some padded_consumption_file) = Ok rows
           /\ Forall (fun m => consumption_kwh m = PyFloat.zero) rows).
Proof.
  split.
  - assert (Hc : find_columns
                   (fieldnames_of
                      (PyLib.csv_plain
                         (detect_delimiter padded_timestamp_file)
                         padded_timestamp_file))
                 = Ok plain_columns) by (vm_compute; reflexivity).
    assert (Hn : ~ In (col_time plain_columns)
                   (fieldnames_of
                      (PyLib.csv_plain
                         (detect_delimiter padded_timestamp_file)
                         padded_timestamp_file))).
    { vm_compute. intros [H | [H | [H | [H | []]]]]; discriminate. }
    split; [ exact Hc | ]. split; [ exact Hn | ].
    exact (proj1 (padded_header_column_is_lost PyLib.csv_plain
                    PyLib.fromisoformat_basic padded_timestamp_file
                    plain_columns Hc) Hn).
  - assert (Hc : find_columns
                   (fieldnames_of
                      (PyLib.csv_plain
                         (detect_delimiter padded_consumption_file)
                         padded_consumption_file))
                 = Ok plain_columns) by (vm_compute; reflexivity).
    assert (Hn : ~ In (col_cons plain_columns)
                   (fieldnames_of
                      (PyLib.csv_plain
                         (detect_delimiter padded_consumption_file)
                         padded_consumption_file))).
    { vm_compute. intros [H | [H | [H | [H | []]]]]; discriminate. }
    split; [ exact Hc | ]. split; [ exact Hn | ].
    destruct (PyLib.read_data_plain (Some padded_consumption_file))
      as [rows | e] eqn:Hr; [ | vm_compute in Hr; discriminate ].
    exists rows. split; [ reflexivity | ].
    exact (proj1 (proj2 (padded_header_column_is_lost PyLib.csv_plain
                           PyLib.fromisoformat_basic padded_consumption_file
                           plain_columns Hc) rows Hr) Hn).
Defined.

End PaddedHeaderExamples.

(* ===================================================================== *)
(** * Dates and numbers entered at the console *)

Section ConsoleInput.

Import TaskF Spec Examples Aggregates Samples Console ConsoleSpec.

Lemma days_before_year_bounds y :
  1 <= y <= 9999 ->
  0 <= PyDate.days_before_year y
  /\ PyDate.days_before_year y
     + (if PyDate.is_leap y then 366 else 365) <= PyDate.MAXORDINAL.
Proof.
  intros Hy. unfold PyDate.days_before_year, PyDate.is_leap, PyDate.MAXORDINAL.
  destruct (y mod 4 =? 0) eqn:E4; destruct (y mod 100 =? 0) eqn:E100;
    destruct (y mod 400 =? 0) eqn:E400; cbn [andb orb negb];
    rewrite ?Z.eqb_eq, ?Z.eqb_neq in *;
    Z.div_mod_to_equations; lia.
Qed.

(** Evaluate the table lookups of a goal. *)
Ltac eval_nth :=
  repeat match goal with
         | |- context [ nth ?n ?l ?z ] =>
             let v := eval vm_compute in (nth n l z) in
             change (nth n l z) with v
         end.

Lemma day_of_year_bounds y m d :
  1 <= m <= 12 -> 1 <= d <= PyDate.days_in_month y m ->
  1 <= PyDate.days_before_month y m + d
    <= (if PyDate.is_leap y then 366 else 365).
Proof.
  intros Hm.
  assert (Hc : m = 1 \/ m = 2 \/ m = 3 \/ m = 4 \/ m = 5 \/ m = 6 \/ m = 7
               \/ m = 8 \/ m = 9 \/ m = 10 \/ m = 11 \/ m = 12) by lia.
  unfold PyDate.days_in_month, PyDate.days_before_month,
    PyDate.DAYS_IN_MONTH, PyDate.DAYS_BEFORE_MONTH.
  repeat (destruct Hc as [-> | Hc];
          [ destruct (PyDate.is_leap y); eval_nth;
            cbn [Z.eqb Z.ltb Z.compare Pos.compare Pos.compare_cont Pos.eqb andb];
            lia | ]).
  subst. destruct (PyDate.is_leap y); eval_nth;
            cbn [Z.eqb Z.ltb Z.compare Pos.compare Pos.compare_cont Pos.eqb andb];
            lia.
Qed.

(** [date(year, month, day)], when it returns, returns a date of the
    calendar. *)
Lemma make_valid y m d dt :
  PyDate.make y m d = Ok dt -> PyDate.valid dt.
Proof.
  unfold PyDate.make.
  destruct ((1 <=? y) && (y <=? 9999) && (1 <=? m) && (m <=? 12)
            && (1 <=? d) && (d <=? PyDate.days_in_month y m)) eqn:E;
    [ | discriminate ].
  intros [= <-].
  repeat (apply andb_true_iff in E; destruct E as [E ?]).
  repeat match goal with
         | H : (_ <=? _) = true |- _ => apply Z.leb_le in H
         end.
  unfold PyDate.valid, PyDate.ymd2ord. cbn [PyDate.toordinal].
  pose proof (days_before_year_bounds y ltac:(lia)) as [Hy0 Hy1].
  pose proof (day_of_year_bounds y m d ltac:(lia) ltac:(lia)) as Hd.
  destruct (PyDate.is_leap y); lia.
Qed.

Lemma make_raises y m d e :
  PyDate.make y m d = Raise e -> e = ValueError.
Proof.
  unfold PyDate.make. destruct (_ && _); [ discriminate | ].
  intros [= <-]. reflexivity.
Qed.

Lemma int_of_string_raises s e :
  PyInt.of_string s = Raise e -> e = ValueError.
Proof.
  unfold PyInt.of_string.
  match goal with
  | |- context [ let '(neg, r0) := ?p in _ ] => destruct p as [neg r0]
  end.
  destruct (PyFloat.digitpart _) as [ [ds [ | ? ? ] ] | ];
    try (intros [= <-]; reflexivity).
  destruct (_ <? _)%nat; [ intros [= <-]; reflexivity | discriminate ].
Qed.

Lemma date_new_cases y m d :
  (exists dt, date_new y m d = Got dt /\ PyDate.valid dt)
  \/ date_new y m d = Failed (Builtin ValueError)
  \/ date_new y m d = Failed OverflowError.
Proof.
  unfold date_new. destruct (_ && _); [ | right; right; reflexivity ].
  destruct (PyDate.make y m d) as [dt | e] eqn:E.
  - left. exists dt. split; [ reflexivity | exact (make_valid _ _ _ _ E) ].
  - right. left. rewrite (make_raises _ _ _ _ E). reflexivity.
Qed.

Lemma tried_int_cases s :
  (exists n, tried_int s = Got n) \/ tried_int s = Failed (Builtin ValueError).
Proof.
  unfold tried_int. destruct (PyInt.of_string s) as [n | e] eqn:E.
  - left. exists n. reflexivity.
  - right. rewrite (int_of_string_raises _ _ E). reflexivity.
Qed.

Lemma try_date_cases raw :
  (exists dt, try_date raw = Got dt /\ PyDate.valid dt)
  \/ try_date raw = Failed (Builtin ValueError)
  \/ try_date raw = Failed OverflowError.
Proof.
  unfold try_date.
  destruct (PyLib.split "." raw) as [ | p0 [ | p1 [ | p2 [ | ? ? ] ] ] ];
    try (right; left; reflexivity).
  destruct (tried_int_cases p0) as [[day ->] | ->];
    [ | right; left; reflexivity ].
  destruct (tried_int_cases p1) as [[month ->] | ->];
    [ | right; left; reflexivity ].
  destruct (tried_int_cases p2) as [[year ->] | ->];
    [ | right; left; reflexivity ].
  apply date_new_cases.
Qed.

Lemma date_new_overflow y m d :
  date_new y m d = Failed OverflowError ->
  PyInt.fits_c_int y && PyInt.fits_c_int m && PyInt.fits_c_int d = false.
Proof.
  unfold date_new.
  destruct (PyInt.fits_c_int y && PyInt.fits_c_int m && PyInt.fits_c_int d);
    [ | reflexivity ].
  destruct (PyDate.make y m d) as [dt | e] eqn:E; [ discriminate | ].
  rewrite (make_raises _ _ _ _ E). discriminate.
Qed.

(** [OverflowError] comes from a line of three integers one of which is
    beyond the C [int] range. *)
Lemma try_date_overflow line :
  try_date (PyStr.strip line) = Failed OverflowError -> oversized_date line.
Proof.
  unfold try_date, oversized_date.
  destruct (PyLib.split "." (PyStr.strip line))
    as [ | p0 [ | p1 [ | p2 [ | ? ? ] ] ] ]; try discriminate.
  unfold tried_int.
  destruct (PyInt.of_string p0) as [day | e0] eqn:E0.
  2: { rewrite (int_of_string_raises _ _ E0). discriminate. }
  destruct (PyInt.of_string p1) as [month | e1] eqn:E1.
  2: { rewrite (int_of_string_raises _ _ E1). discriminate. }
  destruct (PyInt.of_string p2) as [year | e2] eqn:E2.
  2: { rewrite (int_of_string_raises _ _ E2). discriminate. }
  intros H. exists p0, p1, p2, day, month, year.
  split; [ reflexivity | ].
  split; [ exact E0 | ]. split; [ exact E1 | ]. split; [ exact E2 | ].
  exact (date_new_overflow _ _ _ H).
Qed.

Lemma parse_date_lines_outcome prompt inp : forall out file,
  match parse_date_lines prompt inp out file with
  | Returned d w' =>
      PyDate.valid d
      /\ (exists more, stdout w' = (out ++ more)%list)
      /\ (exists line consumed, inp = (line :: consumed ++ stdin w')%list)
      /\ report_txt w' = file
  | Uncaught e w' =>
      (e = EOFError /\ stdin w' = []
       \/ e = OverflowError
          /\ exists consumed line,
               inp = (consumed ++ line :: stdin w')%list
               /\ oversized_date line)
      /\ (exists more, stdout w' = (out ++ more)%list)
      /\ (exists consumed, inp = (consumed ++ stdin w')%list)
      /\ report_txt w' = file
  end.
Proof.
  induction inp as [ | line rest IH ]; intros out file.
  - cbn [parse_date_lines stdin stdout report_txt].
    split; [ left; split; reflexivity | ].
    split; [ eexists; reflexivity | ].
    split; [ exists []; reflexivity | reflexivity ].
  - cbn [parse_date_lines].
    pose proof (try_date_overflow line) as Hover.
    destruct (try_date_cases (PyStr.strip line)) as [[dt [-> Hv]] | [-> | E]];
      [ | | rewrite E ].
    + cbn [stdin stdout report_txt].
      split; [ exact Hv | ].
      split; [ eexists; reflexivity | ].
      split; [ exists line, []; reflexivity | reflexivity ].
    + specialize (IH ((out ++ [Prompt prompt]) ++ [Line INVALID_DATE])%list
                     file).
      destruct (parse_date_lines prompt rest _ file) as [d w' | e w'].
      * destruct IH as (Hv & [more Hm] & (l & c & Hc) & Hf).
        split; [ exact Hv | ].
        split; [ exists ([Prompt prompt] ++ [Line INVALID_DATE] ++ more)%list;
                 rewrite Hm, <- !app_assoc; reflexivity | ].
        split; [ exists line, (l :: c); rewrite Hc; reflexivity | exact Hf ].
      * destruct IH as (He & [more Hm] & (c & Hc) & Hf).
        split.
        { destruct He as [He | (He & c0 & l0 & Hc0 & Ho)];
            [ left; exact He | right ].
          split; [ exact He | ].
          exists (line :: c0), l0. rewrite Hc0. split; [ reflexivity | ].
          exact Ho. }
        split; [ exists ([Prompt prompt] ++ [Line INVALID_DATE] ++ more)%list;
                 rewrite Hm, <- !app_assoc; reflexivity | ].
        split; [ exists (line :: c); rewrite Hc; reflexivity | exact Hf ].
    + cbn [stdin stdout report_txt].
      split; [ right; split; [ reflexivity | ];
               exists [], line; split; [ reflexivity | ];
               exact (Hover E) | ].
      split; [ eexists; reflexivity | ].
      split; [ exists [line]; reflexivity | reflexivity ].
Qed.

Lemma parse_date_input_reads (prompt : string) (w : world) :
  match parse_date_input prompt w with
  | Returned d w' =>
      PyDate.valid d
      /\ (exists line consumed, stdin w = (line :: consumed ++ stdin w')%list)
      /\ reads_only w w'
  | Uncaught e w' =>
      (input_ended e w' \/ oversized_date_read e w w')
      /\ reads_only w w'
  end.
Proof.
  unfold parse_date_input, reads_only, input_ended, oversized_date_read.
  pose proof (parse_date_lines_outcome prompt (stdin w) (stdout w)
                (report_txt w)) as H.
  destruct (parse_date_lines prompt (stdin w) (stdout w) (report_txt w))
    as [d w' | e w'].
  - destruct H as (Hv & Hm & (l & c & Hc) & Hf).
    split; [ exact Hv | ].
    split; [ exists l, c; exact Hc | ].
    split; [ exact Hm | split; [ exists (l :: c); exact Hc | exact Hf ] ].
  - destruct H as (He & Hm & Hc & Hf).
    split; [ exact He | ].
    split; [ exact Hm | split; [ exact Hc | exact Hf ] ].
Qed.


Lemma parse_date_lines_skips prompt bad : forall out file good rest d,
  Forall (fun line =>
            try_date (PyStr.strip line) = Failed (Builtin ValueError)) bad ->
  try_date (PyStr.strip good) = Got d ->
  parse_date_lines prompt (bad ++ good :: rest) out file
  = Returned d
      (mk_world rest
         (out ++ rejected_turns prompt INVALID_DATE bad ++ [Prompt prompt])
         file).
Proof.
  induction bad as [ | line bad IH ]; intros out file good rest d Hbad Hgood.
  - cbn [app parse_date_lines rejected_turns flat_map]. rewrite Hgood.
    reflexivity.
  - inversion Hbad as [ | ? ? Hline Hrest ]; subst.
    cbn [app parse_date_lines]. rewrite Hline.
    rewrite (IH _ file good rest d Hrest Hgood).
    cbn [rejected_turns flat_map app]. rewrite <- !app_assoc. reflexivity.
Qed.

(** X9. [parse_date_input] returns the date of the first input line that
    is a date: every line before it that is rejected with [ValueError]
    (not three dot-separated fields, a field that is no integer, or no
    such day in the calendar) costs one prompt and one line of the fixed
    message, and the lines after it stay unread. *)
Theorem parse_date_input_first_valid
  (prompt : string) (bad : list string) (good : string) (rest : list string)
  (d : date) (out : list event) (file : option string) :
  Forall (fun line =>
            try_date (PyStr.strip line) = Failed (Builtin ValueError)) bad ->
  try_date (PyStr.strip good) = Got d ->
  parse_date_input prompt (mk_world (bad ++ good :: rest) out file)
  = Returned d
      (mk_world rest
         (out ++ rejected_turns prompt INVALID_DATE bad ++ [Prompt prompt])
         file).
Proof.
  intros Hbad Hgood. unfold parse_date_input.
  cbn [stdin stdout report_txt].
  apply parse_date_lines_skips; assumption.
Qed.

Lemma parse_date_input_first_valid_witness :
  parse_date_input "Enter start date (dd.mm.yyyy): "
    (mk_world ["31.2.2025"; "tomorrow"; "1.11"; "  01.11.2025 "; "4"] [] None)
  = Returned (day_2025 11 1)
      (mk_world ["4"]
         [ Prompt "Enter start date (dd.mm.yyyy): "; Line INVALID_DATE;
           Prompt "Enter start date (dd.mm.yyyy): "; Line INVALID_DATE;
           Prompt "Enter start date (dd.mm.yyyy): "; Line INVALID_DATE;
           Prompt "Enter start date (dd.mm.yyyy): " ]
         None)
  /\ try_date "1.11.2025" = try_date "01.11.2025".
Proof.
  split; [ | vm_compute; reflexivity ].
  apply (parse_date_input_first_valid "Enter start date (dd.mm.yyyy): "
           ["31.2.2025"; "tomorrow"; "1.11"] "  01.11.2025 " ["4"]
           (day_2025 11 1) [] None).
  - repeat constructor.
  - vm_compute. reflexivity.
Defined.

(** ** [ask_int_in_range] *)

Lemma ask_int_lines_outcome prompt min_v max_v inp : forall out file,
  match ask_int_lines prompt min_v max_v inp out file with
  | Returned v w' =>
      min_v <= v <= max_v
      /\ (exists more, stdout w' = (out ++ more)%list)
      /\ (exists line consumed, inp = (line :: consumed ++ stdin w')%list)
      /\ report_txt w' = file
  | Uncaught e w' =>
      (e = EOFError /\ stdin w' = [])
      /\ (exists more, stdout w' = (out ++ more)%list)
      /\ (exists consumed, inp = (consumed ++ stdin w')%list)
      /\ report_txt w' = file
  end.
Proof.
  induction inp as [ | line rest IH ]; intros out file.
  - cbn [ask_int_lines stdin stdout report_txt].
    split; [ split; reflexivity | ].
    split; [ eexists; reflexivity | ].
    split; [ exists []; reflexivity | reflexivity ].
  - cbn [ask_int_lines].
    assert (Hrec : forall msg,
      match ask_int_lines prompt min_v max_v rest
              ((out ++ [Prompt prompt]) ++ [Line msg])%list file with
      | Returned v w' =>
          min_v <= v <= max_v
          /\ (exists more, stdout w' = (out ++ more)%list)
          /\ (exists l consumed,
                (line :: rest) = (l :: consumed ++ stdin w')%list)
          /\ report_txt w' = file
      | Uncaught e w' =>
          (e = EOFError /\ stdin w' = [])
          /\ (exists more, stdout w' = (out ++ more)%list)
          /\ (exists consumed, (line :: rest) = (consumed ++ stdin w')%list)
          /\ report_txt w' = file
      end).
    { intros msg.
      specialize (IH ((out ++ [Prompt prompt]) ++ [Line msg])%list file).
      destruct (ask_int_lines prompt min_v max_v rest _ file) as [v w' | e w'].
      - destruct IH as (Hv & [more Hm] & (l & c & Hc) & Hf).
        split; [ exact Hv | ].
        split; [ exists ([Prompt prompt] ++ [Line msg] ++ more)%list;
                 rewrite Hm, <- !app_assoc; reflexivity | ].
        split; [ exists line, (l :: c); rewrite Hc; reflexivity | exact Hf ].
      - destruct IH as (He & [more Hm] & (c & Hc) & Hf).
        split; [ exact He | ].
        split; [ exists ([Prompt prompt] ++ [Line msg] ++ more)%list;
                 rewrite Hm, <- !app_assoc; reflexivity | ].
        split; [ exists (line :: c); rewrite Hc; reflexivity | exact Hf ]. }
    destruct (PyInt.of_string (PyStr.strip line)) as [val | e] eqn:E.
    + destruct ((min_v <=? val) && (val <=? max_v)) eqn:R.
      * apply andb_true_iff in R. destruct R as [R1 R2].
        apply Z.leb_le in R1, R2.
        cbn [stdin stdout report_txt].
        split; [ lia | ].
        split; [ eexists; reflexivity | ].
        split; [ exists line, []; reflexivity | reflexivity ].
      * apply Hrec.
    + rewrite (int_of_string_raises _ _ E). apply Hrec.
Qed.

Lemma ask_int_in_range_reads
  (prompt : string) (min_v max_v : Z) (w : world) :
  match ask_int_in_range prompt min_v max_v w with
  | Returned v w' =>
      min_v <= v <= max_v
      /\ (exists line consumed, stdin w = (line :: consumed ++ stdin w')%list)
      /\ reads_only w w'
  | Uncaught e w' =>
      e = EOFError /\ stdin w' = [] /\ reads_only w w'
  end.
Proof.
  unfold ask_int_in_range, reads_only.
  pose proof (ask_int_lines_outcome prompt min_v max_v (stdin w) (stdout w)
                (report_txt w)) as H.
  destruct (ask_int_lines prompt min_v max_v (stdin w) (stdout w)
              (report_txt w)) as [v w' | e w'].
  - destruct H as (Hv & Hm & (l & c & Hc) & Hf).
    split; [ exact Hv | ].
    split; [ exists l, c; exact Hc | ].
    split; [ exact Hm | split; [ exists (l :: c); exact Hc | exact Hf ] ].
  - destruct H as ((He & Hs) & Hm & Hc & Hf).
    split; [ exact He | split; [ exact Hs | ] ].
    split; [ exact Hm | split; [ exact Hc | exact Hf ] ].
Qed.

(** X10. [ask_int_in_range] returns only integers of the range
    [min_v .. max_v], having consumed at least one input line; the only
    way it stops otherwise is [EOFError] at the end of the input; the
    report file is untouched. *)
Theorem ask_int_in_range_outcome
  (prompt : string) (min_v max_v : Z) (w : world) :
  match ask_int_in_range prompt min_v max_v w with
  | Returned v w' =>
      min_v <= v <= max_v
      /\ (exists line consumed, stdin w = (line :: consumed ++ stdin w')%list)
      /\ reads_only w w'
  | Uncaught e w' =>
      e = EOFError /\ stdin w' = [] /\ reads_only w w'
  end.
Proof. apply ask_int_in_range_reads. Qed.

Lemma ask_int_lines_skips prompt min_v max_v bad :
  forall out file good rest val,
  Forall (fun line => int_rejection min_v max_v line <> None) bad ->
  PyInt.of_string (PyStr.strip good) = Ok val ->
  min_v <= val <= max_v ->
  ask_int_lines prompt min_v max_v (bad ++ good :: rest) out file
  = Returned val
      (mk_world rest
         (out ++ int_rejected_turns prompt min_v max_v bad ++ [Prompt prompt])
         file).
Proof.
  induction bad as [ | line bad IH ];
    intros out file good rest val Hbad Hgood Hrange.
  - cbn [app ask_int_lines int_rejected_turns flat_map]. rewrite Hgood.
    replace ((min_v <=? val) && (val <=? max_v)) with true
      by (symmetry; apply andb_true_iff; split; apply Z.leb_le; lia).
    reflexivity.
  - inversion Hbad as [ | ? ? Hline Hrest ]; subst.
    cbn [app ask_int_lines int_rejected_turns flat_map].
    unfold int_rejection in Hline |- *.
    destruct (PyInt.of_string (PyStr.strip line)) as [v | e] eqn:E.
    + destruct ((min_v <=? v) && (v <=? max_v)); [ congruence | ].
      rewrite (IH _ file good rest val Hrest Hgood Hrange).
      unfold out_of_range_message, int_rejected_turns, int_rejection.
      cbn [app]. rewrite <- !app_assoc. reflexivity.
    + rewrite (int_of_string_raises _ _ E).
      rewrite (IH _ file good rest val Hrest Hgood Hrange).
      unfold int_rejected_turns, int_rejection.
      cbn [app]. rewrite <- !app_assoc. reflexivity.
Qed.

(** X11. [ask_int_in_range] returns the integer of the first input line
    that is an integer of the range.  A line before it that is an integer
    outside the range is answered with the range message, a line that is
    no integer with the invalid-number message, each after one prompt; the
    lines after the accepted one stay unread. *)
Theorem ask_int_in_range_first_valid
  (prompt : string) (min_v max_v : Z) (bad : list string) (good : string)
  (rest : list string) (val : Z) (out : list event) (file : option string) :
  Forall (fun line => int_rejection min_v max_v line <> None) bad ->
  PyInt.of_string (PyStr.strip good) = Ok val ->
  min_v <= val <= max_v ->
  ask_int_in_range prompt min_v max_v (mk_world (bad ++ good :: rest) out file)
  = Returned val
      (mk_world rest
         (out ++ int_rejected_turns prompt min_v max_v bad ++ [Prompt prompt])
         file).
Proof.
  intros Hbad Hgood Hrange. unfold ask_int_in_range.
  cbn [stdin stdout report_txt].
  apply ask_int_lines_skips; assumption.
Qed.

Lemma ask_int_in_range_first_valid_witness :
  ask_int_in_range "Enter month number (1–12): " 1 12
    (mk_world ["0"; "thirteen"; "13"; " 7 "; "x"] [] None)
  = Returned 7
      (mk_world ["x"]
         [ Prompt "Enter month number (1–12): ";
           Line "Please enter a number between 1 and 12.";
           Prompt "Enter month number (1–12): ";
           Line "Invalid number. Try again.";
           Prompt "Enter month number (1–12): ";
           Line "Please enter a number between 1 and 12.";
           Prompt "Enter month number (1–12): " ]
         None).
Proof.
  apply (ask_int_in_range_first_valid "Enter month number (1–12): " 1 12
           ["0"; "thirteen"; "13"] " 7 " ["x"] 7 [] None).
  - repeat constructor; vm_compute; discriminate.
  - vm_compute. reflexivity.
  - lia.
Defined.

(** ** The reports with their prompts *)

Lemma reads_only_refl w : reads_only w w.
Proof.
  split; [ exists []; rewrite app_nil_r; reflexivity | ].
  split; [ exists []; reflexivity | reflexivity ].
Qed.

Lemma reads_only_trans w1 w2 w3 :
  reads_only w1 w2 -> reads_only w2 w3 -> reads_only w1 w3.
Proof.
  intros ([m1 H1] & [c1 C1] & F1) ([m2 H2] & [c2 C2] & F2).
  split; [ exists (m1 ++ m2)%list; rewrite H2, H1, app_assoc; reflexivity | ].
  split; [ exists (c1 ++ c2)%list; rewrite C1, C2, app_assoc; reflexivity | ].
  congruence.
Qed.

(** On valid dates the range report is built, or the later date is
    9999-12-31 and [ValueError] is raised. *)
Lemma create_daily_report_cases daily a b :
  PyDate.valid a -> PyDate.valid b ->
  (exists title cons prod temp,
     TaskF.create_daily_report daily a b
     = Ok [divider; title; cons; prod; temp])
  \/ (TaskF.create_daily_report daily a b = Raise ValueError
      /\ later a b = PyDate.max).
Proof.
  intros Ha Hb.
  assert (Hl : 1 <= PyDate.toordinal (later a b) <= PyDate.MAXORDINAL
               /\ 1 <= PyDate.toordinal (earlier a b) <= PyDate.MAXORDINAL).
  { unfold later, earlier, PyDate.valid in *. destruct (PyDate.ltb b a); lia. }
  destruct (Z.eq_dec (PyDate.toordinal (later a b)) PyDate.MAXORDINAL)
    as [E | E].
  - right.
    assert (Hmax : later a b = PyDate.max).
    { destruct (later a b) as [x]. cbn [PyDate.toordinal] in E. subst x.
      reflexivity. }
    split; [ | exact Hmax ].
    rewrite create_daily_report_ordered, Hmax.
    unfold TaskF.create_daily_report, PyDate.ltb.
    change (PyDate.toordinal PyDate.max) with PyDate.MAXORDINAL.
    replace (PyDate.MAXORDINAL <? PyDate.toordinal (earlier a b)) with false
      by (symmetry; apply Z.ltb_ge; lia).
    rewrite (range_loop_to_max daily _ (earlier a b) range_acc0 eq_refl)
      by lia.
    reflexivity.
  - left. apply create_daily_report_defined; [ assumption | assumption | lia ].
Qed.

Lemma console_daily_report_reads (daily : index) (w : world) :
  match Console.create_daily_report daily w with
  | Returned lines w' =>
      is_report lines
      /\ (exists l1 l2 consumed,
            stdin w = (l1 :: l2 :: consumed ++ stdin w')%list)
      /\ reads_only w w'
  | Uncaught e w' =>
      (input_ended e w' \/ oversized_date_read e w w'
       \/ range_to_last_day e w w')
      /\ reads_only w w'
  end.
Proof.
  unfold Console.create_daily_report, and_then.
  fold START_DATE_PROMPT. fold END_DATE_PROMPT.
  pose proof (parse_date_input_reads START_DATE_PROMPT w) as H1.
  destruct (parse_date_input START_DATE_PROMPT w) as [a w1 | e w1] eqn:P1.
  2: { destruct H1 as ([He | He] & R); (split; [ | exact R ]);
         [ left; exact He | right; left; exact He ]. }
  destruct H1 as (Va & (l1 & c1 & C1) & R1).
  pose proof (parse_date_input_reads END_DATE_PROMPT w1) as H2.
  destruct (parse_date_input END_DATE_PROMPT w1) as [b w2 | e w2] eqn:P2.
  2: { destruct H2 as ([He | (He & c0 & l0 & Hc0 & Ho)] & R2);
         (split; [ | exact (reads_only_trans _ _ _ R1 R2) ]);
         [ left; exact He | right; left ].
       split; [ exact He | ].
       exists ((l1 :: c1) ++ c0)%list, l0. split; [ | exact Ho ].
       rewrite C1, Hc0. cbn [app]. rewrite <- app_assoc. reflexivity. }
  destruct H2 as (Vb & (l2 & c2 & C2) & R2).
  pose proof (reads_only_trans _ _ _ R1 R2) as R.
  unfold lift.
  destruct (create_daily_report_cases daily a b Va Vb)
    as [(t & c & p & k & ->) | [-> Hmax]].
  - split; [ exists t, c, p, k; reflexivity | ].
    split; [ | exact R ].
    destruct c1 as [ | x c1 ].
    + exists l1, l2, c2. rewrite C1, C2. reflexivity.
    + exists l1, x, (c1 ++ l2 :: c2)%list. rewrite C1, C2.
      cbn [app]. rewrite <- app_assoc. reflexivity.
  - split; [ | exact R ].
    right. right. split; [ reflexivity | ].
    exists a, b, w1. split; [ exact P1 | ].
    split; [ exact P2 | exact Hmax ].
Qed.

(** X12. The range report with its two prompts either returns the five
    lines of a report, or stops in one of three ways: with [EOFError]
    when the input has come to its end; with [OverflowError] when the
    last line read is a date with a field beyond the C [int] range; or
    with [ValueError] when both prompts have returned a date and the
    later of the two entered dates is 9999-12-31.  It writes no file. *)
Theorem console_daily_report_outcome (daily : index) (w : world) :
  match Console.create_daily_report daily w with
  | Returned lines w' =>
      (exists title cons prod temp,
         lines = [divider; title; cons; prod; temp])
      /\ (exists l1 l2 consumed,
            stdin w = (l1 :: l2 :: consumed ++ stdin w')%list)
      /\ reads_only w w'
  | Uncaught e w' =>
      ((e = EOFError /\ stdin w' = [])
       \/ (e = OverflowError
           /\ exists consumed line,
                stdin w = (consumed ++ line :: stdin w')%list
                /\ oversized_date line)
       \/ (e = Builtin ValueError
           /\ exists a b w1,
                parse_date_input "Enter start date (dd.mm.yyyy): " w
                = Returned a w1
                /\ parse_date_input "Enter end date (dd.mm.yyyy): " w1
                   = Returned b w'
                /\ PyDate.valid a /\ PyDate.valid b
                /\ later a b = PyDate.max))
      /\ reads_only w w'
  end.
Proof.
  pose proof (console_daily_report_reads daily w) as H.
  destruct (Console.create_daily_report daily w) as [lines w' | e w'];
    [ exact H | ].
  destruct H as (He & R). split; [ | exact R ].
  destruct He as [He | [He | (He & a & b & w1 & P1 & P2 & Hmax)]];
    [ left; exact He | right; left; exact He | right; right ].
  split; [ exact He | ].
  exists a, b, w1.
  pose proof (parse_date_input_reads START_DATE_PROMPT w) as V1.
  rewrite P1 in V1.
  pose proof (parse_date_input_reads END_DATE_PROMPT w1) as V2.
  rewrite P2 in V2.
  split; [ exact P1 | ]. split; [ exact P2 | ].
  split; [ apply V1 | ]. split; [ apply V2 | exact Hmax ].
Qed.

Lemma console_monthly_report_reads (daily : index) (w : world) :
  match Console.create_monthly_report daily w with
  | Returned lines w' =>
      (exists title cons prod temp,
         lines = [divider; title; cons; prod; temp])
      /\ (exists line consumed, stdin w = (line :: consumed ++ stdin w')%list)
      /\ reads_only w w'
  | Uncaught e w' => e = EOFError /\ stdin w' = [] /\ reads_only w w'
  end.
Proof.
  unfold Console.create_monthly_report, and_then.
  pose proof (ask_int_in_range_reads "Enter month number (1–12): " 1 12 w)
    as H.
  destruct (ask_int_in_range "Enter month number (1–12): " 1 12 w)
    as [month w1 | e w1]; [ | exact H ].
  destruct H as (Hm & C & R).
  destruct (month_name_defined month Hm) as [name Hname].
  rewrite (create_monthly_report_eq daily month name Hname).
  cbn [lift]. split; [ | split; [ exact C | exact R ] ].
  unfold metric_lines. repeat eexists.
Qed.

(** X13. The month report with its prompt either returns the five lines
    of a report or stops with [EOFError] at the end of the input: the
    month it passes on is always in 1..12, so the table of month names is
    never indexed out of range.  It writes no file. *)
Theorem console_monthly_report_outcome (daily : index) (w : world) :
  match Console.create_monthly_report daily w with
  | Returned lines w' =>
      (exists title cons prod temp,
         lines = [divider; title; cons; prod; temp])
      /\ (exists line consumed, stdin w = (line :: consumed ++ stdin w')%list)
      /\ reads_only w w'
  | Uncaught e w' => e = EOFError /\ stdin w' = [] /\ reads_only w w'
  end.
Proof. apply console_monthly_report_reads. Qed.

End ConsoleInput.
(* ===================================================================== *)
(** * Dates printed and read back *)

Section DateRoundTrip.

Import TaskF Spec Examples Samples Console ConsoleSpec Calendar.

Lemma month_day_table (leapyear : bool) (n : Z) :
  0 <= n <= (if leapyear then 365 else 364) ->
  month_day_ok leapyear n = true.
Proof.
  intros H.
  assert (Hall :
    forallb (fun i => month_day_ok true (Z.of_nat i)) (seq 0 366)
    && forallb (fun i => month_day_ok false (Z.of_nat i)) (seq 0 365)
    = true) by (vm_compute; reflexivity).
  apply andb_true_iff in Hall. destruct Hall as [Ht Hf].
  rewrite forallb_forall in Ht, Hf.
  rewrite <- (Z2Nat.id n) by lia.
  destruct leapyear; [ apply Ht | apply Hf ]; apply in_seq; lia.
Qed.

(** [ord2ymd] with its last step under a name. *)
Lemma ord2ymd_eq n0 :
  PyDate.ord2ymd n0 =
  let n := n0 - 1 in
  let n400 := n / 146097 in
  let n := n mod 146097 in
  let n100 := n / 36524 in
  let n := n mod 36524 in
  let n4 := n / 1461 in
  let n := n mod 1461 in
  let n1 := n / 365 in
  let n := n mod 365 in
  let year := n400 * 400 + 1 + n100 * 100 + n4 * 4 + n1 in
  if (n1 =? 4) || (n100 =? 4) then (year - 1, 12, 31)
  else
    let leapyear := (n1 =? 3) && (negb (n4 =? 24) || (n100 =? 3)) in
    (year, fst (month_day leapyear n), snd (month_day leapyear n)).
Proof.
  unfold PyDate.ord2ymd, month_day. cbv zeta.
  destruct ((_ =? 4) || (_ =? 4)); [ reflexivity | ].
  match goal with |- context [if ?c then (_, _, _) else _] => destruct c end;
    reflexivity.
Qed.

(** Year, month and day of an ordinal of the calendar are a date of the
    calendar, with that ordinal. *)
Lemma ord2ymd_inverse n :
  1 <= n <= PyDate.MAXORDINAL ->
  let y := fst (fst (PyDate.ord2ymd n)) in
  let m := snd (fst (PyDate.ord2ymd n)) in
  let d := snd (PyDate.ord2ymd n) in
  1 <= y <= 9999 /\ 1 <= m <= 12 /\ 1 <= d <= PyDate.days_in_month y m
  /\ PyDate.ymd2ord y m d = n.
Proof.
  intros Hn. rewrite ord2ymd_eq. cbv zeta.
  unfold PyDate.MAXORDINAL in Hn.
  set (N := n - 1).
  set (n400 := N / 146097). set (r400 := N mod 146097).
  set (n100 := r400 / 36524). set (r100 := r400 mod 36524).
  set (n4 := r100 / 1461). set (r4 := r100 mod 1461).
  set (n1 := r4 / 365). set (r1 := r4 mod 365).
  assert (Hdiv : N = 146097 * n400 + r400 /\ 0 <= r400 < 146097
                 /\ r400 = 36524 * n100 + r100 /\ 0 <= r100 < 36524
                 /\ r100 = 1461 * n4 + r4 /\ 0 <= r4 < 1461
                 /\ r4 = 365 * n1 + r1 /\ 0 <= r1 < 365).
  { subst n400 r400 n100 r100 n4 r4 n1 r1.
    repeat split; try (apply Z.mod_pos_bound; lia);
      apply Z.div_mod; lia. }
  clearbody n400 r400 n100 r100 n4 r4 n1 r1.
  destruct Hdiv as (E400 & B400 & E100 & B100 & E4 & B4 & E1 & B1).
  destruct ((n1 =? 4) || (n100 =? 4)) eqn:Edge; cbn [fst snd].
  - apply orb_true_iff in Edge. rewrite !Z.eqb_eq in Edge.
    unfold PyDate.ymd2ord, PyDate.days_in_month, PyDate.days_before_month,
      PyDate.days_before_year, PyDate.is_leap.
    change (12 =? 2) with false. change (2 <? 12) with true.
    cbn [andb].
    change (nth (Z.to_nat 12) PyDate.DAYS_IN_MONTH 0) with 31.
    change (nth (Z.to_nat 12) PyDate.DAYS_BEFORE_MONTH 0) with 334.
    set (Y := n400 * 400 + 1 + n100 * 100 + n4 * 4 + n1 - 1).
    assert (HY : Y = n400 * 400 + n100 * 100 + n4 * 4 + n1) by (subst Y; lia).
    clearbody Y.
    destruct (Y mod 4 =? 0) eqn:L4; destruct (Y mod 100 =? 0) eqn:L100;
      destruct (Y mod 400 =? 0) eqn:L400; cbn [andb orb negb];
      rewrite ?Z.eqb_eq, ?Z.eqb_neq in *;
      subst N; Z.div_mod_to_equations; lia.
  - apply orb_false_iff in Edge. rewrite !Z.eqb_neq in Edge.
    set (L := (n1 =? 3) && (negb (n4 =? 24) || (n100 =? 3))).
    set (Y := n400 * 400 + 1 + n100 * 100 + n4 * 4 + n1).
    assert (HY : Y = n400 * 400 + 1 + n100 * 100 + n4 * 4 + n1)
      by reflexivity.
    assert (HL : PyDate.is_leap Y = L).
    { subst L. unfold PyDate.is_leap. clearbody Y.
      destruct (n1 =? 3) eqn:A1; destruct (n4 =? 24) eqn:A4;
        destruct (n100 =? 3) eqn:A100;
        destruct (Y mod 4 =? 0) eqn:L4; destruct (Y mod 100 =? 0) eqn:L100;
        destruct (Y mod 400 =? 0) eqn:L400; cbn [andb orb negb];
        try reflexivity; exfalso;
        rewrite ?Z.eqb_eq, ?Z.eqb_neq in *;
        Z.div_mod_to_equations; lia. }
    assert (HD : PyDate.days_before_year Y = N - r1).
    { unfold PyDate.days_before_year. clearbody Y L. cbv zeta.
      Z.div_mod_to_equations. lia. }
    pose proof (month_day_table L r1) as HT.
    assert (Hr : 0 <= r1 <= (if L then 365 else 364)) by (destruct L; lia).
    specialize (HT Hr). unfold month_day_ok in HT.
    destruct (month_day L r1) as [m d]. cbn [fst snd].
    unfold PyDate.ymd2ord, PyDate.days_in_month, PyDate.days_before_month.
    rewrite HL, HD. clearbody Y L.
    repeat (apply andb_true_iff in HT; destruct HT as [HT ?]).
    repeat match goal with
           | H : (_ <=? _) = true |- _ => apply Z.leb_le in H
           | H : (_ =? _) = true |- _ => apply Z.eqb_eq in H
           end.
    subst N. repeat split; lia.
Qed.

(** ** Texts of digits *)

Lemma digit_no_dot c : PyStr.is_digit c = true -> Ascii.eqb c "." = false.
Proof.
  intros H. destruct (Ascii.eqb_spec c "."%char) as [-> | ];
    [ discriminate | reflexivity ].
Qed.

(** A digit or a point is a character of its own, and no whitespace. *)
Lemma plain_byte c :
  PyStr.is_digit c || Ascii.eqb c "." = true ->
  PyStr.is_cont c = false /\ PyStr.is_space (String c "") = false.
Proof.
  intros H.
  destruct c as [[] [] [] [] [] [] [] []]; vm_compute in H;
    try discriminate H; split; vm_compute; reflexivity.
Qed.

Lemma digits_and_points_digits s :
  PyStr.all_digits s = true -> digits_and_points s = true.
Proof.
  induction s as [ | c s IH ]; [ reflexivity | ].
  cbn [PyStr.all_digits digits_and_points]. intros H.
  apply andb_true_iff in H. destruct H as [Hc Hs].
  rewrite Hc, (IH Hs). reflexivity.
Qed.

Lemma digits_and_points_app s t :
  digits_and_points (s ++ t) = digits_and_points s && digits_and_points t.
Proof.
  induction s as [ | c s IH ]; [ reflexivity | ].
  cbn [append digits_and_points]. rewrite IH, andb_assoc. reflexivity.
Qed.

Lemma chars_no_space s :
  digits_and_points s = true ->
  Forall (fun c => PyStr.is_space c = false) (PyStr.chars s).
Proof.
  induction s as [ | b rest IH ]; [ constructor | ].
  cbn [digits_and_points]. intros H.
  apply andb_true_iff in H. destruct H as [Hb Hrest].
  specialize (IH Hrest). cbn [PyStr.chars]. cbv zeta.
  destruct rest as [ | b2 r ].
  - constructor; [ apply (plain_byte b Hb) | constructor ].
  - cbn [digits_and_points] in Hrest.
    apply andb_true_iff in Hrest. destruct Hrest as [Hb2 _].
    rewrite (proj1 (plain_byte b2 Hb2)).
    constructor; [ apply (plain_byte b Hb) | exact IH ].
Qed.

Lemma drop_space_none cs :
  Forall (fun c => PyStr.is_space c = false) cs -> PyStr.drop_space cs = cs.
Proof.
  intros H. destruct H as [ | c cs Hc _ ]; [ reflexivity | ].
  cbn [PyStr.drop_space]. rewrite Hc. reflexivity.
Qed.

Lemma strip_no_space s : digits_and_points s = true -> PyStr.strip s = s.
Proof.
  intros H. pose proof (chars_no_space s H) as Hall. unfold PyStr.strip.
  rewrite (drop_space_none _ Hall).
  rewrite (drop_space_none _ (Forall_rev Hall)).
  rewrite rev_involutive. apply join_chars.
Qed.

Lemma split_digits s :
  PyStr.all_digits s = true -> PyLib.split "." s = [s].
Proof.
  induction s as [ | c s IH ]; [ reflexivity | ].
  cbn [PyStr.all_digits PyLib.split]. intros H.
  apply andb_true_iff in H. destruct H as [Hc Hs].
  rewrite (digit_no_dot c Hc), (IH Hs). reflexivity.
Qed.

Lemma split_digits_dot s rest :
  PyStr.all_digits s = true ->
  PyLib.split "." (s ++ String "." rest) = s :: PyLib.split "." rest.
Proof.
  induction s as [ | c s IH ]; [ reflexivity | ].
  cbn [PyStr.all_digits PyLib.split append]. intros H.
  apply andb_true_iff in H. destruct H as [Hc Hs].
  rewrite (digit_no_dot c Hc), (IH Hs). reflexivity.
Qed.

(** The numbers of a date are read back by [int], with or without the
    zeros of a fixed width. *)
Lemma numbers_In n : forall first k,
  first <= k < first + Z.of_nat n -> In k (numbers n first).
Proof.
  induction n as [ | n IH ]; intros first k H; [ lia | ].
  cbn [numbers In].
  destruct (Z.eq_dec first k) as [E | E]; [ left; exact E | right ].
  apply IH. lia.
Qed.

Lemma reads_back_table (w : nat) (k : Z) :
  (w = 0 \/ w = 2 \/ w = 4)%nat -> 1 <= k <= 9999 -> reads_back w k = true.
Proof.
  intros Hw Hk.
  assert (Hall :
    forallb (fun w => forallb (reads_back w) (numbers (Z.to_nat 9999) 1))
      [0; 2; 4]%nat = true) by (vm_compute; reflexivity).
  rewrite forallb_forall in Hall.
  assert (Hin : In w [0; 2; 4]%nat)
    by (destruct Hw as [-> | [-> | ->]]; cbn [In]; tauto).
  specialize (Hall w Hin). rewrite forallb_forall in Hall.
  apply Hall. apply numbers_In. lia.
Qed.

Lemma reads_back_text w k :
  reads_back w k = true ->
  PyStr.all_digits (PyStr.zfill w (PyStr.of_Z k)) = true
  /\ tried_int (PyStr.zfill w (PyStr.of_Z k)) = Got k.
Proof.
  unfold reads_back, tried_int. cbv zeta. intros H.
  apply andb_true_iff in H. destruct H as [Hd Hv].
  split; [ exact Hd | ].
  destruct (PyInt.of_string _) as [v | e]; [ | discriminate ].
  apply Z.eqb_eq in Hv. subst v. reflexivity.
Qed.

Lemma zfill_0 s : PyStr.zfill 0 s = s.
Proof. reflexivity. Qed.

Lemma days_in_month_le y m : 1 <= m <= 12 -> PyDate.days_in_month y m <= 31.
Proof.
  intros Hm. unfold PyDate.days_in_month.
  destruct ((m =? 2) && PyDate.is_leap y); [ lia | ].
  assert (Hc : m = 1 \/ m = 2 \/ m = 3 \/ m = 4 \/ m = 5 \/ m = 6
               \/ m = 7 \/ m = 8 \/ m = 9 \/ m = 10 \/ m = 11 \/ m = 12)
    by lia.
  repeat (destruct Hc as [-> | Hc]; [ vm_compute; discriminate | ]).
  subst m. vm_compute. discriminate.
Qed.

(** The fields of a date of the calendar. *)
Lemma date_fields n :
  1 <= n <= PyDate.MAXORDINAL ->
  1 <= PyDate.year (PyDate.mk_date n) <= 9999
  /\ 1 <= PyDate.month (PyDate.mk_date n) <= 12
  /\ 1 <= PyDate.day (PyDate.mk_date n) <= 31
  /\ PyDate.make (PyDate.year (PyDate.mk_date n))
       (PyDate.month (PyDate.mk_date n)) (PyDate.day (PyDate.mk_date n))
     = Ok (PyDate.mk_date n).
Proof.
  intros Hn. pose proof (ord2ymd_inverse n Hn) as H. cbv zeta in H.
  change (fst (fst (PyDate.ord2ymd n))) with (PyDate.year (PyDate.mk_date n))
    in H.
  change (snd (fst (PyDate.ord2ymd n))) with (PyDate.month (PyDate.mk_date n))
    in H.
  change (snd (PyDate.ord2ymd n)) with (PyDate.day (PyDate.mk_date n)) in H.
  destruct H as (Hy & Hm & Hd & Ho).
  pose proof (days_in_month_le (PyDate.year (PyDate.mk_date n)) _ Hm) as Hle.
  split; [ exact Hy | ]. split; [ exact Hm | ]. split; [ lia | ].
  unfold PyDate.make. rewrite Ho.
  repeat match goal with
         | |- context [ ?a <=? ?b ] =>
             replace (a <=? b) with true by (symmetry; apply Z.leb_le; lia)
         end.
  reflexivity.
Qed.

Lemma date_new_fields n :
  1 <= n <= PyDate.MAXORDINAL ->
  date_new (PyDate.year (PyDate.mk_date n)) (PyDate.month (PyDate.mk_date n))
    (PyDate.day (PyDate.mk_date n))
  = Got (PyDate.mk_date n).
Proof.
  intros Hn. destruct (date_fields n Hn) as (Hy & Hm & Hd & Ho).
  unfold date_new, PyInt.fits_c_int. rewrite Ho.
  assert (HC : PyInt.C_INT_MIN = -2147483648 /\ PyInt.C_INT_MAX = 2147483647)
    by (split; reflexivity).
  destruct HC as [-> ->].
  repeat match goal with
         | |- context [ ?a <=? ?b ] =>
             replace (a <=? b) with true by (symmetry; apply Z.leb_le; lia)
         end.
  reflexivity.
Qed.

Lemma try_date_fields (w2 w4 : nat) n :
  (w2 = 0 \/ w2 = 2 \/ w2 = 4)%nat -> (w4 = 0 \/ w4 = 2 \/ w4 = 4)%nat ->
  1 <= n <= PyDate.MAXORDINAL ->
  let d := PyDate.mk_date n in
  let text :=
    (PyStr.zfill w2 (PyStr.of_Z (PyDate.day d)) ++ "."
     ++ PyStr.zfill w2 (PyStr.of_Z (PyDate.month d)) ++ "."
     ++ PyStr.zfill w4 (PyStr.of_Z (PyDate.year d)))%string in
  PyStr.strip text = text /\ try_date text = Got d.
Proof.
  intros H2 H4 Hn d text.
  destruct (date_fields n Hn) as (Hy & Hm & Hd & _). fold d in Hy, Hm, Hd.
  destruct (reads_back_text w2 _
              (reads_back_table w2 (PyDate.day d) H2 ltac:(lia)))
    as [Dd Id].
  destruct (reads_back_text w2 _
              (reads_back_table w2 (PyDate.month d) H2 ltac:(lia)))
    as [Dm Im].
  destruct (reads_back_text w4 _
              (reads_back_table w4 (PyDate.year d) H4 ltac:(lia)))
    as [Dy Iy].
  subst text. split.
  - apply strip_no_space.
    rewrite !digits_and_points_app, (digits_and_points_digits _ Dd),
      (digits_and_points_digits _ Dm), (digits_and_points_digits _ Dy).
    reflexivity.
  - unfold try_date.
    change ("." ++ ?x)%string with (String "."%char x).
    cbn [append].
    rewrite (split_digits_dot _ _ Dd), (split_digits_dot _ _ Dm),
      (split_digits _ Dy).
    rewrite Id, Im, Iy. apply date_new_fields. exact Hn.
Qed.

(** X22. A date of the calendar, written as the report titles write it
    (day, month and year without padding), is read back by
    [parse_date_input] as the same date at the first prompt; so is the
    zero-padded form [dd.mm.yyyy], and so is the form in which the
    reservation listings print a date. *)
Theorem printed_date_is_read_back
  (prompt : string) (d : date) (rest : list string) (out : list event)
  (file : option string) :
  PyDate.valid d ->
  parse_date_input prompt (mk_world (format_date_fi d :: rest) out file)
  = Returned d (mk_world rest (out ++ [Prompt prompt]) file)
  /\ parse_date_input prompt (mk_world (padded_date d :: rest) out file)
     = Returned d (mk_world rest (out ++ [Prompt prompt]) file)
  /\ parse_date_input prompt (mk_world (strftime_dmY d :: rest) out file)
     = Returned d (mk_world rest (out ++ [Prompt prompt]) file).
Proof.
  intros Hv. destruct d as [n]. unfold PyDate.valid in Hv.
  cbn [PyDate.toordinal] in Hv.
  pose proof (try_date_fields 0 0 n (or_introl eq_refl) (or_introl eq_refl) Hv)
    as H0.
  pose proof (try_date_fields 2 4 n (or_intror (or_introl eq_refl))
                (or_intror (or_intror eq_refl)) Hv) as H2.
  pose proof (try_date_fields 2 0 n (or_intror (or_introl eq_refl))
                (or_introl eq_refl) Hv) as H3.
  cbv zeta in H0, H2, H3. rewrite !zfill_0 in H0. rewrite zfill_0 in H3.
  destruct H0 as [S0 T0]. destruct H2 as [S2 T2]. destruct H3 as [S3 T3].
  unfold parse_date_input. cbn [stdin stdout report_txt parse_date_lines].
  split; [ | split ].
  - unfold format_date_fi. rewrite S0, T0. reflexivity.
  - unfold padded_date. rewrite S2, T2. reflexivity.
  - unfold strftime_dmY. rewrite S3, T3. reflexivity.
Qed.

Lemma printed_date_is_read_back_witness :
  PyDate.valid (day_2025 11 1)
  /\ parse_date_input "Enter start date (dd.mm.yyyy): "
       (mk_world ["1.11.2025"; "2.11.2025"] [] None)
     = Returned (day_2025 11 1)
         (mk_world ["2.11.2025"]
            [Prompt "Enter start date (dd.mm.yyyy): "] None).
Proof.
  assert (Hv : PyDate.valid (day_2025 11 1))
    by (split; vm_compute; discriminate).
  split; [ exact Hv | ].
  exact (proj1 (printed_date_is_read_back
                  "Enter start date (dd.mm.yyyy): " (day_2025 11 1)
                  ["2.11.2025"] [] None Hv)).
Defined.

End DateRoundTrip.

(* ===================================================================== *)
(** * The session *)

Section SessionFacts.

Import TaskF Spec Examples Aggregates Samples Console ConsoleSpec Session.

Variable csv_reader : ascii -> string -> list (list string).
Variable fromisoformat : string -> result datetime.

Lemma grows_refl w : grows w w.
Proof.
  split; [ exists []; rewrite app_nil_r; reflexivity | exists []; reflexivity ].
Qed.

Lemma grows_trans w1 w2 w3 : grows w1 w2 -> grows w2 w3 -> grows w1 w3.
Proof.
  intros ([m1 H1] & [c1 C1]) ([m2 H2] & [c2 C2]).
  split; [ exists (m1 ++ m2)%list; rewrite H2, H1, app_assoc; reflexivity | ].
  exists (c1 ++ c2)%list. rewrite C1, C2, app_assoc. reflexivity.
Qed.

Lemma reads_only_grows w w' : reads_only w w' -> grows w w'.
Proof. intros (H & C & _). split; assumption. Qed.

Lemma grows_length w w' :
  grows w w' -> (List.length (stdin w') <= List.length (stdin w))%nat.
Proof.
  intros (_ & [c C]). rewrite C, length_app. lia.
Qed.

Lemma printed_all_grows r w w' :
  grows w w' -> printed_all r w -> printed_all r w'.
Proof.
  intros ([more H] & _) Hp. unfold printed_all in *.
  rewrite H. eapply Forall_impl; [ | exact Hp ].
  intros line Hin. apply in_or_app. left. exact Hin.
Qed.

Lemma last_event_snoc w out ev file inp :
  w = mk_world inp (out ++ [ev]) file -> last_event w = Some ev.
Proof.
  intros ->. unfold last_event. cbn [stdout]. rewrite rev_app_distr.
  reflexivity.
Qed.

Lemma print_report_to_console_eq r : forall w,
  print_report_to_console r w
  = Returned tt
      (mk_world (stdin w) (stdout w ++ map Line r) (report_txt w)).
Proof.
  induction r as [ | line r IH ]; intros w.
  - cbn. rewrite app_nil_r. destruct w; reflexivity.
  - cbn [print_report_to_console]. unfold and_then, print. rewrite IH.
    cbn [stdin stdout report_txt map]. rewrite <- app_assoc. reflexivity.
Qed.

Lemma show_main_menu_eq w :
  show_main_menu w
  = match stdin w with
    | [] =>
        Uncaught EOFError
          (mk_world [] (stdout w ++ main_menu_events) (report_txt w))
    | line :: rest =>
        Returned (PyStr.strip line)
          (mk_world rest (stdout w ++ main_menu_events) (report_txt w))
    end.
Proof.
  unfold show_main_menu, and_then, print, input, ret, main_menu_events.
  destruct w as [inp out file]. cbn [stdin stdout report_txt].
  destruct inp; rewrite <- !app_assoc; reflexivity.
Qed.

Lemma show_after_menu_eq w :
  show_after_menu w
  = match stdin w with
    | [] =>
        Uncaught EOFError
          (mk_world [] (stdout w ++ after_menu_events) (report_txt w))
    | line :: rest =>
        Returned (PyStr.strip line)
          (mk_world rest (stdout w ++ after_menu_events) (report_txt w))
    end.
Proof.
  unfold show_after_menu, and_then, print, input, ret, after_menu_events.
  destruct w as [inp out file]. cbn [stdin stdout report_txt].
  destruct inp; rewrite <- !app_assoc; reflexivity.
Qed.

Lemma after_menu_ok_step r w w1 o :
  grows w w1 ->
  (List.length (stdin w1) < List.length (stdin w))%nat ->
  (report_txt w1 = report_txt w \/ report_txt w1 = Some (file_text r)) ->
  after_menu_ok r w1 o -> after_menu_ok r w o.
Proof.
  intros G L F. unfold after_menu_ok.
  destruct o as [[again | ] w' | e w']; [ | tauto | ].
  - intros (G' & L' & F' & Hb).
    split; [ exact (grows_trans _ _ _ G G') | ].
    split; [ lia | ].
    split; [ | exact Hb ].
    destruct F' as [F' | F']; [ rewrite F'; exact F | right; exact F' ].
  - intros (He & G' & F').
    split; [ exact He | ].
    split; [ exact (grows_trans _ _ _ G G') | ].
    destruct F' as [F' | F']; [ rewrite F'; exact F | right; exact F' ].
Qed.

Lemma after_menu_loop_ok fuel r : forall w,
  (List.length (stdin w) < fuel)%nat ->
  after_menu_ok r w (after_menu_loop fuel r w).
Proof.
  induction fuel as [ | fuel IH ]; intros w Hf; [ lia | ].
  cbn [after_menu_loop]. unfold and_then at 1. rewrite show_after_menu_eq.
  destruct w as [inp out file]. cbn [stdin stdout report_txt] in *.
  destruct inp as [ | line rest ].
  - cbn. split; [ split; reflexivity | ].
    split; [ | left; reflexivity ].
    split; [ eexists; reflexivity | exists []; reflexivity ].
  - assert (G : forall more f,
      grows (mk_world (line :: rest) out file)
            (mk_world rest ((out ++ after_menu_events) ++ more) f)).
    { intros more f. split; cbn [stdin stdout].
      - exists (after_menu_events ++ more)%list.
        rewrite app_assoc. reflexivity.
      - exists [line]. reflexivity. }
    destruct (String.eqb (PyStr.strip line) "1").
    + unfold and_then, write_report_to_file, print.
      cbn [stdin stdout report_txt].
      eapply after_menu_ok_step; [ | | | apply IH; cbn [stdin List.length] in *; lia ].
      * apply (G [Line "Wrote report to report.txt"]).
      * cbn [stdin List.length]. lia.
      * right. reflexivity.
    + destruct (String.eqb (PyStr.strip line) "2").
      * cbn. split; [ | split; [ lia | split; [ left; reflexivity | ] ] ].
        -- specialize (G [] file). rewrite app_nil_r in G. exact G.
        -- discriminate.
      * destruct (String.eqb (PyStr.strip line) "3").
        -- unfold and_then, print, ret. cbn [stdin stdout report_txt].
           split; [ apply (G [Line "Goodbye!"]) | ].
           split; [ cbn; lia | split; [ left; reflexivity | ] ].
           intros _. eapply last_event_snoc. reflexivity.
        -- unfold and_then, print. cbn [stdin stdout report_txt].
           eapply after_menu_ok_step; [ | | | apply IH; cbn [stdin List.length] in *; lia ].
           ++ apply (G [Line "Unknown choice. Please select 1-3."]).
           ++ cbn [stdin List.length]. lia.
           ++ left. reflexivity.
Qed.

Lemma append_line_assoc (a b s : string) c :
  ((a ++ String c b) ++ s)%string = (a ++ String c (b ++ s))%string.
Proof.
  induction a as [ | x a IH ]; cbn [append]; [ reflexivity | ].
  rewrite IH. reflexivity.
Qed.

Lemma printed_after_report r w :
  printed_all r (mk_world (stdin w) (stdout w ++ map Line r) (report_txt w)).
Proof.
  unfold printed_all. cbn [stdout]. apply Forall_forall.
  intros line Hin. apply in_or_app. right. apply in_map. exact Hin.
Qed.

Lemma session_error_from e w w1 w' :
  grows w w1 -> session_error e w1 w' -> session_error e w w'.
Proof.
  intros G [H | [(He & c & l & Hc & Ho) | (w0 & G0 & H)]].
  - left. exact H.
  - right. left. split; [ exact He | ].
    destruct G as (_ & [c1 C1]).
    exists (c1 ++ c)%list, l. split; [ | exact Ho ].
    rewrite C1, Hc, <- app_assoc. reflexivity.
  - right. right. exists w0. split; [ exact (grows_trans _ _ _ G G0) | ].
    exact H.
Qed.

(** A session that goes on from a later world, in which the report file
    is as before or holds the printed report [r]. *)
Lemma session_ok_from r w w1 o :
  grows w w1 ->
  (report_txt w1 = report_txt w
   \/ (report_txt w1 = Some (file_text r) /\ is_report r
       /\ printed_all r w1)) ->
  session_ok w1 o -> session_ok w o.
Proof.
  intros G F. unfold session_ok.
  assert (Hfile : forall w', grows w1 w' -> file_ok w1 w' -> file_ok w w').
  { intros w' G' [F' | F']; [ | right; exact F' ].
    destruct F as [F | (F & Hr & Hp)].
    - left. congruence.
    - right. exists r. split; [ exact Hr | ].
      split; [ congruence | exact (printed_all_grows _ _ _ G' Hp) ]. }
  destruct o as [[u | ] w' | e w']; [ | tauto | ].
  - intros (G' & F' & L).
    split; [ exact (grows_trans _ _ _ G G') | ].
    split; [ exact (Hfile w' G' F') | exact L ].
  - intros (He & G' & F').
    split; [ exact (session_error_from _ _ _ _ G He) | ].
    split; [ exact (grows_trans _ _ _ G G') | exact (Hfile w' G' F') ].
Qed.

(** Printing a report and running the post-report loop, then going on
    with the main loop. *)
Lemma after_report_ok fuel rows daily r w :
  (forall lr w', (List.length (stdin w') < fuel)%nat ->
     session_ok w' (main_loop fuel rows daily lr w')) ->
  is_report r -> (List.length (stdin w) < fuel)%nat ->
  session_ok w
    ((_ <~ print_report_to_console r ;;;
      again <~ after_menu_loop fuel r ;;;
      match again with
      | None => ret None
      | Some true => main_loop fuel rows daily r
      | Some false => ret (Some tt)
      end) w).
Proof.
  intros IH Hr Hf.
  unfold and_then at 1. rewrite print_report_to_console_eq.
  set (w3 := mk_world (stdin w) (stdout w ++ map Line r) (report_txt w)).
  assert (G3 : grows w w3).
  { split; [ exists (map Line r); reflexivity | exists []; reflexivity ]. }
  assert (P3 : printed_all r w3) by apply printed_after_report.
  unfold and_then.
  pose proof (after_menu_loop_ok fuel r w3 Hf) as Ha.
  destruct (after_menu_loop fuel r w3) as [[[ | ] | ] w4 | e w4];
    cbn [after_menu_ok] in Ha.
  - destruct Ha as (G4 & L4 & F4 & _).
    apply (session_ok_from r w w4).
    + exact (grows_trans _ _ _ G3 G4).
    + destruct F4 as [F4 | F4]; [ left; exact F4 | right ].
      split; [ exact F4 | ].
      split; [ exact Hr | exact (printed_all_grows _ _ _ G4 P3) ].
    + apply IH. cbn [stdin w3] in L4. lia.
  - destruct Ha as (G4 & L4 & F4 & Hb).
    cbn [ret session_ok].
    split; [ exact (grows_trans _ _ _ G3 G4) | ].
    split; [ | apply Hb; reflexivity ].
    destruct F4 as [F4 | F4]; [ left; exact F4 | right ].
    exists r. split; [ exact Hr | ].
    split; [ exact F4 | exact (printed_all_grows _ _ _ G4 P3) ].
  - destruct Ha.
  - destruct Ha as (He & G4 & F4).
    cbn [session_ok].
    split; [ left; exact He | ].
    split; [ exact (grows_trans _ _ _ G3 G4) | ].
    destruct F4 as [F4 | F4]; [ left; exact F4 | right ].
    exists r. split; [ exact Hr | ].
    split; [ exact F4 | exact (printed_all_grows _ _ _ G4 P3) ].
Qed.

Lemma yearly_report_is_report rows : is_report (create_yearly_report rows).
Proof.
  unfold is_report, create_yearly_report, metric_lines. repeat eexists.
Qed.

Lemma session_ok_reads w w1 o :
  reads_only w w1 -> session_ok w1 o -> session_ok w o.
Proof.
  intros R. apply (session_ok_from [] w w1).
  - apply reads_only_grows. exact R.
  - left. apply R.
Qed.

Lemma main_loop_ok fuel rows daily : forall lr w,
  (List.length (stdin w) < fuel)%nat ->
  session_ok w (main_loop fuel rows daily lr w).
Proof.
  induction fuel as [ | fuel IH ]; intros lr w Hf; [ lia | ].
  cbn [main_loop]. cbv zeta.
  unfold and_then at 1. rewrite show_main_menu_eq.
  destruct w as [inp out file]. cbn [stdin stdout report_txt] in *.
  destruct inp as [ | line rest ].
  - cbn [session_ok]. split; [ left; split; reflexivity | ].
    split; [ | left; reflexivity ].
    split; [ eexists; reflexivity | exists []; reflexivity ].
  - cbn [List.length] in Hf.
    set (w1 := mk_world rest (out ++ main_menu_events) file).
    assert (R1 : reads_only (mk_world (line :: rest) out file) w1).
    { split; [ eexists; reflexivity | ].
      split; [ exists [line]; reflexivity | reflexivity ]. }
    assert (L1 : (List.length (stdin w1) < fuel)%nat) by (cbn; lia).
    apply (session_ok_reads _ w1 _ R1).
    destruct (String.eqb (PyStr.strip line) "1").
    { unfold and_then at 1.
      pose proof (console_daily_report_reads daily w1) as Hd.
      destruct (Console.create_daily_report daily w1) as [r w2 | e w2].
      - destruct Hd as (Hr & _ & R2).
        apply (session_ok_reads _ w2 _ R2).
        apply after_report_ok; [ exact IH | exact Hr | ].
        pose proof (grows_length _ _ (reads_only_grows _ _ R2)). lia.
      - destruct Hd as (He & R2). cbn [session_ok].
        split; [ | split; [ apply reads_only_grows; exact R2
                          | left; apply R2 ] ].
        destruct He as [He | [He | He]];
          [ left; exact He | right; left; exact He | right; right ].
        exists w1. split; [ apply grows_refl | exact He ]. }
    destruct (String.eqb (PyStr.strip line) "2").
    { unfold and_then at 1.
      pose proof (console_monthly_report_reads daily w1) as Hd.
      destruct (Console.create_monthly_report daily w1) as [r w2 | e w2].
      - destruct Hd as (Hr & _ & R2).
        apply (session_ok_reads _ w2 _ R2).
        apply after_report_ok; [ exact IH | exact Hr | ].
        pose proof (grows_length _ _ (reads_only_grows _ _ R2)). lia.
      - destruct Hd as (He & Hs & R2). cbn [session_ok].
        split; [ left; split; assumption | ].
        split; [ apply reads_only_grows; exact R2 | left; apply R2 ]. }
    destruct (String.eqb (PyStr.strip line) "3").
    { apply after_report_ok;
        [ exact IH | apply yearly_report_is_report | exact L1 ]. }
    destruct (String.eqb (PyStr.strip line) "4").
    { unfold and_then, print, ret. cbn [session_ok].
      split; [ split; [ eexists; reflexivity | exists []; reflexivity ] | ].
      split; [ left; reflexivity | ].
      eapply last_event_snoc. reflexivity. }
    unfold and_then at 1. unfold print.
    apply (session_ok_reads _
             (mk_world (stdin w1)
                (stdout w1 ++ [Line "Unknown choice. Please select 1-4."])
                (report_txt w1))).
    + split; [ eexists; reflexivity | ].
      split; [ exists []; reflexivity | reflexivity ].
    + apply IH. exact L1.
Qed.

(** X14. A session on loaded data always ends, and only in these ways:
    by an exit choice, right after the farewell line; with [EOFError] when
    the input has come to its end; with [OverflowError] when the last
    line read is a date with a field beyond the C [int] range; or with
    [ValueError] when the two date prompts of a range report have just
    returned dates the later of which is 9999-12-31.  When the data
    cannot be loaded, the error of [read_data] ends the program before
    anything is printed or read. *)
Theorem main_session_ends (file : option string) (w : world) :
  match main csv_reader fromisoformat file w with
  | Returned None _ => False
  | Returned (Some _) w' =>
      grows w w' /\ last_event w' = Some (Line "Goodbye!")
      /\ exists rows, read_data csv_reader fromisoformat file = Ok rows
  | Uncaught e w' =>
      (exists e0, read_data csv_reader fromisoformat file = Raise e0
                  /\ e = Builtin e0 /\ w' = w)
      \/ ((exists rows, read_data csv_reader fromisoformat file = Ok rows)
          /\ grows w w'
          /\ ((e = EOFError /\ stdin w' = [])
              \/ (e = OverflowError
                  /\ exists consumed line,
                       stdin w = (consumed ++ line :: stdin w')%list
                       /\ oversized_date line)
              \/ (e = Builtin ValueError
                  /\ exists w0 a b w1,
                       grows w w0
                       /\ parse_date_input "Enter start date (dd.mm.yyyy): "
                            w0
                          = Returned a w1
                       /\ parse_date_input "Enter end date (dd.mm.yyyy): " w1
                          = Returned b w'
                       /\ later a b = PyDate.max)))
  end.
Proof.
  unfold main.
  destruct (read_data csv_reader fromisoformat file) as [rows | e0].
  - pose proof (main_loop_ok (S (List.length (stdin w))) rows
                  (build_daily_index rows) [] w (Nat.lt_succ_diag_r _)) as H.
    destruct (main_loop _ rows _ [] w) as [[u | ] w' | e w'];
      cbn [session_ok] in H.
    + destruct H as (G & _ & L). split; [ exact G | ].
      split; [ exact L | exists rows; reflexivity ].
    + exact H.
    + destruct H as (He & G & _). right.
      split; [ exists rows; reflexivity | ]. split; [ exact G | ].
      destruct He as [He | [He | (w0 & G0 & He & a & b & w1 & P1 & P2 & Hm)]];
        [ left; exact He | right; left; exact He | right; right ].
      split; [ exact He | ].
      exists w0, a, b, w1.
      split; [ exact G0 | ]. split; [ exact P1 | ].
      split; [ exact P2 | exact Hm ].
  - left. exists e0. repeat split.
Qed.

(** X15. Whatever the session, the file [report.txt] is afterwards either
    as it was before, or it holds the text of a report (five lines, each
    ended by a line feed) every line of which was printed to standard
    output during the session. *)
Theorem report_file_holds_a_printed_report
  (file : option string) (w : world) :
  match main csv_reader fromisoformat file w with
  | Returned _ w' | Uncaught _ w' =>
      report_txt w' = report_txt w
      \/ exists title cons prod temp,
           report_txt w'
           = Some (divider ++ String PyLib.LF
                     (title ++ String PyLib.LF
                        (cons ++ String PyLib.LF
                           (prod ++ String PyLib.LF
                              (temp ++ String PyLib.LF EmptyString)))))
           /\ Forall (fun line => In (Line line) (stdout w'))
                [divider; title; cons; prod; temp]
  end.
Proof.
  assert (Hfile : forall w', file_ok w w' ->
    report_txt w' = report_txt w
    \/ exists title cons prod temp,
         report_txt w'
         = Some (divider ++ String PyLib.LF
                   (title ++ String PyLib.LF
                      (cons ++ String PyLib.LF
                         (prod ++ String PyLib.LF
                            (temp ++ String PyLib.LF EmptyString)))))
         /\ Forall (fun line => In (Line line) (stdout w'))
              [divider; title; cons; prod; temp]).
  { intros w' [F | (r & (t & c & p & k & ->) & F & Hp)]; [ left; exact F | ].
    right. exists t, c, p, k. split; [ | exact Hp ].
    rewrite F. unfold file_text. cbn [join_lines].
    rewrite !append_line_assoc. reflexivity. }
  unfold main.
  destruct (read_data csv_reader fromisoformat file) as [rows | e0].
  - pose proof (main_loop_ok (S (List.length (stdin w))) rows
                  (build_daily_index rows) [] w (Nat.lt_succ_diag_r _)) as H.
    destruct (main_loop _ rows _ [] w) as [[u | ] w' | e w'];
      cbn [session_ok] in H.
    + apply Hfile. apply H.
    + destruct H.
    + apply Hfile. apply H.
  - left. reflexivity.
Qed.

End SessionFacts.
(* ===================================================================== *)
(** * Reservations: the printers of the three scripts *)

Section ReservationPrinters.

Import ReservationSpec.

Ltac printer_step :=
  cbn -[strftime_dmY strftime_HM PyStr.of_Z PyStr.replace PyFloat.format_2f
        PyNum.int_mul_float PyFloat.add Z.add Z.sub Z.of_nat].

Lemma confirmed_reservations_C rs :
  TaskC.confirmed_reservations (map TaskC.of_Reservation rs)
  = TaskG_class.confirmed_reservations rs.
Proof.
  induction rs as [ | r rs IH ]; [ reflexivity | ].
  printer_step. unfold TaskG_class.is_confirmed.
  destruct (TaskG_class.confirmed r); rewrite IH; reflexivity.
Qed.

Lemma confirmed_reservations_dict rs :
  TaskG_dict.confirmed_reservations (map TaskG_dict.of_Reservation rs)
  = TaskG_class.confirmed_reservations rs.
Proof.
  induction rs as [ | r rs IH ]; [ reflexivity | ].
  printer_step. unfold TaskG_class.is_confirmed.
  destruct (TaskG_class.confirmed r); rewrite IH; reflexivity.
Qed.

Lemma confirmed_reservations_length rs :
  List.length (TaskG_class.confirmed_reservations rs)
  = List.length (filter TaskG_class.confirmed rs).
Proof.
  induction rs as [ | r rs IH ]; [ reflexivity | ].
  printer_step. unfold TaskG_class.is_confirmed.
  destruct (TaskG_class.confirmed r); cbn [List.length]; rewrite IH;
    reflexivity.
Qed.

Lemma confirmation_statuses_C rs :
  TaskC.confirmation_statuses (map TaskC.of_Reservation rs)
  = TaskG_class.confirmation_statuses rs.
Proof.
  induction rs as [ | r rs IH ]; [ reflexivity | ].
  printer_step. rewrite IH. reflexivity.
Qed.

Lemma confirmation_statuses_dict rs :
  TaskG_dict.confirmation_statuses (map TaskG_dict.of_Reservation rs)
  = TaskG_class.confirmation_statuses rs.
Proof.
  induction rs as [ | r rs IH ]; [ reflexivity | ].
  printer_step. rewrite IH. reflexivity.
Qed.

Lemma confirmation_statuses_length rs :
  List.length (TaskG_class.confirmation_statuses rs) = List.length rs.
Proof.
  induction rs as [ | r rs IH ]; [ reflexivity | ].
  printer_step. rewrite IH. reflexivity.
Qed.

(** X17. The three scripts print the same list of confirmed reservations,
    one line for each confirmed reservation, and the same list of
    confirmation statuses, one line for each reservation. *)
Theorem confirmed_and_status_listings_agree
  (rs : list TaskG_class.Reservation) :
  TaskC.confirmed_reservations (map TaskC.of_Reservation rs)
  = TaskG_class.confirmed_reservations rs
  /\ TaskG_dict.confirmed_reservations (map TaskG_dict.of_Reservation rs)
     = TaskG_class.confirmed_reservations rs
  /\ List.length (TaskG_class.confirmed_reservations rs)
     = List.length (filter TaskG_class.confirmed rs)
  /\ TaskC.confirmation_statuses (map TaskC.of_Reservation rs)
     = TaskG_class.confirmation_statuses rs
  /\ TaskG_dict.confirmation_statuses (map TaskG_dict.of_Reservation rs)
     = TaskG_class.confirmation_statuses rs
  /\ List.length (TaskG_class.confirmation_statuses rs) = List.length rs.
Proof.
  split; [ apply confirmed_reservations_C | ].
  split; [ apply confirmed_reservations_dict | ].
  split; [ apply confirmed_reservations_length | ].
  split; [ apply confirmation_statuses_C | ].
  split; [ apply confirmation_statuses_dict | ].
  apply confirmation_statuses_length.
Qed.

(** ** The summary *)

Lemma count_loop_counts rs : forall c n,
  TaskC.count_loop c n (map TaskC.of_Reservation rs)
  = (c + confirmed_count rs,
     n + (Z.of_nat (List.length rs) - confirmed_count rs)).
Proof.
  unfold confirmed_count.
  induction rs as [ | r rs IH ]; intros c n.
  - cbn [map TaskC.count_loop filter List.length]. f_equal; lia.
  - cbn [map TaskC.count_loop filter].
    change (TaskC.r8 (TaskC.of_Reservation r)) with (TaskG_class.confirmed r).
    destruct (TaskG_class.confirmed r); rewrite IH; cbn [List.length];
      f_equal; lia.
Qed.

Lemma confirmed_count_bounds rs :
  0 <= confirmed_count rs <= Z.of_nat (List.length rs).
Proof.
  unfold confirmed_count.
  pose proof (filter_length_le TaskG_class.confirmed rs). lia.
Qed.

Lemma filter_confirmed_dict rs :
  List.length (filter TaskG_dict.confirmed (map TaskG_dict.of_Reservation rs))
  = List.length (filter TaskG_class.confirmed rs).
Proof.
  induction rs as [ | r rs IH ]; [ reflexivity | ].
  cbn [map filter].
  change (TaskG_dict.confirmed (TaskG_dict.of_Reservation r))
    with (TaskG_class.confirmed r).
  destruct (TaskG_class.confirmed r); cbn [List.length]; rewrite IH;
    reflexivity.
Qed.

(** X18. The counting loop of TaskC and the list length with its
    subtraction in the TaskG scripts give the same two summary lines: the
    number of confirmed reservations, and the number of the others; the
    two numbers are not negative and add up to the number of
    reservations. *)
Theorem confirmation_summary_counts (rs : list TaskG_class.Reservation) :
  exists confirmed not_confirmed,
    TaskC.count_loop 0 0 (map TaskC.of_Reservation rs)
    = (confirmed, not_confirmed)
    /\ confirmed = Z.of_nat (List.length (filter TaskG_class.confirmed rs))
    /\ 0 <= confirmed /\ 0 <= not_confirmed
    /\ confirmed + not_confirmed = Z.of_nat (List.length rs)
    /\ TaskC.confirmation_summary (map TaskC.of_Reservation rs)
       = [ "- Confirmed reservations: " ++ PyStr.of_Z confirmed ++ " pcs";
           "- Not confirmed reservations: " ++ PyStr.of_Z not_confirmed
           ++ " pcs" ]
    /\ TaskG_class.confirmation_summary rs
       = TaskC.confirmation_summary (map TaskC.of_Reservation rs)
    /\ TaskG_dict.confirmation_summary (map TaskG_dict.of_Reservation rs)
       = TaskC.confirmation_summary (map TaskC.of_Reservation rs).
Proof.
  pose proof (confirmed_count_bounds rs) as Hb.
  pose proof (count_loop_counts rs 0 0) as Hc.
  rewrite !Z.add_0_l in Hc.
  exists (confirmed_count rs),
         (Z.of_nat (List.length rs) - confirmed_count rs).
  split; [ exact Hc | ].
  split; [ reflexivity | ].
  split; [ lia | ]. split; [ lia | ]. split; [ lia | ].
  unfold TaskC.confirmation_summary, TaskG_class.confirmation_summary,
    TaskG_dict.confirmation_summary.
  rewrite Hc, filter_confirmed_dict, length_map.
  repeat split.
Qed.

(** ** The long reservations *)

Lemma long_lengths rs :
  List.length (TaskC.long_reservations (map TaskC.of_Reservation rs))
  = (List.length (TaskG_class.long_reservations rs)
     + List.length (filter (fun r => (TaskG_class.duration r =? 3)%Z) rs))%nat.
Proof.
  induction rs as [ | r rs IH ]; [ reflexivity | ].
  cbn [map TaskC.long_reservations TaskG_class.long_reservations filter].
  change (TaskC.r6 (TaskC.of_Reservation r)) with (TaskG_class.duration r).
  cbv zeta.
  destruct (Z.lt_trichotomy (TaskG_class.duration r) 3) as [L | [E | G]].
  - replace (3 <=? TaskG_class.duration r) with false
      by (symmetry; apply Z.leb_gt; lia).
    replace (3 <? TaskG_class.duration r) with false
      by (symmetry; apply Z.ltb_ge; lia).
    replace (TaskG_class.duration r =? 3) with false
      by (symmetry; apply Z.eqb_neq; lia).
    exact IH.
  - replace (3 <=? TaskG_class.duration r) with true
      by (symmetry; apply Z.leb_le; lia).
    replace (3 <? TaskG_class.duration r) with false
      by (symmetry; apply Z.ltb_ge; lia).
    replace (TaskG_class.duration r =? 3) with true
      by (symmetry; apply Z.eqb_eq; lia).
    cbn [List.length]. rewrite IH. lia.
  - replace (3 <=? TaskG_class.duration r) with true
      by (symmetry; apply Z.leb_le; lia).
    replace (3 <? TaskG_class.duration r) with true
      by (symmetry; apply Z.ltb_lt; lia).
    replace (TaskG_class.duration r =? 3) with false
      by (symmetry; apply Z.eqb_neq; lia).
    cbn [List.length]. rewrite IH. lia.
Qed.

Lemma long_same_without_three rs :
  Forall (fun r => TaskG_class.duration r <> 3) rs ->
  TaskC.long_reservations (map TaskC.of_Reservation rs)
  = TaskG_class.long_reservations rs.
Proof.
  induction 1 as [ | r rs Hr _ IH ]; [ reflexivity | ].
  cbn [map TaskC.long_reservations TaskG_class.long_reservations].
  change (TaskC.r6 (TaskC.of_Reservation r)) with (TaskG_class.duration r).
  cbv zeta.
  destruct (Z.lt_trichotomy (TaskG_class.duration r) 3) as [L | [E | G]];
    [ | contradiction | ].
  - replace (3 <=? TaskG_class.duration r) with false
      by (symmetry; apply Z.leb_gt; lia).
    replace (3 <? TaskG_class.duration r) with false
      by (symmetry; apply Z.ltb_ge; lia).
    exact IH.
  - replace (3 <=? TaskG_class.duration r) with true
      by (symmetry; apply Z.leb_le; lia).
    replace (3 <? TaskG_class.duration r) with true
      by (symmetry; apply Z.ltb_lt; lia).
    rewrite IH. reflexivity.
Qed.

Lemma no_three_of_filter rs :
  filter (fun r => TaskG_class.duration r =? 3) rs = [] ->
  Forall (fun r => TaskG_class.duration r <> 3) rs.
Proof.
  induction rs as [ | r rs IH ]; intros H; [ constructor | ].
  cbn [filter] in H.
  destruct (TaskG_class.duration r =? 3) eqn:E; [ discriminate | ].
  constructor; [ apply Z.eqb_neq; exact E | apply IH; exact H ].
Qed.

(** X19. The long listing of the TaskG scripts is the same as that of
    TaskC exactly when no reservation lasts three hours; each reservation
    of three hours is one more line in TaskC.  The method [is_long] of the
    class holds of the reservations TaskC lists, so the class's own
    listing leaves out reservations of which [is_long] holds. *)
Theorem long_listings_equal_iff_no_three_hours
  (rs : list TaskG_class.Reservation) :
  (TaskC.long_reservations (map TaskC.of_Reservation rs)
   = TaskG_class.long_reservations rs
   <-> Forall (fun r => TaskG_class.duration r <> 3) rs)
  /\ List.length (TaskC.long_reservations (map TaskC.of_Reservation rs))
     = (List.length (TaskG_class.long_reservations rs)
        + List.length (filter (fun r => (TaskG_class.duration r =? 3)%Z) rs))%nat
  /\ TaskG_dict.long_reservations (map TaskG_dict.of_Reservation rs)
     = TaskG_class.long_reservations rs
  /\ (forall r,
        TaskG_class.is_long r = true
        <-> TaskC.long_reservations [TaskC.of_Reservation r] <> [])
  /\ (forall r,
        TaskG_class.long_reservations [r] <> []
        <-> TaskG_class.is_long r = true /\ TaskG_class.duration r <> 3).
Proof.
  split; [ split | ].
  - intros H. apply no_three_of_filter.
    pose proof (long_lengths rs) as L. rewrite H in L.
    apply length_zero_iff_nil. lia.
  - apply long_same_without_three.
  - split; [ apply long_lengths | ].
    split.
    { rewrite TaskG_dict_long_reservations_spec,
        TaskG_class_long_reservations_spec. reflexivity. }
    split; intros r; unfold TaskG_class.is_long;
      cbn [TaskC.long_reservations TaskG_class.long_reservations];
      change (TaskC.r6 (TaskC.of_Reservation r))
        with (TaskG_class.duration r); cbv zeta.
    + destruct (3 <=? TaskG_class.duration r); split;
        try discriminate; try reflexivity; intros H; exfalso; apply H;
        reflexivity.
    + destruct (3 <? TaskG_class.duration r) eqn:E.
      * apply Z.ltb_lt in E. split; [ intros _ | discriminate ].
        split; [ apply Z.leb_le; lia | lia ].
      * apply Z.ltb_ge in E. split; [ intros H; exfalso; apply H; reflexivity | ].
        intros [H1 H2]. apply Z.leb_le in H1. lia.
Qed.

(** ** The revenue *)

Lemma revenue_loop_confirmed rows : forall total,
  TaskC.revenue_loop total rows
  = TaskC.revenue_loop total (filter TaskC.r8 rows).
Proof.
  induction rows as [ | r rows IH ]; intros total; [ reflexivity | ].
  cbn [TaskC.revenue_loop filter].
  destruct (TaskC.r8 r) eqn:E.
  - cbn [TaskC.revenue_loop]. rewrite E. cbv zeta.
    destruct (PyNum.int_mul_float (TaskC.r6 r) (TaskC.r7 r));
      [ apply IH | reflexivity ].
  - apply IH.
Qed.

Lemma int_mul_float_None n x :
  PyNum.int_mul_float n x = None <-> PyNum.float_of_int n = None.
Proof.
  unfold PyNum.int_mul_float.
  destruct (PyNum.float_of_int n); split; congruence.
Qed.

Lemma revenue_loop_None rs : forall total,
  TaskC.revenue_loop total (map TaskC.of_Reservation rs) = None
  <-> Exists overflows rs.
Proof.
  induction rs as [ | r rs IH ]; intros total.
  - cbn [map TaskC.revenue_loop]. split; [ discriminate | ].
    intros H. inversion H.
  - cbn [map TaskC.revenue_loop].
    change (TaskC.r8 (TaskC.of_Reservation r)) with (TaskG_class.confirmed r).
    change (TaskC.r6 (TaskC.of_Reservation r)) with (TaskG_class.duration r).
    change (TaskC.r7 (TaskC.of_Reservation r)) with (TaskG_class.price r).
    cbv zeta. rewrite Exists_cons. unfold overflows at 1.
    destruct (TaskG_class.confirmed r).
    + destruct (PyNum.int_mul_float (TaskG_class.duration r)
                  (TaskG_class.price r)) eqn:E.
      * rewrite IH. split; [ intros H; right; exact H | ].
        intros [[_ H] | H]; [ | exact H ].
        apply (int_mul_float_None _ (TaskG_class.price r)) in H. congruence.
      * split; [ intros _; left | reflexivity ].
        split; [ reflexivity | ].
        apply (int_mul_float_None _ (TaskG_class.price r)). exact E.
    + rewrite IH. split; [ intros H; right; exact H | ].
      intros [[H _] | H]; [ discriminate | exact H ].
Qed.

Lemma confirmed_prices_class_None rs :
  TaskG_class.confirmed_prices rs = None <-> Exists overflows rs.
Proof.
  induction rs as [ | r rs IH ].
  - cbn [TaskG_class.confirmed_prices]. split; [ discriminate | ].
    intros H. inversion H.
  - cbn [TaskG_class.confirmed_prices].
    unfold TaskG_class.is_confirmed, TaskG_class.total_price.
    rewrite Exists_cons. unfold overflows at 1.
    destruct (TaskG_class.confirmed r).
    + destruct (PyNum.int_mul_float (TaskG_class.duration r)
                  (TaskG_class.price r)) eqn:E.
      * destruct (TaskG_class.confirmed_prices rs).
        -- split; [ discriminate | ].
           intros [[_ H] | H].
           ++ apply (int_mul_float_None _ (TaskG_class.price r)) in H.
              congruence.
           ++ apply IH in H. discriminate.
        -- split; [ intros _; right; apply IH; reflexivity | reflexivity ].
      * split; [ intros _; left | reflexivity ].
        split; [ reflexivity | ].
        apply (int_mul_float_None _ (TaskG_class.price r)). exact E.
    + rewrite IH. split; [ intros H; right; exact H | ].
      intros [[H _] | H]; [ discriminate | exact H ].
Qed.

Lemma confirmed_prices_dict rs :
  TaskG_dict.confirmed_prices (map TaskG_dict.of_Reservation rs)
  = TaskG_class.confirmed_prices rs.
Proof.
  induction rs as [ | r rs IH ]; [ reflexivity | ].
  cbn [map TaskG_dict.confirmed_prices TaskG_class.confirmed_prices].
  unfold TaskG_class.is_confirmed, TaskG_class.total_price.
  change (TaskG_dict.confirmed (TaskG_dict.of_Reservation r))
    with (TaskG_class.confirmed r).
  change (TaskG_dict.duration (TaskG_dict.of_Reservation r))
    with (TaskG_class.duration r).
  change (TaskG_dict.price (TaskG_dict.of_Reservation r))
    with (TaskG_class.price r).
  rewrite IH. reflexivity.
Qed.

Lemma total_revenue_dict rs :
  TaskG_dict.total_revenue (map TaskG_dict.of_Reservation rs)
  = TaskG_class.total_revenue rs.
Proof.
  unfold TaskG_dict.total_revenue, TaskG_class.total_revenue.
  rewrite confirmed_prices_dict. reflexivity.
Qed.

(** X20. The revenue line counts confirmed reservations only: the others
    change neither the total nor whether the printer fails.  In each of
    the three scripts it fails, with the [OverflowError] of the product,
    exactly when a confirmed reservation has a duration too large for a
    float; with no confirmed reservation the total reads 0,00. *)
Theorem total_revenue_confirmed_only (rs : list TaskG_class.Reservation) :
  TaskC.total_revenue (map TaskC.of_Reservation rs)
  = TaskC.total_revenue (filter TaskC.r8 (map TaskC.of_Reservation rs))
  /\ (TaskC.total_revenue (map TaskC.of_Reservation rs) = None
      <-> Exists overflows rs)
  /\ (TaskG_class.total_revenue rs = None <-> Exists overflows rs)
  /\ (TaskG_dict.total_revenue (map TaskG_dict.of_Reservation rs) = None
      <-> Exists overflows rs)
  /\ (filter TaskG_class.confirmed rs = [] ->
      TaskC.total_revenue (map TaskC.of_Reservation rs) = Some NO_REVENUE
      /\ TaskG_class.total_revenue rs = Some NO_REVENUE
      /\ TaskG_dict.total_revenue (map TaskG_dict.of_Reservation rs)
         = Some NO_REVENUE).
Proof.
  assert (HC : TaskC.total_revenue (map TaskC.of_Reservation rs) = None
               <-> Exists overflows rs).
  { unfold TaskC.total_revenue. rewrite <- (revenue_loop_None rs PyFloat.zero).
    destruct (TaskC.revenue_loop PyFloat.zero (map TaskC.of_Reservation rs));
      split; congruence. }
  assert (HG : TaskG_class.total_revenue rs = None <-> Exists overflows rs).
  { unfold TaskG_class.total_revenue. rewrite <- confirmed_prices_class_None.
    destruct (TaskG_class.confirmed_prices rs); split; congruence. }
  split.
  { unfold TaskC.total_revenue. rewrite <- revenue_loop_confirmed.
    reflexivity. }
  split; [ exact HC | ]. split; [ exact HG | ].
  split; [ rewrite total_revenue_dict; exact HG | ].
  intros Hnone. rewrite total_revenue_dict.
  assert (Hall : Forall (fun r => TaskG_class.confirmed r = false) rs).
  { clear HC HG. induction rs as [ | r rs IH ]; [ constructor | ].
    cbn [filter] in Hnone.
    destruct (TaskG_class.confirmed r) eqn:E; [ discriminate | ].
    constructor; [ exact E | apply IH; exact Hnone ]. }
  clear Hnone HC HG. split.
  - unfold TaskC.total_revenue.
    assert (H : forall total,
      TaskC.revenue_loop total (map TaskC.of_Reservation rs) = Some total).
    { induction Hall as [ | r rs Hr _ IH ]; intros total; [ reflexivity | ].
      cbn [map TaskC.revenue_loop].
      change (TaskC.r8 (TaskC.of_Reservation r))
        with (TaskG_class.confirmed r).
      rewrite Hr. apply IH. }
    rewrite H. reflexivity.
  - unfold TaskG_class.total_revenue.
    assert (H : TaskG_class.confirmed_prices rs = Some []).
    { induction Hall as [ | r rs Hr _ IH ]; [ reflexivity | ].
      cbn [TaskG_class.confirmed_prices]. unfold TaskG_class.is_confirmed.
      rewrite Hr. exact IH. }
    rewrite H. split; reflexivity.
Qed.

Lemma total_revenue_confirmed_only_witness :
  filter TaskG_class.confirmed (skipn 1 (firstn 2 office_hours)) = []
  /\ TaskC.total_revenue
       (map TaskC.of_Reservation (skipn 1 (firstn 2 office_hours)))
     = Some NO_REVENUE.
Proof.
  assert (H : filter TaskG_class.confirmed (skipn 1 (firstn 2 office_hours))
              = []) by reflexivity.
  split; [ exact H | ].
  apply (total_revenue_confirmed_only (skipn 1 (firstn 2 office_hours))).
  exact H.
Defined.

(** ** The whole output *)

Lemma blank_lines_app l1 l2 :
  blank_lines (l1 ++ l2) = (blank_lines l1 + blank_lines l2)%nat.
Proof. unfold blank_lines. rewrite filter_app, length_app. reflexivity. Qed.

Lemma blank_lines_none lines :
  Forall (fun l => exists c rest, l = String c rest) lines ->
  blank_lines lines = 0%nat.
Proof.
  unfold blank_lines. induction 1 as [ | l lines [c [rest ->]] _ IH ];
    [ reflexivity | ].
  cbn [filter String.eqb]. exact IH.
Qed.

Ltac starts_with_char :=
  match goal with
  | |- exists c rest, (?a ++ ?b)%string = String c rest =>
      cbn [append]; do 2 eexists; reflexivity
  | |- exists c rest, String ?a ?b = String c rest =>
      do 2 eexists; reflexivity
  end.

Lemma long_line_starts name d t duration resource :
  exists c rest, long_line name d t duration resource = String c rest.
Proof. unfold long_line. starts_with_char. Qed.

Lemma long_C_no_blank rows :
  blank_lines (TaskC.long_reservations rows) = 0%nat.
Proof.
  apply blank_lines_none.
  induction rows as [ | r rows IH ]; [ constructor | ].
  cbn [TaskC.long_reservations]. cbv zeta.
  destruct (3 <=? TaskC.r6 r); [ constructor | ];
    [ apply long_line_starts | exact IH | exact IH ].
Qed.

Lemma long_class_no_blank rs :
  blank_lines (TaskG_class.long_reservations rs) = 0%nat.
Proof.
  apply blank_lines_none.
  induction rs as [ | r rs IH ]; [ constructor | ].
  cbn [TaskG_class.long_reservations].
  destruct (3 <? TaskG_class.duration r); [ constructor | ];
    [ apply long_line_starts | exact IH | exact IH ].
Qed.

Lemma confirmed_C_no_blank rows :
  blank_lines (TaskC.confirmed_reservations rows) = 0%nat.
Proof.
  apply blank_lines_none.
  induction rows as [ | r rows IH ]; [ constructor | ].
  cbn [TaskC.confirmed_reservations]. cbv zeta.
  destruct (TaskC.r8 r); [ constructor | ];
    [ starts_with_char | exact IH | exact IH ].
Qed.

Lemma confirmed_class_no_blank rs :
  blank_lines (TaskG_class.confirmed_reservations rs) = 0%nat.
Proof.
  apply blank_lines_none.
  induction rs as [ | r rs IH ]; [ constructor | ].
  cbn [TaskG_class.confirmed_reservations].
  destruct (TaskG_class.is_confirmed r); [ constructor | ];
    [ starts_with_char | exact IH | exact IH ].
Qed.

Lemma status_starts (name status : string) :
  (exists c rest, status = String c rest) ->
  exists c rest, (name ++ " -> " ++ status)%string = String c rest.
Proof.
  intros _. destruct name as [ | c name ]; cbn [append];
    do 2 eexists; reflexivity.
Qed.

Lemma statuses_C_no_blank rows :
  blank_lines (TaskC.confirmation_statuses rows) = 0%nat.
Proof.
  apply blank_lines_none.
  induction rows as [ | r rows IH ]; [ constructor | ].
  cbn [TaskC.confirmation_statuses]. cbv zeta.
  constructor; [ | exact IH ].
  apply status_starts. destruct (TaskC.r8 r); do 2 eexists; reflexivity.
Qed.

Lemma statuses_class_no_blank rs :
  blank_lines (TaskG_class.confirmation_statuses rs) = 0%nat.
Proof.
  apply blank_lines_none.
  induction rs as [ | r rs IH ]; [ constructor | ].
  cbn [TaskG_class.confirmation_statuses]. cbv zeta.
  constructor; [ | exact IH ].
  apply status_starts.
  destruct (TaskG_class.is_confirmed r); do 2 eexists; reflexivity.
Qed.

Lemma summary_C_no_blank rows :
  blank_lines (TaskC.confirmation_summary rows) = 0%nat.
Proof.
  unfold TaskC.confirmation_summary.
  destruct (TaskC.count_loop 0 0 rows) as [c n]. reflexivity.
Qed.

Lemma summary_class_no_blank rs :
  blank_lines (TaskG_class.confirmation_summary rs) = 0%nat.
Proof. reflexivity. Qed.

Lemma revenue_C_no_blank rows lines :
  TaskC.total_revenue rows = Some lines -> blank_lines lines = 0%nat.
Proof.
  unfold TaskC.total_revenue.
  destruct (TaskC.revenue_loop PyFloat.zero rows); [ | discriminate ].
  intros [= <-]. reflexivity.
Qed.

Lemma revenue_class_no_blank rs lines :
  TaskG_class.total_revenue rs = Some lines -> blank_lines lines = 0%nat.
Proof.
  unfold TaskG_class.total_revenue.
  destruct (TaskG_class.confirmed_prices rs); [ | discriminate ].
  intros [= <-]. reflexivity.
Qed.

Lemma main_C_blank_lines rows :
  blank_lines (fst (TaskC.main rows)) = 4%nat.
Proof.
  unfold TaskC.main. cbv zeta.
  destruct (TaskC.total_revenue rows) as [lines | ] eqn:E; cbn [fst];
    rewrite !blank_lines_app, confirmed_C_no_blank, long_C_no_blank,
      statuses_C_no_blank, summary_C_no_blank;
    [ rewrite (revenue_C_no_blank rows lines E) | ]; reflexivity.
Qed.

Lemma main_class_blank_lines rs :
  blank_lines (fst (TaskG_class.main rs)) = 0%nat.
Proof.
  unfold TaskG_class.main. cbv zeta.
  destruct (TaskG_class.total_revenue rs) as [lines | ] eqn:E; cbn [fst];
    rewrite !blank_lines_app, confirmed_class_no_blank, long_class_no_blank,
      statuses_class_no_blank, summary_class_no_blank;
    [ rewrite (revenue_class_no_blank rs lines E) | ]; reflexivity.
Qed.

Lemma main_dict_class rs :
  TaskG_dict.main (map TaskG_dict.of_Reservation rs) = TaskG_class.main rs.
Proof.
  unfold TaskG_dict.main, TaskG_class.main.
  rewrite total_revenue_dict, confirmed_reservations_dict,
    confirmation_statuses_dict.
  rewrite TaskG_dict_long_reservations_spec,
    <- TaskG_class_long_reservations_spec.
  unfold TaskG_dict.confirmation_summary, TaskG_class.confirmation_summary.
  rewrite filter_confirmed_dict, length_map. reflexivity.
Qed.

(** X21. Whatever the reservations, the output of TaskC holds exactly
    four empty lines, one after each of its first four sections, and the
    output of the TaskG scripts holds none: the refactored scripts never
    print what the original prints.  The two TaskG scripts print the same
    as each other. *)
Theorem main_outputs_differ (rs : list TaskG_class.Reservation) :
  blank_lines (fst (TaskC.main (map TaskC.of_Reservation rs))) = 4%nat
  /\ blank_lines (fst (TaskG_class.main rs)) = 0%nat
  /\ TaskG_dict.main (map TaskG_dict.of_Reservation rs) = TaskG_class.main rs
  /\ fst (TaskC.main (map TaskC.of_Reservation rs))
     <> fst (TaskG_class.main rs).
Proof.
  pose proof (main_C_blank_lines (map TaskC.of_Reservation rs)) as HC.
  pose proof (main_class_blank_lines rs) as HG.
  split; [ exact HC | ]. split; [ exact HG | ].
  split; [ apply main_dict_class | ].
  intros Heq. rewrite Heq in HC. rewrite HG in HC. discriminate.
Qed.

End ReservationPrinters.
